(** * redflash: the host-side orchestration layer of the raymarching path tracer

    A shallow embedding of [redflash.cpp]: the global variables become one
    [World] record that every function threads explicitly, calls into the
    OptiX API, GLUT and sutil become either fields of the object model below
    or entries of an effect trace, and C++ exceptions, [exit] and undefined
    behaviour become the [Stop] outcome of a small state-and-signal monad.

    The arithmetic of [float] and [double] is kept abstract ([Scalar]); the
    concrete scenarios run [double] on the kernel's binary64 numbers and
    [float] on binary32.
    Functions of the SDK whose sources are not part of [redflash.cpp]
    (matrix algebra, camera frustum, arcball, minimum window size) are the
    fields of the [Sdk] class. *)

From Stdlib Require Import ZArith QArith Floats Uint63 Lia Ascii String.
From stdpp Require Import gmap strings list.

Open Scope Z_scope.

(** ** Machine integers *)

(** [int] is a 32-bit two's complement integer, [uint32_t] (and [unsigned])
    a 32-bit natural number; both are carried by [Z], with the wrap-around
    of conversions and increments written out. *)
Definition INT_MAX : Z := 2147483647.
Definition UINT_MAX : Z := 4294967295.

Definition wrap_uint (z : Z) : Z := z mod 2 ^ 32.
Definition wrap_int (z : Z) : Z := (z + 2 ^ 31) mod 2 ^ 32 - 2 ^ 31.

(** GLUT's constants (glut.h). *)
Definition GLUT_LEFT_BUTTON : Z := 0.
Definition GLUT_MIDDLE_BUTTON : Z := 1.
Definition GLUT_RIGHT_BUTTON : Z := 2.
Definition GLUT_DOWN : Z := 0.
Definition GLUT_UP : Z := 1.

Definition SAMPLE_NAME : string := "redflash".

(** ** Floating-point scalars *)

(** The operations [redflash.cpp] applies to [float] and to [double]
    values.  [lit q] is the value a decimal literal written [q] denotes in
    the type, [of_int] the conversion [static_cast<float>(n)]. *)
Class Scalar (R : Type) := {
  of_int : Z -> R;
  lit : Q -> R;
  M_PIf : R;
  fadd : R -> R -> R;
  fsub : R -> R -> R;
  fmul : R -> R -> R;
  fdiv : R -> R -> R;
  fneg : R -> R;
  fabsf : R -> R;
  fgt : R -> R -> bool
}.

(** [std::min<float>(a, b)] is [(b < a) ? b : a]. *)
Definition std_min {R} `{Scalar R} (a b : R) : R := if fgt a b then b else a.

(** The IEEE 754 binary64 instance, for [double]: the time values of
    [main] ([M_PIf], which [double] code does not use, is the
    single-precision constant widened). *)
Definition float_of_Z (z : Z) : float :=
  match z with
  | Z0 => 0%float
  | Zpos _ => PrimFloat.of_uint63 (Uint63.of_Z z)
  | Zneg p => PrimFloat.opp (PrimFloat.of_uint63 (Uint63.of_Z (Zpos p)))
  end.

Definition float_lit (q : Q) : float :=
  PrimFloat.div (float_of_Z (Qnum q)) (float_of_Z (Zpos (Qden q))).

#[export] Instance binary64 : Scalar float := {|
  of_int := float_of_Z;
  lit := float_lit;
  M_PIf := 0x1.921fb6p+1%float;
  fadd := PrimFloat.add;
  fsub := PrimFloat.sub;
  fmul := PrimFloat.mul;
  fdiv := PrimFloat.div;
  fneg := PrimFloat.opp;
  fabsf := PrimFloat.abs;
  fgt := fun a b => PrimFloat.ltb b a
|}.

(** The IEEE 754 binary32 instance, for [float]: 24 bits of precision and
    exponents up to 128, every operation rounded to nearest, ties to even.
    A literal is the quotient of its numerator and denominator, rounded
    once; this is the value the compiler gives a decimal literal whenever
    both are below [2^24], which holds for every [float] literal of the
    program. *)
Definition float32 : Type := SpecFloat.spec_float.

Definition float32_of_Z (z : Z) : float32 :=
  SpecFloat.binary_normalize 24 128 z 0 false.

Definition float32_lit (q : Q) : float32 :=
  SpecFloat.SFdiv 24 128 (float32_of_Z (Qnum q)) (float32_of_Z (Zpos (Qden q))).

#[export] Instance binary32 : Scalar float32 := {|
  of_int := float32_of_Z;
  lit := float32_lit;
  M_PIf := SpecFloat.S754_finite false 13176795 (-22);
  fadd := SpecFloat.SFadd 24 128;
  fsub := SpecFloat.SFsub 24 128;
  fmul := SpecFloat.SFmul 24 128;
  fdiv := SpecFloat.SFdiv 24 128;
  fneg := SpecFloat.SFopp;
  fabsf := SpecFloat.SFabs;
  fgt := fun a b => SpecFloat.SFltb b a
|}.

(** ** Vector types *)

Record int2 := make_int2 { i2x : Z; i2y : Z }.

Section Program.

(** [F] stands for [float], [T] for [double], [Matrix4x4] for
    [optix::Matrix4x4]. *)
Context {F : Type} {SF : Scalar F}.
Context {T : Type} {ST : Scalar T}.
Context {Matrix4x4 : Type}.

Record float2 := make_float2 { f2x : F; f2y : F }.
Record float3 := make_float3 { f3x : F; f3y : F; f3z : F }.
Record float4 := make_float4' { f4x : F; f4y : F; f4z : F; f4w : F }.

(** The overloads of the vector helpers that [redflash.cpp] uses; each
    works component by component. *)
Definition make_float3_1 (s : F) : float3 := make_float3 s s s.
Definition make_float4 (v : float3) (w : F) : float4 :=
  make_float4' (f3x v) (f3y v) (f3z v) w.
Definition make_float3_of4 (v : float4) : float3 :=
  make_float3 (f4x v) (f4y v) (f4z v).
Definition add3 (a b : float3) : float3 :=
  make_float3 (fadd (f3x a) (f3x b)) (fadd (f3y a) (f3y b)) (fadd (f3z a) (f3z b)).
Definition sub3 (a b : float3) : float3 :=
  make_float3 (fsub (f3x a) (f3x b)) (fsub (f3y a) (f3y b)) (fsub (f3z a) (f3z b)).
Definition div3 (a b : float3) : float3 :=
  make_float3 (fdiv (f3x a) (f3x b)) (fdiv (f3y a) (f3y b)) (fdiv (f3z a) (f3z b)).
Definition scale3 (a : float3) (s : F) : float3 :=
  make_float3 (fmul (f3x a) s) (fmul (f3y a) s) (fmul (f3z a) s).
Definition add3s (a : float3) (s : F) : float3 :=
  make_float3 (fadd (f3x a) s) (fadd (f3y a) s) (fadd (f3z a) s).
Definition sub3s (a : float3) (s : F) : float3 :=
  make_float3 (fsub (f3x a) s) (fsub (f3y a) s) (fsub (f3z a) s).
Definition neg3 (a : float3) : float3 :=
  make_float3 (fneg (f3x a)) (fneg (f3y a)) (fneg (f3z a)).

(** ** Collaborators outside [redflash.cpp]

    [optix::normalize], the operations of [optix::Matrix4x4],
    [sutil::calculateCameraVariables], the [rotate] method of the global
    [sutil::Arcball], [sutil::ensureMinimumSize] on two [unsigned]
    numbers, and the C library's [atoi] and [atof]. *)
Class Sdk := {
  normalize : float3 -> float3;
  Matrix4x4_identity : Matrix4x4;
  Matrix4x4_fromBasis : float3 -> float3 -> float3 -> float3 -> Matrix4x4;
  Matrix4x4_inverse : Matrix4x4 -> Matrix4x4;
  Matrix4x4_mul : Matrix4x4 -> Matrix4x4 -> Matrix4x4;
  Matrix4x4_mulv : Matrix4x4 -> float4 -> float4;
  calculateCameraVariables :
    float3 -> float3 -> float3 -> F -> F -> bool -> float3 * float3 * float3;
  arcball_rotate : float2 -> float2 -> Matrix4x4;
  ensureMinimumSize : Z -> Z -> Z * Z;
  atoi : string -> Z;
  atof : string -> T
}.

Context {SDK : Sdk}.

(** ** The OptiX object model *)

(** A program is named by its PTX file and entry point. *)
Inductive Program := createProgramFromPTXString (ptx : string) (entry : string).

Record Material := {
  mat_closest_hit : list (Z * Program);
  mat_any_hit : list (Z * Program)
}.

(** The values a variable of a scope ([context["name"]], [gi["name"]]) holds. *)
Inductive Value :=
| VInt (n : Z)
| VUint (n : Z)
| VFloat (f : F)
| VFloat3 (v : float3)
| VBuffer (b : nat).

Record Geometry := {
  geo_primitive_count : Z;
  geo_intersection_program : option Program;
  geo_bounding_box_program : option Program;
  geo_vars : gmap string Value
}.

Record GeometryInstance := {
  gi_geometry : option Geometry;
  gi_materials : list Material;
  gi_vars : gmap string Value
}.

Record GeometryGroup := {
  gg_children : list GeometryInstance;
  gg_acceleration : option string
}.

Inductive LightType := SPHERE | QUAD.

(** [struct LightParameter] (redflash.h), with the fields
    [updateLightParameters] copies. *)
Record LightParameter := {
  position : float3;
  emission : float3;
  radius : F;
  area : F;
  u : float3;
  v : float3;
  normal : float3;
  lightType : LightType
}.

Inductive BufferFormat := RT_FORMAT_FLOAT4 | RT_FORMAT_USER.
Inductive ElementSize := sizeof_LightParameter.

(** A buffer of the context: its format, its dimensions and, for a buffer
    of user records, its storage ([None] is an element not yet written). *)
Record Buffer := {
  buf_format : BufferFormat;
  buf_element_size : option ElementSize;
  buf_dims : list Z;
  buf_data : list (option LightParameter)
}.

Record ContextObj := {
  ctx_vars : gmap string Value;
  ctx_buffers : gmap nat Buffer
}.

(** ** The effect trace *)

Inductive Printed :=
| PStr (s : string)
| PInt (n : Z)
| PDouble (t : T)
| PFloat (f : F).

Inductive Effect :=
| context_destroy
| context_launch (entry width height : Z)
| displayBufferPNG (file : string) (buffer : nat) (disable_srgb : bool)
| displayBufferGL (buffer : nat)
| displayFps (n : Z)
| displayText (text : list Printed) (x y : Z)
| glutSwapBuffers
| glViewport (x y width height : Z)
| glutPostRedisplay
| cout (line : list Printed)
| cerr (line : list Printed).

(** ** Global state *)

Record Programs := {
  pgram_intersection : option Program;
  pgram_bounding_box : option Program;
  pgram_intersection_raymarching : option Program;
  pgram_bounding_box_raymarching : option Program;
  pgram_intersection_sphere : option Program;
  pgram_bounding_box_sphere : option Program
}.

(** "Camera state" and the two frame matrices declared after it. *)
Record Camera := {
  camera_up : float3;
  camera_lookat : float3;
  camera_eye : float3;
  camera_rotate : Matrix4x4;
  camera_changed : bool;
  frame : Matrix4x4;
  frame_inv : Matrix4x4
}.

(** "Mouse state". *)
Record Mouse := {
  mouse_prev_pos : int2;
  mouse_button : Z
}.

Inductive ExitHandler := call_destroyContext.

(** What the process sees of its host: the successive readings of
    [sutil::currentTime] ([clock k] is what the [k]-th call returns), the
    file system, the handlers registered for exit, the indeterminate
    contents of the locals declared without an initialiser
    ([indeterminate k] for the [k]-th [LightParameter light;]), and the
    trace of the effects performed so far, oldest first. *)
Record Host := {
  clock : nat -> T;
  ticks : nat;
  fs_exists : string -> bool;
  current_path : string;
  samplesDir : string;
  win32 : bool;
  atexit_handlers : list ExitHandler;
  close_func : option ExitHandler;
  indeterminate : nat -> LightParameter;
  trace : list Effect
}.

Record World := {
  context : option ContextObj;
  width : Z;
  height : Z;
  use_pbo : bool;
  frame_number : Z;
  programs : Programs;
  camera : Camera;
  mouse : Mouse;
  m_bufferLightParameters : option nat;
  frame_count : Z;
  host : Host
}.

(** Assignments to single globals. *)
Definition set_camera_lookat (p : float3) (c : Camera) : Camera :=
  {| camera_up := camera_up c; camera_lookat := p; camera_eye := camera_eye c;
     camera_rotate := camera_rotate c; camera_changed := camera_changed c;
     frame := frame c; frame_inv := frame_inv c |}.
Definition set_camera_eye (p : float3) (c : Camera) : Camera :=
  {| camera_up := camera_up c; camera_lookat := camera_lookat c; camera_eye := p;
     camera_rotate := camera_rotate c; camera_changed := camera_changed c;
     frame := frame c; frame_inv := frame_inv c |}.
Definition set_camera_rotate (m : Matrix4x4) (c : Camera) : Camera :=
  {| camera_up := camera_up c; camera_lookat := camera_lookat c; camera_eye := camera_eye c;
     camera_rotate := m; camera_changed := camera_changed c;
     frame := frame c; frame_inv := frame_inv c |}.
Definition set_camera_changed (b : bool) (c : Camera) : Camera :=
  {| camera_up := camera_up c; camera_lookat := camera_lookat c; camera_eye := camera_eye c;
     camera_rotate := camera_rotate c; camera_changed := b;
     frame := frame c; frame_inv := frame_inv c |}.
Definition set_frame (m : Matrix4x4) (c : Camera) : Camera :=
  {| camera_up := camera_up c; camera_lookat := camera_lookat c; camera_eye := camera_eye c;
     camera_rotate := camera_rotate c; camera_changed := camera_changed c;
     frame := m; frame_inv := frame_inv c |}.
Definition set_frame_inv (m : Matrix4x4) (c : Camera) : Camera :=
  {| camera_up := camera_up c; camera_lookat := camera_lookat c; camera_eye := camera_eye c;
     camera_rotate := camera_rotate c; camera_changed := camera_changed c;
     frame := frame c; frame_inv := m |}.

Definition set_ticks (n : nat) (h : Host) : Host :=
  {| clock := clock h; ticks := n; fs_exists := fs_exists h;
     current_path := current_path h; samplesDir := samplesDir h; win32 := win32 h;
     atexit_handlers := atexit_handlers h; close_func := close_func h;
     indeterminate := indeterminate h; trace := trace h |}.
Definition set_atexit_handlers (l : list ExitHandler) (h : Host) : Host :=
  {| clock := clock h; ticks := ticks h; fs_exists := fs_exists h;
     current_path := current_path h; samplesDir := samplesDir h; win32 := win32 h;
     atexit_handlers := l; close_func := close_func h;
     indeterminate := indeterminate h; trace := trace h |}.
Definition set_close_func (f : option ExitHandler) (h : Host) : Host :=
  {| clock := clock h; ticks := ticks h; fs_exists := fs_exists h;
     current_path := current_path h; samplesDir := samplesDir h; win32 := win32 h;
     atexit_handlers := atexit_handlers h; close_func := f;
     indeterminate := indeterminate h; trace := trace h |}.
Definition set_trace (l : list Effect) (h : Host) : Host :=
  {| clock := clock h; ticks := ticks h; fs_exists := fs_exists h;
     current_path := current_path h; samplesDir := samplesDir h; win32 := win32 h;
     atexit_handlers := atexit_handlers h; close_func := close_func h;
     indeterminate := indeterminate h; trace := l |}.

Definition set_context (c : option ContextObj) (w : World) : World :=
  {| context := c; width := width w; height := height w;
     use_pbo := use_pbo w; frame_number := frame_number w;
     programs := programs w; camera := camera w;
     mouse := mouse w; m_bufferLightParameters := m_bufferLightParameters w;
     frame_count := frame_count w; host := host w |}.
Definition set_width (n : Z) (w : World) : World :=
  {| context := context w; width := n; height := height w;
     use_pbo := use_pbo w; frame_number := frame_number w;
     programs := programs w; camera := camera w;
     mouse := mouse w; m_bufferLightParameters := m_bufferLightParameters w;
     frame_count := frame_count w; host := host w |}.
Definition set_height (n : Z) (w : World) : World :=
  {| context := context w; width := width w; height := n;
     use_pbo := use_pbo w; frame_number := frame_number w;
     programs := programs w; camera := camera w;
     mouse := mouse w; m_bufferLightParameters := m_bufferLightParameters w;
     frame_count := frame_count w; host := host w |}.
Definition set_use_pbo (b : bool) (w : World) : World :=
  {| context := context w; width := width w; height := height w;
     use_pbo := b; frame_number := frame_number w;
     programs := programs w; camera := camera w;
     mouse := mouse w; m_bufferLightParameters := m_bufferLightParameters w;
     frame_count := frame_count w; host := host w |}.
Definition set_frame_number (n : Z) (w : World) : World :=
  {| context := context w; width := width w; height := height w;
     use_pbo := use_pbo w; frame_number := n;
     programs := programs w; camera := camera w;
     mouse := mouse w; m_bufferLightParameters := m_bufferLightParameters w;
     frame_count := frame_count w; host := host w |}.
Definition set_camera (c : Camera) (w : World) : World :=
  {| context := context w; width := width w; height := height w;
     use_pbo := use_pbo w; frame_number := frame_number w;
     programs := programs w; camera := c;
     mouse := mouse w; m_bufferLightParameters := m_bufferLightParameters w;
     frame_count := frame_count w; host := host w |}.
Definition set_mouse (m : Mouse) (w : World) : World :=
  {| context := context w; width := width w; height := height w;
     use_pbo := use_pbo w; frame_number := frame_number w;
     programs := programs w; camera := camera w;
     mouse := m; m_bufferLightParameters := m_bufferLightParameters w;
     frame_count := frame_count w; host := host w |}.
Definition set_m_bufferLightParameters (b : option nat) (w : World) : World :=
  {| context := context w; width := width w; height := height w;
     use_pbo := use_pbo w; frame_number := frame_number w;
     programs := programs w; camera := camera w;
     mouse := mouse w; m_bufferLightParameters := b;
     frame_count := frame_count w; host := host w |}.
Definition set_frame_count (n : Z) (w : World) : World :=
  {| context := context w; width := width w; height := height w;
     use_pbo := use_pbo w; frame_number := frame_number w;
     programs := programs w; camera := camera w;
     mouse := mouse w; m_bufferLightParameters := m_bufferLightParameters w;
     frame_count := n; host := host w |}.
Definition set_host (h : Host) (w : World) : World :=
  {| context := context w; width := width w; height := height w;
     use_pbo := use_pbo w; frame_number := frame_number w;
     programs := programs w; camera := camera w;
     mouse := mouse w; m_bufferLightParameters := m_bufferLightParameters w;
     frame_count := frame_count w; host := h |}.

(** ** The monad of the program

    A computation runs on a world and either returns a value ([Done]) or
    stops on a signal ([Stop]); either way it leaves a world behind. *)
Inductive Signal :=
| Exit (code : Z)            (* exit(code), after the exit handlers ran *)
| Exception (what : string)  (* throw Exception(what) *)
| ApiError                   (* an exception raised inside the OptiX API *)
| NullHandle                 (* a call through a null handle *)
| OutOfBounds                (* a write past the end of a buffer or array *)
| OutOfFuel.                 (* the loop bound of the model was reached *)

Inductive Outcome (A : Type) :=
| Done (a : A) (w : World)
| Stop (s : Signal) (w : World).
Arguments Done {A} a w.
Arguments Stop {A} s w.

Definition M (A : Type) : Type := World -> Outcome A.

Definition ret {A} (a : A) : M A := fun w => Done a w.
Definition bind {A B} (c : M A) (k : A -> M B) : M B :=
  fun w => match c w with
           | Done a w' => k a w'
           | Stop s w' => Stop s w'
           end.
Definition throw {A} (s : Signal) : M A := fun w => Stop s w.
Definition gets {A} (f : World -> A) : M A := fun w => Done (f w) w.
Definition modify (f : World -> World) : M unit := fun w => Done tt (f w).

Notation "x <- c1 ;; c2" := (bind c1 (fun x => c2))
  (at level 100, c1 at next level, c2 at level 200, right associativity).
Notation "c1 ;; c2" := (bind c1 (fun _ => c2))
  (at level 100, c2 at level 200, right associativity).

(** The world a computation leaves behind. *)
Definition world_of {A} (o : Outcome A) : World :=
  match o with Done _ w => w | Stop _ w => w end.

Definition perform (e : Effect) : M unit :=
  modify (fun w => set_host (set_trace (trace (host w) ++ [e]) (host w)) w).

(** Calls through the global handle [context]. *)
Definition the_context : M ContextObj :=
  c <- gets context ;;
  match c with
  | Some c => ret c
  | None => throw NullHandle
  end.

(** [context[name]->set...(val)]. *)
Definition context_set (name : string) (val : Value) : M unit :=
  c <- the_context ;;
  modify (set_context (Some {| ctx_vars := <[name := val]> (ctx_vars c);
                               ctx_buffers := ctx_buffers c |})).

(** [sutil::currentTime()]: the next reading of the clock. *)
Definition currentTime : M T :=
  h <- gets host ;;
  modify (set_host (set_ticks (S (ticks h)) h)) ;;
  ret (clock h (ticks h)).

(** ** Helper functions *)

Fixpoint resolveDataPath_search (filename : string) (source_locations : list string)
  : M string :=
  match source_locations with
  | [] => throw (Exception ("Couldn't open source file " +:+ filename))
  | it :: rest =>
      perform (cout [PStr ("[info] resolvePath source_location: " +:+ it)]) ;;
      found <- gets (fun w => fs_exists (host w) it) ;;
      if found then ret it else resolveDataPath_search filename rest
  end.

Definition resolveDataPath (filename : string) : M string :=
  base_dir <- gets (fun w => samplesDir (host w)) ;;
  cwd <- gets (fun w => current_path (host w)) ;;
  let source_locations :=
    [ cwd +:+ "/" +:+ filename;
      cwd +:+ "/data/" +:+ filename;
      base_dir +:+ "/data/" +:+ filename ] in
  resolveDataPath_search filename source_locations.

Definition getOutputBuffer : M nat :=
  c <- the_context ;;
  match ctx_vars c !! "output_buffer" with
  | Some (VBuffer b) => ret b
  | _ => throw ApiError
  end.

Definition destroyContext : M unit :=
  c <- gets context ;;
  match c with
  | Some _ =>
      perform context_destroy ;;
      modify (set_context None)
  | None => ret tt
  end.

Definition run_exit_handler (h : ExitHandler) : M unit :=
  match h with
  | call_destroyContext => destroyContext
  end.

(** [exit(code)]: the functions registered with [atexit] run, last
    registered first, and the process ends. *)
Fixpoint run_exit_handlers (hs : list ExitHandler) : M unit :=
  match hs with
  | [] => ret tt
  | h :: rest => run_exit_handler h ;; run_exit_handlers rest
  end.

Definition exit {A} (code : Z) : M A :=
  hs <- gets (fun w => atexit_handlers (host w)) ;;
  run_exit_handlers hs ;;
  throw (Exit code).

Definition registerExitHandler : M unit :=
  h <- gets host ;;
  if win32 h
  then modify (set_host (set_close_func (Some call_destroyContext) h))
  else modify (set_host (set_atexit_handlers (call_destroyContext :: atexit_handlers h) h)).

(** ** Scene construction *)

(** A call through a [Program] handle that may still be null. *)
Definition the_program (p : option Program) : M Program :=
  match p with
  | Some p => ret p
  | None => throw NullHandle
  end.

Definition context_createGeometry : M Geometry :=
  _ <- the_context ;;
  ret {| geo_primitive_count := 0; geo_intersection_program := None;
         geo_bounding_box_program := None; geo_vars := ∅ |}.

Definition context_createGeometryInstance : M GeometryInstance :=
  _ <- the_context ;;
  ret {| gi_geometry := None; gi_materials := []; gi_vars := ∅ |}.

Definition setPrimitiveCount (n : Z) (g : Geometry) : Geometry :=
  {| geo_primitive_count := n;
     geo_intersection_program := geo_intersection_program g;
     geo_bounding_box_program := geo_bounding_box_program g;
     geo_vars := geo_vars g |}.
Definition setIntersectionProgram (p : Program) (g : Geometry) : Geometry :=
  {| geo_primitive_count := geo_primitive_count g;
     geo_intersection_program := Some p;
     geo_bounding_box_program := geo_bounding_box_program g;
     geo_vars := geo_vars g |}.
Definition setBoundingBoxProgram (p : Program) (g : Geometry) : Geometry :=
  {| geo_primitive_count := geo_primitive_count g;
     geo_intersection_program := geo_intersection_program g;
     geo_bounding_box_program := Some p;
     geo_vars := geo_vars g |}.
Definition geometry_set (name : string) (val : Value) (g : Geometry) : Geometry :=
  {| geo_primitive_count := geo_primitive_count g;
     geo_intersection_program := geo_intersection_program g;
     geo_bounding_box_program := geo_bounding_box_program g;
     geo_vars := <[name := val]> (geo_vars g) |}.

Definition setGeometry (g : Geometry) (gi : GeometryInstance) : GeometryInstance :=
  {| gi_geometry := Some g; gi_materials := gi_materials gi; gi_vars := gi_vars gi |}.
Definition addMaterial (m : Material) (gi : GeometryInstance) : GeometryInstance :=
  {| gi_geometry := gi_geometry gi; gi_materials := gi_materials gi ++ [m];
     gi_vars := gi_vars gi |}.
Definition instance_set (name : string) (val : Value) (gi : GeometryInstance)
  : GeometryInstance :=
  {| gi_geometry := gi_geometry gi; gi_materials := gi_materials gi;
     gi_vars := <[name := val]> (gi_vars gi) |}.

Definition setMaterial (gi : GeometryInstance) (material : Material)
    (color_name : string) (color : float3) : GeometryInstance :=
  instance_set color_name (VFloat3 color) (addMaterial material gi).

Definition createRaymrachingObject (center world_scale unit_scale : float3)
  : M GeometryInstance :=
  raymarching <- context_createGeometry ;;
  let raymarching := setPrimitiveCount 1 raymarching in
  pi <- gets (fun w => pgram_intersection_raymarching (programs w)) ;;
  pi <- the_program pi ;;
  let raymarching := setIntersectionProgram pi raymarching in
  pb <- gets (fun w => pgram_bounding_box_raymarching (programs w)) ;;
  pb <- the_program pb ;;
  let raymarching := setBoundingBoxProgram pb raymarching in
  let local_scale := div3 world_scale unit_scale in
  let raymarching := geometry_set "center" (VFloat3 center) raymarching in
  let raymarching := geometry_set "local_scale" (VFloat3 local_scale) raymarching in
  let raymarching := geometry_set "aabb_min" (VFloat3 (sub3 center world_scale)) raymarching in
  let raymarching := geometry_set "aabb_max" (VFloat3 (add3 center world_scale)) raymarching in
  gi <- context_createGeometryInstance ;;
  ret (setGeometry raymarching gi).

Definition createSphereObject (center : float3) (radius : F) : M GeometryInstance :=
  sphere <- context_createGeometry ;;
  let sphere := setPrimitiveCount 1 sphere in
  pi <- gets (fun w => pgram_intersection_sphere (programs w)) ;;
  pi <- the_program pi ;;
  let sphere := setIntersectionProgram pi sphere in
  pb <- gets (fun w => pgram_bounding_box_sphere (programs w)) ;;
  pb <- the_program pb ;;
  let sphere := setBoundingBoxProgram pb sphere in
  let sphere := geometry_set "center" (VFloat3 center) sphere in
  let sphere := geometry_set "radius" (VFloat radius) sphere in
  let sphere := geometry_set "aabb_min" (VFloat3 (sub3s center radius)) sphere in
  let sphere := geometry_set "aabb_max" (VFloat3 (add3s center radius)) sphere in
  gi <- context_createGeometryInstance ;;
  ret (setGeometry sphere gi).

(** ** The light buffer *)

Definition set_buf_data (d : list (option LightParameter)) (b : Buffer) : Buffer :=
  {| buf_format := buf_format b; buf_element_size := buf_element_size b;
     buf_dims := buf_dims b; buf_data := d |}.

Definition context_put_buffer (h : nat) (b : Buffer) : M unit :=
  c <- the_context ;;
  modify (set_context (Some {| ctx_vars := ctx_vars c;
                               ctx_buffers := <[h := b]> (ctx_buffers c) |})).

(** A call through a [Buffer] handle. *)
Definition the_buffer (h : option nat) : M (nat * Buffer) :=
  match h with
  | None => throw NullHandle
  | Some h =>
      c <- the_context ;;
      match ctx_buffers c !! h with
      | Some b => ret (h, b)
      | None => throw ApiError
      end
  end.

(** [context->createBuffer(RT_BUFFER_INPUT, format)]: a new buffer of no
    element yet, under a handle not in use. *)
Definition context_createBuffer (format : BufferFormat) : M nat :=
  c <- the_context ;;
  let h := fresh (dom (ctx_buffers c)) in
  context_put_buffer h {| buf_format := format; buf_element_size := None;
                          buf_dims := []; buf_data := [] |} ;;
  ret h.

Definition buffer_setElementSize (h : nat) (s : ElementSize) : M unit :=
  hb <- the_buffer (Some h) ;;
  let b := snd hb in
  context_put_buffer h {| buf_format := buf_format b; buf_element_size := Some s;
                          buf_dims := buf_dims b; buf_data := buf_data b |}.

(** [buffer->setSize(n)]: [n] elements, none of them written. *)
Definition buffer_setSize (h : nat) (n : nat) : M unit :=
  hb <- the_buffer (Some h) ;;
  let b := snd hb in
  context_put_buffer h {| buf_format := buf_format b;
                          buf_element_size := buf_element_size b;
                          buf_dims := [Z.of_nat n]; buf_data := replicate n None |}.

(** [buffer->setSize(width, height)]; the pixels are not modelled. *)
Definition buffer_setSize2 (h : nat) (width height : Z) : M unit :=
  hb <- the_buffer (Some h) ;;
  let b := snd hb in
  context_put_buffer h {| buf_format := buf_format b;
                          buf_element_size := buf_element_size b;
                          buf_dims := [width; height]; buf_data := buf_data b |}.

(** The loop of [updateLightParameters]: [dst] walks the mapped storage
    while [i] walks [lightParameters]. *)
Fixpoint updateLightParameters_loop (lightParameters : list LightParameter) (i : nat)
    (dst : list (option LightParameter)) : option (list (option LightParameter)) :=
  match lightParameters with
  | [] => Some dst
  | mat :: rest =>
      if (i <? length dst)%nat
      then updateLightParameters_loop rest (S i)
             (<[i := Some {| position := position mat;
                              emission := emission mat;
                              radius := radius mat;
                              area := area mat;
                              u := u mat;
                              v := v mat;
                              normal := normal mat;
                              lightType := lightType mat |}]> dst)
      else None
  end.

(** [buffer->map(0, RT_BUFFER_MAP_WRITE_DISCARD)]: the storage the caller
    writes to, as long as the buffer; what the buffer held before is
    discarded, so every element is unwritten until the caller writes it. *)
Definition map_write_discard (b : Buffer) : list (option LightParameter) :=
  replicate (length (buf_data b)) None.

Definition updateLightParameters (lightParameters : list LightParameter) : M unit :=
  h <- gets m_bufferLightParameters ;;
  hb <- the_buffer h ;;
  match updateLightParameters_loop lightParameters 0 (map_write_discard (snd hb)) with
  | Some dst => context_put_buffer (fst hb) (set_buf_data dst (snd hb))
  | None => throw OutOfBounds
  end.

Definition set_area (a : F) (l : LightParameter) : LightParameter :=
  {| position := position l; emission := emission l; radius := radius l;
     area := a; u := u l; v := v l; normal := normal l; lightType := lightType l |}.
Definition set_normal (n : float3) (l : LightParameter) : LightParameter :=
  {| position := position l; emission := emission l; radius := radius l;
     area := area l; u := u l; v := v l; normal := n; lightType := lightType l |}.

(** The two lights [createGeometryLight] registers; [light0] and [light1]
    are the locals as declared, before the assignments. *)
Definition createGeometryLight_lights (light0 light1 : LightParameter)
  : list LightParameter :=
  [ {| lightType := SPHERE;
       position := make_float3 (of_int 50) (of_int 310) (of_int 50);
       radius := lit 10;
       emission := make_float3_1 (lit 1);
       area := area light0; u := u light0; v := v light0; normal := normal light0 |};
    {| lightType := SPHERE;
       position := make_float3 (lit (Qmake 1 100)) (lit (Qmake 166787 1000)) (lit 190);
       radius := lit 2;
       emission := make_float3 (lit 10) (lit (Qmake 1 100)) (lit (Qmake 1 100));
       area := area light1; u := u light1; v := v light1; normal := normal light1 |} ].

(** The loop over [lightParameters] (lines 403 to 413): it completes every
    light in place and appends its sphere to [gis]. *)
Fixpoint createGeometryLight_loop (diffuse_light : Material)
    (lightParameters : list LightParameter) (index : Z)
  : M (list LightParameter * list GeometryInstance) :=
  match lightParameters with
  | [] => ret ([], [])
  | light :: rest =>
      let light :=
        set_area (fmul (fmul (fmul (lit 4) M_PIf) (radius light)) (radius light)) light in
      let light := set_normal (normalize (normal light)) light in
      gi <- createSphereObject (position light) (radius light) ;;
      let gi := setMaterial gi diffuse_light "emission_color" (emission light) in
      let gi := instance_set "lightMaterialId" (VInt index) gi in
      r <- createGeometryLight_loop diffuse_light rest (wrap_int (index + 1)) ;;
      ret (light :: fst r, gi :: snd r)
  end.

Definition context_createGeometryGroup (gis : list GeometryInstance) : M GeometryGroup :=
  _ <- the_context ;;
  ret {| gg_children := gis; gg_acceleration := None |}.

Definition setAcceleration (builder : string) (g : GeometryGroup) : GeometryGroup :=
  {| gg_children := gg_children g; gg_acceleration := Some builder |}.

(** [createGeometryLight] from line 403 on, for the lights registered in
    [lightParameters]. *)
Definition createGeometryLight_from (lightParameters : list LightParameter)
  : M GeometryGroup :=
  _ <- the_context ;;
  let ptx := "redflash.cu" in
  let diffuse_em := createProgramFromPTXString ptx "light_closest_hit" in
  let diffuse_light := {| mat_closest_hit := [(0, diffuse_em)]; mat_any_hit := [] |} in
  r <- createGeometryLight_loop diffuse_light lightParameters 0 ;;
  let lightParameters := fst r in
  let gis := snd r in
  light_group <- context_createGeometryGroup gis ;;
  let light_group := setAcceleration "Trbvh" light_group in
  b <- context_createBuffer RT_FORMAT_USER ;;
  modify (set_m_bufferLightParameters (Some b)) ;;
  buffer_setElementSize b sizeof_LightParameter ;;
  buffer_setSize b (length lightParameters) ;;
  updateLightParameters lightParameters ;;
  context_set "sysNumberOfLights" (VInt (wrap_int (Z.of_nat (length lightParameters)))) ;;
  context_set "sysLightParameters" (VBuffer b) ;;
  ret light_group.

Definition createGeometryLight : M GeometryGroup :=
  h <- gets host ;;
  createGeometryLight_from
    (createGeometryLight_lights (indeterminate h 0%nat) (indeterminate h 1%nat)).


(** ** Camera *)

Definition update_camera (f : Camera -> Camera) : M unit :=
  modify (fun w => set_camera (f (camera w)) w).

Definition setupCamera : M unit :=
  update_camera (fun c =>
    {| camera_up := make_float3 (lit 0) (lit 1) (lit 0);
       camera_eye := make_float3 (lit (Qmake 1391 100)) (lit (Qmake 166787 1000)) (lit 413);
       camera_lookat := make_float3 (lit (Qmake (-659) 100)) (lit (Qmake 16994 100))
                                    (lit (Qmake (-911) 100));
       camera_rotate := Matrix4x4_identity;
       camera_changed := camera_changed c;
       frame := frame c; frame_inv := frame_inv c |}).

(** The transform [updateCamera] applies to [camera_eye] and
    [camera_lookat]: [frame*camera_rotate*camera_rotate*frame_inv], the
    products taken from the left as C++ groups them. *)
Definition updateCamera_trans (frame camera_rotate frame_inv : Matrix4x4) : Matrix4x4 :=
  Matrix4x4_mul (Matrix4x4_mul (Matrix4x4_mul frame camera_rotate) camera_rotate) frame_inv.

(** The matrix [frame] that [updateCamera] builds from the pose. *)
Definition updateCamera_frame (wd ht : Z) (c : Camera) : Matrix4x4 :=
  let fov := lit 35 in
  let aspect_ratio := fdiv (of_int wd) (of_int ht) in
  let uvw := calculateCameraVariables (camera_eye c) (camera_lookat c) (camera_up c)
               fov aspect_ratio true in
  let camera_u := fst (fst uvw) in
  let camera_v := snd (fst uvw) in
  let camera_w := snd uvw in
  Matrix4x4_fromBasis (normalize camera_u) (normalize camera_v)
    (normalize (neg3 camera_w)) (camera_lookat c).

Definition updateCamera : M unit :=
  let fov := lit 35 in
  wd <- gets width ;;
  ht <- gets height ;;
  let aspect_ratio := fdiv (of_int wd) (of_int ht) in
  c <- gets camera ;;
  let new_frame := updateCamera_frame wd ht c in
  update_camera (set_frame new_frame) ;;
  let new_frame_inv := Matrix4x4_inverse new_frame in
  update_camera (set_frame_inv new_frame_inv) ;;
  let trans := updateCamera_trans new_frame (camera_rotate c) new_frame_inv in
  let eye := make_float3_of4 (Matrix4x4_mulv trans (make_float4 (camera_eye c) (lit 1))) in
  update_camera (set_camera_eye eye) ;;
  let lookat :=
    make_float3_of4 (Matrix4x4_mulv trans (make_float4 (camera_lookat c) (lit 1))) in
  update_camera (set_camera_lookat lookat) ;;
  let uvw := calculateCameraVariables eye lookat (camera_up c) fov aspect_ratio true in
  let camera_u := fst (fst uvw) in
  let camera_v := snd (fst uvw) in
  let camera_w := snd uvw in
  update_camera (set_camera_rotate Matrix4x4_identity) ;;
  changed <- gets (fun w => camera_changed (camera w)) ;;
  (if changed then modify (set_frame_number 1) else ret tt) ;;
  update_camera (set_camera_changed false) ;;
  n <- gets frame_number ;;
  modify (set_frame_number (wrap_int (n + 1))) ;;
  context_set "frame_number" (VUint (wrap_uint n)) ;;
  context_set "eye" (VFloat3 eye) ;;
  context_set "U" (VFloat3 camera_u) ;;
  context_set "V" (VFloat3 camera_v) ;;
  context_set "W" (VFloat3 camera_w).

(** ** GLUT callbacks *)

(** [context->launch(0, width, height)]. *)
Definition context_launch_0 : M unit :=
  _ <- the_context ;;
  wd <- gets width ;;
  ht <- gets height ;;
  perform (context_launch 0 wd ht).

(** The overlay texts are kept as the list of their parts.  The number of
    characters [%d] prints for [n]: its decimal digits, and a sign when it
    is negative. *)
Fixpoint decimal_digits (fuel : nat) (n : Z) : nat :=
  match fuel with
  | O => 1%nat
  | S fuel' => if n <? 10 then 1%nat else S (decimal_digits fuel' (n / 10))
  end.

Definition width_d (n : Z) : nat :=
  ((if (n <? 0)%Z then 1 else 0) + decimal_digits 10 (Z.abs n))%nat.

(** The least number of characters a part takes in a [sprintf] of
    [glutDisplay]: a string its length, [%d] the width of the number,
    [%7.2f] seven characters or more. *)
Definition printed_min_width (p : Printed) : nat :=
  match p with
  | PStr s => String.length s
  | PInt n => width_d n
  | PDouble _ => 1%nat
  | PFloat _ => 7%nat
  end.

Fixpoint sprintf_min_length (text : list Printed) : nat :=
  match text with
  | [] => 0%nat
  | p :: rest => (printed_min_width p + sprintf_min_length rest)%nat
  end.

(** [sprintf(buffer, ...)] into [static char buffer[size]].  The text and
    its terminating NUL take [sprintf_min_length text + 1] bytes or more;
    when that is more than [size], the call writes past the end of the
    array, which is undefined: the model stops there with [OutOfBounds].
    (A text with a [%7.2f] can be longer than its least length; every
    text of that kind in the program is too long already at its least
    length.) *)
Definition sprintf (size : nat) (text : list Printed) : M unit :=
  if (sprintf_min_length text <? size)%nat then ret tt else throw OutOfBounds.

Definition glutDisplay : M unit :=
  updateCamera ;;
  context_launch_0 ;;
  b <- getOutputBuffer ;;
  perform (displayBufferGL b) ;;
  n <- gets frame_count ;;
  modify (set_frame_count (wrap_uint (n + 1))) ;;
  perform (displayFps n) ;;
  fn <- gets frame_number ;;
  let frame_number_text := [PStr "frame_number:   "; PInt fn] in
  sprintf 32 frame_number_text ;;
  perform (displayText frame_number_text 10 80) ;;
  c <- gets camera ;;
  let camera_eye_text :=
    [PStr "camera_eye:    "; PFloat (f3x (camera_eye c)); PStr ", ";
     PFloat (f3y (camera_eye c)); PStr ", "; PFloat (f3z (camera_eye c))] in
  sprintf 32 camera_eye_text ;;
  perform (displayText camera_eye_text 10 60) ;;
  let camera_lookat_text :=
    [PStr "camera_lookat: "; PFloat (f3x (camera_lookat c)); PStr ", ";
     PFloat (f3y (camera_lookat c)); PStr ", "; PFloat (f3z (camera_lookat c))] in
  sprintf 32 camera_lookat_text ;;
  perform (displayText camera_lookat_text 10 40) ;;
  perform glutSwapBuffers.

Definition glutKeyboardPress (k : ascii) (x y : Z) : M unit :=
  if (Ascii.eqb k "q" || Ascii.eqb k "027")%char
  then destroyContext ;; exit 0
  else if Ascii.eqb k "s"
  then
    let outputImage := SAMPLE_NAME +:+ ".png" in
    perform (cerr [PStr "Saving current frame to '"; PStr outputImage; PStr "'"]) ;;
    b <- getOutputBuffer ;;
    perform (displayBufferPNG outputImage b false)
  else ret tt.

Definition glutMousePress (button state x y : Z) : M unit :=
  if state =? GLUT_DOWN
  then modify (set_mouse {| mouse_button := button; mouse_prev_pos := make_int2 x y |})
  else ret tt.

Definition glutMouseMotion (x y : Z) : M unit :=
  m <- gets mouse ;;
  wd <- gets width ;;
  ht <- gets height ;;
  c <- gets camera ;;
  (if mouse_button m =? GLUT_RIGHT_BUTTON
   then
     let dx := fdiv (of_int (wrap_int (x - i2x (mouse_prev_pos m)))) (of_int wd) in
     let dy := fdiv (of_int (wrap_int (y - i2y (mouse_prev_pos m)))) (of_int ht) in
     let dmax := if fgt (fabsf dx) (fabsf dy) then dx else dy in
     let scale := std_min dmax (lit (Qmake 9 10)) in
     update_camera (set_camera_eye
       (add3 (camera_eye c) (scale3 (sub3 (camera_lookat c) (camera_eye c)) scale))) ;;
     update_camera (set_camera_changed true)
   else if mouse_button m =? GLUT_LEFT_BUTTON
   then
     let from := make_float2 (of_int (i2x (mouse_prev_pos m)))
                             (of_int (i2y (mouse_prev_pos m))) in
     let to := make_float2 (of_int x) (of_int y) in
     let a := make_float2 (fdiv (f2x from) (of_int wd)) (fdiv (f2y from) (of_int ht)) in
     let b := make_float2 (fdiv (f2x to) (of_int wd)) (fdiv (f2y to) (of_int ht)) in
     update_camera (set_camera_rotate (arcball_rotate b a)) ;;
     update_camera (set_camera_changed true)
   else if mouse_button m =? GLUT_MIDDLE_BUTTON
   then
     let dx := fdiv (of_int (wrap_int (x - i2x (mouse_prev_pos m)))) (of_int wd) in
     let dy := fdiv (of_int (wrap_int (y - i2y (mouse_prev_pos m)))) (of_int ht) in
     let offset := make_float4' (fneg dx) dy (of_int 0) (of_int 0) in
     let offset := Matrix4x4_mulv (frame c) offset in
     let offset_v3 := make_float3 (f4x offset) (f4y offset) (f4z offset) in
     let offset_v3 := scale3 offset_v3 (of_int 200) in
     update_camera (set_camera_eye (add3 (camera_eye c) offset_v3)) ;;
     update_camera (set_camera_lookat (add3 (camera_lookat c) offset_v3)) ;;
     update_camera (set_camera_changed true)
   else ret tt) ;;
  modify (fun w => set_mouse {| mouse_button := mouse_button (mouse w);
                                mouse_prev_pos := make_int2 x y |} w).

(** Modelled from the spec: [sutil::resizeBuffer] is not among the sources;
    "[resize(w, h)] reallocates the output buffer", whose "dimensions
    always equal current (width, height)". *)
Definition sutil_resizeBuffer (buffer : nat) (width height : Z) : M unit :=
  buffer_setSize2 buffer width height.

Definition glutResize (w h : Z) : M unit :=
  wd <- gets width ;;
  ht <- gets height ;;
  if (w =? wrap_int wd) && (h =? wrap_int ht)
  then ret tt
  else
    update_camera (set_camera_changed true) ;;
    modify (set_width (wrap_uint w)) ;;
    modify (set_height (wrap_uint h)) ;;
    wd <- gets width ;;
    ht <- gets height ;;
    let wh := ensureMinimumSize wd ht in
    modify (set_width (fst wh)) ;;
    modify (set_height (snd wh)) ;;
    b <- getOutputBuffer ;;
    wd <- gets width ;;
    ht <- gets height ;;
    sutil_resizeBuffer b wd ht ;;
    perform (glViewport 0 0 wd ht) ;;
    perform glutPostRedisplay.


(** ** Main *)

(** The locals of [main] that the options set. *)
Record Options := {
  out_file : string;
  sample : Z;
  time_limit : T;
  use_time_limit : bool
}.

Definition default_options : Options :=
  {| out_file := EmptyString; sample := 20; time_limit := of_int (60 * 60);
     use_time_limit := false |}.

Definition set_out_file (f : string) (o : Options) : Options :=
  {| out_file := f; sample := sample o; time_limit := time_limit o;
     use_time_limit := use_time_limit o |}.
Definition set_sample (n : Z) (o : Options) : Options :=
  {| out_file := out_file o; sample := n; time_limit := time_limit o;
     use_time_limit := use_time_limit o |}.
Definition set_time_limit (t : T) (o : Options) : Options :=
  {| out_file := out_file o; sample := sample o; time_limit := t;
     use_time_limit := true |}.

Definition usage_text : string :=
  "App Options:
  -h | --help               Print this usage message and exit.
  -f | --file               Save single frame to file and exit.
  -n | --nopbo              Disable GL interop for display buffer.
  -s | --sample             Sample number.
  -t | --time               Time limit(ssc).
App Keystrokes:
  q  Quit
  s  Save image to '" +:+ SAMPLE_NAME +:+ ".png'
".

Definition printUsageAndExit {A} (argv0 : string) : M A :=
  perform (cerr [PStr "Usage: "; PStr argv0; PStr " [options]"]) ;;
  perform (cerr [PStr usage_text]) ;;
  exit 1.

Definition is_option (arg short long : string) : bool :=
  String.eqb arg short || String.eqb arg long.

Definition requires_argument {A} (argv0 arg : string) : M A :=
  perform (cerr [PStr "Option '"; PStr arg; PStr "' requires additional argument."]) ;;
  printUsageAndExit argv0.

(** The loop over [argv[1..]] (lines 724 to 788). *)
Fixpoint main_options (argv0 : string) (args : list string) (o : Options) : M Options :=
  match args with
  | [] => ret o
  | arg :: rest =>
      if is_option arg "-h" "--help" then printUsageAndExit argv0
      else if is_option arg "-f" "--file" then
        match rest with
        | [] => requires_argument argv0 arg
        | a :: rest' =>
            modify (set_use_pbo false) ;;
            main_options argv0 rest' (set_out_file a o)
        end
      else if is_option arg "-n" "--nopbo" then
        modify (set_use_pbo false) ;;
        main_options argv0 rest o
      else if is_option arg "-s" "--sample" then
        match rest with
        | [] => requires_argument argv0 arg
        | a :: rest' => main_options argv0 rest' (set_sample (atoi a) o)
        end
      else if is_option arg "-t" "--time" then
        match rest with
        | [] => requires_argument argv0 arg
        | a :: rest' => main_options argv0 rest' (set_time_limit (atof a) o)
        end
      else if is_option arg "-W" "--width" then
        match rest with
        | [] => requires_argument argv0 arg
        | a :: rest' =>
            modify (set_width (wrap_uint (atoi a))) ;;
            main_options argv0 rest' o
        end
      else if is_option arg "-H" "--height" then
        match rest with
        | [] => requires_argument argv0 arg
        | a :: rest' =>
            modify (set_height (wrap_uint (atoi a))) ;;
            main_options argv0 rest' o
        end
      else
        perform (cerr [PStr "Unknown option '"; PStr arg; PStr "'"]) ;;
        printUsageAndExit argv0
  end.

(** The test that ends the batch loop early:
    [used_time + delta_time * 1.1 > time_limit]. *)
Definition over_time_limit (used_time delta_time time_limit : T) : bool :=
  fgt (fadd used_time (fmul delta_time (lit (Qmake 11 10)))) time_limit.

(** The batch loop (lines 830 to 847).  With [use_time_limit] the C++ loop
    has no bound of its own; [fuel] bounds the number of iterations the
    model follows, and running out of it is the signal [OutOfFuel]. *)
Fixpoint main_loop (fuel : nat) (o : Options) (launch_time : T) (i : Z) (last_time : T)
  : M unit :=
  if (i <? sample o) || use_time_limit o
  then
    match fuel with
    | O => throw OutOfFuel
    | S fuel' =>
        now <- currentTime ;;
        let used_time := fsub now launch_time in
        let delta_time := fsub now last_time in
        let last_time := now in
        if over_time_limit used_time delta_time (time_limit o)
        then
          perform (cout [PStr "reached time limit! used_time: "; PDouble used_time;
                         PStr " sec. remain_time: ";
                         PDouble (fsub (time_limit o) used_time); PStr " sec."]) ;;
          perform (cout [PStr "sampled: "; PInt i])
        else
          context_launch_0 ;;
          n <- gets frame_number ;;
          modify (set_frame_number (wrap_int (n + 1))) ;;
          context_set "frame_number" (VUint (wrap_uint n)) ;;
          main_loop fuel' o launch_time (wrap_int (i + 1)) last_time
    end
  else ret tt.

(** The branch of [main] that renders to a file (lines 812 to 857), for
    the options [o] and the reading [launch_time] taken when [main]
    started. *)
Definition main_batch (fuel : nat) (o : Options) (launch_time : T) : M Z :=
  updateCamera ;;
  wd <- gets width ;;
  ht <- gets height ;;
  perform (cout [PStr "resolution: "; PInt wd; PStr "x"; PInt ht; PStr " px"]) ;;
  perform (cout [PStr "time_limit: "; PDouble (time_limit o); PStr " sec."]) ;;
  (if use_time_limit o
   then perform (cout [PStr "sample: INF("; PInt (sample o); PStr ")"])
   else perform (cout [PStr "sample: "; PInt (sample o)])) ;;
  last_time <- currentTime ;;
  main_loop fuel o launch_time 0 last_time ;;
  b <- getOutputBuffer ;;
  perform (displayBufferPNG (out_file o) b false) ;;
  destroyContext ;;
  finish_time <- currentTime ;;
  let total_time := fsub finish_time launch_time in
  perform (cout [PStr "total_time: "; PDouble total_time; PStr " sec."]) ;;
  ret 0.

(** ** Reading worlds and traces

    The notions the properties below are stated with. *)

Definition is_destroy (e : Effect) : bool :=
  match e with context_destroy => true | _ => false end.
Definition is_launch (e : Effect) : bool :=
  match e with context_launch _ _ _ => true | _ => false end.
Definition is_export (e : Effect) : bool :=
  match e with displayBufferPNG _ _ _ => true | _ => false end.

(** How many effects of a kind a trace holds. *)
Definition count (kind : Effect -> bool) (tr : list Effect) : nat :=
  length (List.filter kind tr).

(** [n] calls of [destroyContext] in a row. *)
Fixpoint destroyContext_times (n : nat) : M unit :=
  match n with
  | O => ret tt
  | S n => destroyContext ;; destroyContext_times n
  end.

(** The three places [resolveDataPath] looks at, in its order. *)
Definition source_locations (w : World) (filename : string) : list string :=
  [ current_path (host w) +:+ "/" +:+ filename;
    current_path (host w) +:+ "/data/" +:+ filename;
    samplesDir (host w) +:+ "/data/" +:+ filename ].

(** What the loop makes of one registered light. *)
Definition finalized (l : LightParameter) : LightParameter :=
  set_normal (normalize (normal l))
    (set_area (fmul (fmul (fmul (lit 4) M_PIf) (radius l)) (radius l)) l).

(** The variable the kernels read as the frame counter. *)
Definition counter (w : World) : option Value :=
  match context w with
  | Some c => ctx_vars c !! "frame_number"
  | None => None
  end.

(** The counter [updateCamera] publishes from a world. *)
Definition next_counter (w : World) : Z :=
  if camera_changed (camera w) then 1 else frame_number w.

(** The pointer, reshape and display callbacks GLUT delivers. *)
Inductive Interaction :=
| mouse_press (button state x y : Z)
| mouse_motion (x y : Z)
| reshape (w h : Z)
| display.

Definition callback (e : Interaction) : M unit :=
  match e with
  | mouse_press button state x y => glutMousePress button state x y
  | mouse_motion x y => glutMouseMotion x y
  | reshape w h => glutResize w h
  | display => glutDisplay
  end.

Fixpoint glutMainLoop (events : list Interaction) : M unit :=
  match events with
  | [] => ret tt
  | e :: rest => callback e ;; glutMainLoop rest
  end.

Definition is_display (e : Interaction) : bool :=
  match e with display => true | _ => false end.

(** A world in which rendering can go on: the context is live and its
    variable [output_buffer] names one of its buffers. *)
Definition ready (w : World) : Prop :=
  exists c b buf,
    context w = Some c /\
    ctx_vars c !! "output_buffer" = Some (VBuffer b) /\
    ctx_buffers c !! b = Some buf.

(** The reading the [k]-th next call of [sutil::currentTime] returns. *)
Definition reading (w : World) (k : nat) : T :=
  clock (host w) (ticks (host w) + k)%nat.

(** For a loop entered in world [w] with [last_time]: what iteration [k]
    computes before its test. [now k] is its reading of the clock,
    [used_time k] the time since the program started and [delta_time k]
    the time since the previous iteration read the clock, which is the
    measured duration of that iteration (for [k = 0], the time since
    [last_time] was read just before the loop). *)
Definition now (w : World) (k : nat) : T := reading w k.

Definition used_time (launch_time : T) (w : World) (k : nat) : T :=
  fsub (now w k) launch_time.

Definition delta_time (last_time : T) (w : World) (k : nat) : T :=
  fsub (now w k)
       match k with
       | O => last_time
       | S j => now w j
       end.

Definition exceeds (o : Options) (launch_time last_time : T) (w : World) (k : nat)
  : bool :=
  over_time_limit (used_time launch_time w k) (delta_time last_time w k) (time_limit o).

(** The loop condition [i < sample || use_time_limit]. *)
Definition continues (o : Options) (i : Z) : bool :=
  (i <? sample o) || use_time_limit o.

(** The two lines printed when the time limit ends the loop. *)
Definition reached_time_limit (o : Options) (used : T) (i : Z) : list (Effect) :=
  [ cout [PStr "reached time limit! used_time: "; PDouble used;
          PStr " sec. remain_time: "; PDouble (fsub (time_limit o) used); PStr " sec."];
    cout [PStr "sampled: "; PInt i] ].

(** How the loop ended. *)
Inductive LoopEnd := TimeLimit | SampleCount | Fuel.

(** The world after one more reading of the clock, and after more
    effects. *)
Definition tick (w : World) : World :=
  set_host (set_ticks (S (ticks (host w))) (host w)) w.

Definition logged (es : list (Effect)) (w : World) : World :=
  set_host (set_trace (trace (host w) ++ es) (host w)) w.

(** The world after an iteration of the batch loop that launches, entered
    in [w] with the context [c]. *)
Definition launched (c : ContextObj) (w : World) : World :=
  set_context
    (Some {| ctx_vars := <["frame_number" := VUint (wrap_uint (frame_number w))]> (ctx_vars c);
             ctx_buffers := ctx_buffers c |})
    (set_frame_number (wrap_int (frame_number w + 1))
       (logged [context_launch 0 (width w) (height w)] (tick w))).

(** What [main_batch] prints before the loop. *)
Definition batch_header (o : Options) (w : World) : list (Effect) :=
  [ cout [PStr "resolution: "; PInt (width w); PStr "x"; PInt (height w); PStr " px"];
    cout [PStr "time_limit: "; PDouble (time_limit o); PStr " sec."];
    if use_time_limit o
    then cout [PStr "sample: INF("; PInt (sample o); PStr ")"]
    else cout [PStr "sample: "; PInt (sample o)] ].

(** An argument list that names no time limit. *)
Definition no_time_option (args : list string) : bool :=
  forallb (fun a => negb (is_option a "-t" "--time")) args.

Definition drags (button : Z) : bool :=
  (button =? GLUT_RIGHT_BUTTON) || (button =? GLUT_LEFT_BUTTON) ||
  (button =? GLUT_MIDDLE_BUTTON).


(** ** The scene geometry *)

Definition set_programs (p : Programs) (w : World) : World :=
  {| context := context w; width := width w; height := height w;
     use_pbo := use_pbo w; frame_number := frame_number w;
     programs := p; camera := camera w;
     mouse := mouse w; m_bufferLightParameters := m_bufferLightParameters w;
     frame_count := frame_count w; host := host w |}.

Definition set_pgram_intersection_raymarching (p : Program) (ps : Programs) : Programs :=
  {| pgram_intersection := pgram_intersection ps;
     pgram_bounding_box := pgram_bounding_box ps;
     pgram_intersection_raymarching := Some p;
     pgram_bounding_box_raymarching := pgram_bounding_box_raymarching ps;
     pgram_intersection_sphere := pgram_intersection_sphere ps;
     pgram_bounding_box_sphere := pgram_bounding_box_sphere ps |}.
Definition set_pgram_bounding_box_raymarching (p : Program) (ps : Programs) : Programs :=
  {| pgram_intersection := pgram_intersection ps;
     pgram_bounding_box := pgram_bounding_box ps;
     pgram_intersection_raymarching := pgram_intersection_raymarching ps;
     pgram_bounding_box_raymarching := Some p;
     pgram_intersection_sphere := pgram_intersection_sphere ps;
     pgram_bounding_box_sphere := pgram_bounding_box_sphere ps |}.
Definition set_pgram_intersection_sphere (p : Program) (ps : Programs) : Programs :=
  {| pgram_intersection := pgram_intersection ps;
     pgram_bounding_box := pgram_bounding_box ps;
     pgram_intersection_raymarching := pgram_intersection_raymarching ps;
     pgram_bounding_box_raymarching := pgram_bounding_box_raymarching ps;
     pgram_intersection_sphere := Some p;
     pgram_bounding_box_sphere := pgram_bounding_box_sphere ps |}.
Definition set_pgram_bounding_box_sphere (p : Program) (ps : Programs) : Programs :=
  {| pgram_intersection := pgram_intersection ps;
     pgram_bounding_box := pgram_bounding_box ps;
     pgram_intersection_raymarching := pgram_intersection_raymarching ps;
     pgram_bounding_box_raymarching := pgram_bounding_box_raymarching ps;
     pgram_intersection_sphere := pgram_intersection_sphere ps;
     pgram_bounding_box_sphere := Some p |}.

(** An assignment to one of the global program handles. *)
Definition update_programs (f : Programs -> Programs) : M unit :=
  modify (fun w => set_programs (f (programs w)) w).

(** [createGeometry] (lines 306 to 351).  The colours [gray] and [red] it
    declares are not used. *)
Definition createGeometry : M GeometryGroup :=
  _ <- the_context ;;
  let ptx := "redflash.cu" in
  let diffuse_ch := createProgramFromPTXString ptx "closest_hit" in
  let diffuse_ah := createProgramFromPTXString ptx "shadow" in
  let diffuse := {| mat_closest_hit := [(0, diffuse_ch)];
                    mat_any_hit := [(1, diffuse_ah)] |} in
  let ptx := "intersect_raymarching.cu" in
  update_programs
    (set_pgram_bounding_box_raymarching (createProgramFromPTXString ptx "bounds")) ;;
  update_programs
    (set_pgram_intersection_raymarching (createProgramFromPTXString ptx "intersect")) ;;
  let ptx := "intersect_sphere.cu" in
  update_programs
    (set_pgram_bounding_box_sphere (createProgramFromPTXString ptx "bounds")) ;;
  update_programs
    (set_pgram_intersection_sphere (createProgramFromPTXString ptx "sphere_intersect")) ;;
  let white := make_float3 (lit (Qmake 8 10)) (lit (Qmake 8 10)) (lit (Qmake 8 10)) in
  let green := make_float3 (lit (Qmake 5 100)) (lit (Qmake 8 10)) (lit (Qmake 5 100)) in
  gi <- createRaymrachingObject (make_float3_1 (lit 0)) (make_float3_1 (lit 300))
          (make_float3_1 (lit (Qmake 43 10))) ;;
  let gis := [setMaterial gi diffuse "albedo_color" white] in
  gi <- createSphereObject (make_float3 (lit 0) (lit 310) (lit 50)) (lit 10) ;;
  let gis := gis ++ [setMaterial gi diffuse "albedo_color" green] in
  shadow_group <- context_createGeometryGroup gis ;;
  ret (setAcceleration "Trbvh" shadow_group).

(** ** The triangle mesh *)

(** [struct OptiXMesh] of the SDK, with the fields [createMesh] sets and
    the instance it reads back.  Its [context] field is the global handle,
    which the loader reaches through the world. *)
Record OptiXMesh := {
  use_tri_api : bool;
  ignore_mats : bool;
  mesh_material : option Material;
  closest_hit : option Program;
  any_hit : option Program;
  geom_instance : option GeometryInstance
}.

(** The mesh importer of the SDK, outside [redflash.cpp]:
    [Matrix4x4::translate], [Matrix4x4::scale] and
    [loadMesh(filename, mesh, mat)], which reads the file, fills [mesh] in
    place and may throw. *)
Class MeshLoader := {
  Matrix4x4_translate : float3 -> Matrix4x4;
  Matrix4x4_scale : float3 -> Matrix4x4;
  loadMesh : string -> OptiXMesh -> Matrix4x4 -> M OptiXMesh
}.

Context {LOADER : MeshLoader}.

(** The settings [createMesh] hands to the loader. *)
Definition createMesh_settings (material : Material) (closest_hit any_hit : Program)
  : OptiXMesh :=
  {| use_tri_api := true; ignore_mats := false;
     mesh_material := Some material;
     closest_hit := Some closest_hit; any_hit := Some any_hit;
     geom_instance := None |}.

Definition createMesh (filename : string) (material : Material)
    (closest_hit any_hit : Program) (center scale : float3)
  : M (option GeometryInstance) :=
  let mesh := createMesh_settings material closest_hit any_hit in
  let mat := Matrix4x4_mul (Matrix4x4_translate center) (Matrix4x4_scale scale) in
  mesh <- loadMesh filename mesh mat ;;
  ret (geom_instance mesh).

(** A call through a [GeometryInstance] handle that may be null. *)
Definition the_instance (gi : option GeometryInstance) : M GeometryInstance :=
  match gi with
  | Some gi => ret gi
  | None => throw NullHandle
  end.

Definition createGeometryTriangles : M GeometryGroup :=
  _ <- the_context ;;
  let ptx := "redflash.cu" in
  let diffuse_ch := createProgramFromPTXString ptx "closest_hit" in
  let diffuse_ah := createProgramFromPTXString ptx "shadow" in
  let diffuse := {| mat_closest_hit := [(0, diffuse_ch)];
                    mat_any_hit := [(1, diffuse_ah)] |} in
  let color := make_float3 (lit (Qmake 9 10)) (lit (Qmake 1 10)) (lit (Qmake 1 10)) in
  mesh_file <- resolveDataPath "cow.obj" ;;
  gi <- createMesh mesh_file diffuse diffuse_ch diffuse_ah
          (make_float3 (lit 0) (lit 300) (lit 0)) (make_float3_1 (lit 500)) ;;
  gi <- the_instance gi ;;
  let gis := [instance_set "albedo_color" (VFloat3 color) gi] in
  shadow_group <- context_createGeometryGroup gis ;;
  ret (setAcceleration "Trbvh" shadow_group).

(** ** More notions for the properties *)

(** The command lines [main_options] reads to the end: [-n] alone, the
    five options that take a value followed by one, in any order and any
    number of times. *)
Definition takes_value (arg : string) : bool :=
  is_option arg "-f" "--file" || is_option arg "-s" "--sample" ||
  is_option arg "-t" "--time" || is_option arg "-W" "--width" ||
  is_option arg "-H" "--height".

Fixpoint accepted (args : list string) : bool :=
  match args with
  | [] => true
  | arg :: rest =>
      if is_option arg "-n" "--nopbo" then accepted rest
      else if takes_value arg
      then match rest with
           | [] => false
           | _ :: rest' => accepted rest'
           end
      else false
  end.

(** The events of an interactive session: the callbacks of [callback] and
    the keyboard. *)
Inductive Event :=
| pointer (e : Interaction)
| keyboard (k : ascii) (x y : Z).

Definition handle (ev : Event) : M unit :=
  match ev with
  | pointer e => callback e
  | keyboard k x y => glutKeyboardPress k x y
  end.

Fixpoint session (events : list Event) : M unit :=
  match events with
  | [] => ret tt
  | ev :: rest => handle ev ;; session rest
  end.

Definition is_quit (ev : Event) : bool :=
  match ev with
  | keyboard k _ _ => (Ascii.eqb k "q" || Ascii.eqb k "027")%char
  | pointer _ => false
  end.

Definition is_save (ev : Event) : bool :=
  match ev with
  | keyboard k _ _ => Ascii.eqb k "s"
  | pointer _ => false
  end.

Definition is_redraw (ev : Event) : bool :=
  match ev with
  | pointer e => is_display e
  | keyboard _ _ _ => false
  end.

(** The events that end a session: a quit key, and the display callback,
    which overflows its text buffer. *)
Definition ends_session (ev : Event) : bool := is_quit ev || is_redraw ev.

(** The events before the first one that ends the session. *)
Fixpoint before_end (events : list Event) : list Event :=
  match events with
  | [] => []
  | ev :: rest => if ends_session ev then [] else ev :: before_end rest
  end.

(** The interactions that ask for a restart of the accumulation in world
    [w]: a pointer move while a known button is recorded, and a reshape to
    a size other than the current one. *)
Definition marks_dirty (w : World) (e : Interaction) : bool :=
  match e with
  | mouse_motion _ _ => drags (mouse_button (mouse w))
  | reshape w' h' => negb ((w' =? wrap_int (width w)) && (h' =? wrap_int (height w)))
  | mouse_press _ _ _ _ => false
  | display => false
  end.

(** [n] calls of [registerExitHandler] in a row. *)
Fixpoint registerExitHandler_times (n : nat) : M unit :=
  match n with
  | O => ret tt
  | S n => registerExitHandler ;; registerExitHandler_times n
  end.

(** What [main_options] leaves of the world when it reads a command line
    to the end, and how it stops otherwise. *)
Definition main_options_outcome (args : list string) (w : World)
    (r : Outcome Options) : Prop :=
  match r with
  | Done _ w' =>
      accepted args = true /\
      context w' = context w /\ camera w' = camera w /\
      frame_number w' = frame_number w /\ host w' = host w
  | Stop s w' =>
      accepted args = false /\ s = Exit 1 /\
      In (cerr [PStr usage_text]) (trace (host w'))
  end.

(** How a session of events ends, and what it has performed by then. *)
Definition session_outcome (events : list Event) (w : World)
    (r : Outcome unit) : Prop :=
  match r, List.find ends_session events with
  | Done _ w', None =>
      ready w' /\
      count is_destroy (trace (host w')) = count is_destroy (trace (host w)) /\
      count is_launch (trace (host w')) = count is_launch (trace (host w))
  | Stop s w', Some ev =>
      if is_quit ev
      then
        s = Exit 0 /\ context w' = None /\
        count is_destroy (trace (host w')) = (count is_destroy (trace (host w)) + 1)%nat /\
        count is_launch (trace (host w')) = count is_launch (trace (host w))
      else
        s = OutOfBounds /\ ready w' /\
        count is_destroy (trace (host w')) = count is_destroy (trace (host w)) /\
        count is_launch (trace (host w')) = (count is_launch (trace (host w)) + 1)%nat
  | _, _ => False
  end /\
  count is_export (trace (host (world_of r))) =
    (count is_export (trace (host w)) +
     length (List.filter is_save (before_end events)))%nat.


End Program.


Notation "x <- c1 ;; c2" := (bind c1 (fun x => c2))
  (at level 100, c1 at next level, c2 at level 200, right associativity).
Notation "c1 ;; c2" := (bind c1 (fun _ => c2))
  (at level 100, c2 at level 200, right associativity).

Arguments float2 : clear implicits.
Arguments float3 : clear implicits.
Arguments float4 : clear implicits.
Arguments Sdk : clear implicits.
Arguments LightParameter : clear implicits.
Arguments GeometryInstance : clear implicits.
Arguments GeometryGroup : clear implicits.
Arguments Buffer : clear implicits.
Arguments ContextObj : clear implicits.
Arguments Effect : clear implicits.
Arguments Camera : clear implicits.
Arguments Host : clear implicits.
Arguments World : clear implicits.
Arguments Options : clear implicits.
Arguments Outcome : clear implicits.
Arguments Done {F T Matrix4x4 A} a w.
Arguments Stop {F T Matrix4x4 A} s w.
Arguments M : clear implicits.

Arguments OptiXMesh : clear implicits.
Arguments MeshLoader : clear implicits.


(** ** Scenarios

    The program on concrete inputs, [float] as binary32 and [double] as
    binary64.  Stand-ins for the collaborators, enough to run it: a
    camera whose matrices are all the identity, a minimum window size of
    1 by 1, and [atoi] and [atof] reading an unsigned decimal number.
    The properties below are proved for every [Sdk]; this one only runs
    the scenarios. *)

Fixpoint decimal (s : string) (acc : Z) : Z :=
  match s with
  | EmptyString => acc
  | String ch rest =>
      let d := Z.of_nat (nat_of_ascii ch) - 48 in
      if (0 <=? d) && (d <=? 9) then decimal rest (10 * acc + d) else acc
  end.

#[export] Instance still_sdk : Sdk float32 float unit := {|
  normalize := fun v => v;
  Matrix4x4_identity := tt;
  Matrix4x4_fromBasis := fun _ _ _ _ => tt;
  Matrix4x4_inverse := fun m => m;
  Matrix4x4_mul := fun _ _ => tt;
  Matrix4x4_mulv := fun _ v => v;
  calculateCameraVariables := fun eye lookat up _ _ _ =>
    (make_float3 (lit 1) (lit 0) (lit 0), up, sub3 lookat eye);
  arcball_rotate := fun _ _ => tt;
  ensureMinimumSize := fun w h => (if w =? 0 then 1 else w, if h =? 0 then 1 else h);
  atoi := fun s => decimal s 0;
  atof := fun s => float_of_Z (decimal s 0)
|}.

(** A clock that stands still except during launches, each of which
    takes [d] seconds: the first two readings of a batch run ([last_time]
    and the first [now]) are 0, the next ones [d], [2d], ... *)
Definition frame_clock (d : float) (k : nat) : float :=
  PrimFloat.mul d (float_of_Z (Z.of_nat (Nat.pred k))).

Definition scenario_light : LightParameter float32 :=
  {| position := make_float3_1 (lit 0); emission := make_float3_1 (lit 0);
     radius := lit 0; area := lit 0;
     u := make_float3 (lit 1) (lit 0) (lit 0);
     v := make_float3 (lit 0) (lit 1) (lit 0);
     normal := make_float3 (lit 0) (lit 0) (lit 1);
     lightType := QUAD |}.

(** A context whose output buffer, under handle 0, is 480 by 270. *)
Definition scenario_buffer : Buffer float32 :=
  {| buf_format := RT_FORMAT_FLOAT4; buf_element_size := None;
     buf_dims := [480; 270]; buf_data := [] |}.

Definition scenario_context : ContextObj float32 :=
  {| ctx_vars := {[ "output_buffer" := VBuffer 0 ]};
     ctx_buffers := {[ 0%nat := scenario_buffer ]} |}.

Definition scenario_programs : Programs :=
  {| pgram_intersection := None;
     pgram_bounding_box := None;
     pgram_intersection_raymarching :=
       Some (createProgramFromPTXString "intersect_raymarching.cu" "intersect");
     pgram_bounding_box_raymarching :=
       Some (createProgramFromPTXString "intersect_raymarching.cu" "bounds");
     pgram_intersection_sphere :=
       Some (createProgramFromPTXString "intersect_sphere.cu" "sphere_intersect");
     pgram_bounding_box_sphere :=
       Some (createProgramFromPTXString "intersect_sphere.cu" "bounds") |}.

(** The world once set-up is over, at 480 by 270, the eye ten units from
    the point it looks at; [changed] is the dirty flag and [clk] the
    clock.  The only asset on disk is the installed [cow.obj]. *)
Definition scenario_world (changed : bool) (clk : nat -> float)
  : World float32 float unit :=
  {| context := Some scenario_context;
     width := 480; height := 270; use_pbo := false; frame_number := 1;
     programs := scenario_programs;
     camera := {| camera_up := make_float3 (lit 0) (lit 1) (lit 0);
                  camera_lookat := make_float3 (lit 0) (lit 0) (lit 0);
                  camera_eye := make_float3 (lit 0) (lit 0) (lit 10);
                  camera_rotate := tt; camera_changed := changed;
                  frame := tt; frame_inv := tt |};
     mouse := {| mouse_prev_pos := make_int2 0 0; mouse_button := 0 |};
     m_bufferLightParameters := None;
     frame_count := 0;
     host := {| clock := clk; ticks := 0;
                fs_exists := String.eqb "/opt/redflash/data/cow.obj";
                current_path := "/home/render";
                samplesDir := "/opt/redflash";
                win32 := false;
                atexit_handlers := [call_destroyContext];
                close_func := None;
                indeterminate := fun _ => scenario_light;
                trace := [] |} |}.

(** [-t 10], as [main_options] leaves the options. *)
Definition deadline_10 : Options float :=
  {| out_file := "out.png"; sample := 20; time_limit := 10%float;
     use_time_limit := true |}.

(** The worlds and inputs of the scenarios. *)

(** A batch run about to enter its loop: [last_time] was just read. *)
Definition deadline_world : World float32 float unit :=
  tick (scenario_world true (frame_clock 9)).

(** [-f out.png -s N]. *)
Definition file_args (N : string) : list string := ["-f"; "out.png"; "-s"; N].

Definition file_options (N : Z) : Options float :=
  {| out_file := "out.png"; sample := N; time_limit := float_of_Z 3600;
     use_time_limit := false |}.

(** The left button goes down, then the right button goes down and up
    again, all at (100, 100): the left button is still held afterwards, so
    GLUT keeps delivering pointer moves. *)
Definition press_and_release : list Interaction :=
  [ mouse_press GLUT_LEFT_BUTTON GLUT_DOWN 100 100;
    mouse_press GLUT_RIGHT_BUTTON GLUT_DOWN 100 100;
    mouse_press GLUT_RIGHT_BUTTON GLUT_UP 100 100 ].

(** The procedural volume of the scene, and a zero unit scale. *)
Definition volume_center : float3 float32 := make_float3_1 (lit 0).
Definition volume_world_scale : float3 float32 := make_float3_1 (lit 300).
Definition volume_unit_scale : float3 float32 := make_float3_1 (lit (Qmake 43 10)).
Definition zero_unit_scale : float3 float32 := make_float3_1 (lit 0).


(** More worlds and inputs for the scenarios. *)

(** A mesh loader that reads nothing and returns an empty instance. *)
#[export] Instance still_loader : MeshLoader float32 float unit := {|
  Matrix4x4_translate := fun _ => tt;
  Matrix4x4_scale := fun _ => tt;
  loadMesh := fun _ mesh _ =>
    ret {| use_tri_api := use_tri_api mesh; ignore_mats := ignore_mats mesh;
           mesh_material := mesh_material mesh;
           closest_hit := closest_hit mesh; any_hit := any_hit mesh;
           geom_instance := Some {| gi_geometry := None; gi_materials := [];
                                    gi_vars := ∅ |} |}
|}.

(** The scenario world on a disk without any asset. *)
Definition scenario_no_assets : World float32 float unit :=
  let w := scenario_world true (frame_clock 1) in
  set_host {| clock := clock (host w); ticks := ticks (host w);
              fs_exists := fun _ => false;
              current_path := current_path (host w);
              samplesDir := samplesDir (host w); win32 := win32 (host w);
              atexit_handlers := atexit_handlers (host w);
              close_func := close_func (host w);
              indeterminate := indeterminate (host w);
              trace := trace (host w) |} w.

(** A light buffer of three elements under handle 1, the last of which
    was written before. *)
Definition scenario_light_buffer : Buffer float32 :=
  {| buf_format := RT_FORMAT_USER; buf_element_size := Some sizeof_LightParameter;
     buf_dims := [3]; buf_data := [None; None; Some scenario_light] |}.

Definition scenario_lit_context : ContextObj float32 :=
  {| ctx_vars := ctx_vars scenario_context;
     ctx_buffers := <[1%nat := scenario_light_buffer]> (ctx_buffers scenario_context) |}.

Definition scenario_lit_world : World float32 float unit :=
  set_m_bufferLightParameters (Some 1%nat)
    (set_context (Some scenario_lit_context) (scenario_world true (frame_clock 1))).


(** A session: a drag with the left button, a saved image, the quit key,
    and a frame that is never drawn. *)
Definition scenario_session : list Event :=
  [ pointer (mouse_press GLUT_LEFT_BUTTON GLUT_DOWN 100 100);
    pointer (mouse_motion 340 100);
    keyboard "s" 0 0;
    keyboard "q" 0 0;
    pointer display ].

(** The scenario world with six frames accumulated: the next counter is 7. *)
Definition scenario_accumulated : World float32 float unit :=
  set_frame_number 7 (scenario_world false (frame_clock 1)).

(** ** The test of the time limit, spelled out on binary64

    What iteration [k] of the batch loop, entered in world [w] with
    [last_time], compares with the time limit: [elapsed k] is its reading
    of the clock less [launch_time]; [predicted k] is its reading less
    the one before, the measured duration of the previous iteration (for
    [k = 0], the time since [last_time] was read just before the loop);
    [estimate k] is [elapsed k + predicted k * 1.1] in [double]
    arithmetic. *)
Definition elapsed {F Matrix4x4 : Type} (launch_time : float)
    (w : World F float Matrix4x4) (k : nat) : float :=
  (clock (host w) (ticks (host w) + k)%nat - launch_time)%float.

Definition predicted {F Matrix4x4 : Type} (last_time : float)
    (w : World F float Matrix4x4) (k : nat) : float :=
  (clock (host w) (ticks (host w) + k)%nat -
   match k with
   | O => last_time
   | S j => clock (host w) (ticks (host w) + j)%nat
   end)%float.

Definition estimate {F Matrix4x4 : Type} (launch_time last_time : float)
    (w : World F float Matrix4x4) (k : nat) : float :=
  (elapsed launch_time w k + predicted last_time w k * 0x1.199999999999ap+0)%float.
(** The world once [resolveDataPath] has found [cow.obj], and what the
    loader [still_loader] makes of it. *)
Definition scenario_cow_found : World float32 float unit :=
  world_of (resolveDataPath "cow.obj" (scenario_world true (frame_clock 1))).

Definition scenario_cow_instance : GeometryInstance float32 :=
  {| gi_geometry := None; gi_materials := []; gi_vars := ∅ |}.

Definition scenario_cow_mesh : OptiXMesh float32 :=
  {| use_tri_api := true; ignore_mats := false;
     mesh_material :=
       Some {| mat_closest_hit := [(0, createProgramFromPTXString "redflash.cu" "closest_hit")];
               mat_any_hit := [(1, createProgramFromPTXString "redflash.cu" "shadow")] |};
     closest_hit := Some (createProgramFromPTXString "redflash.cu" "closest_hit");
     any_hit := Some (createProgramFromPTXString "redflash.cu" "shadow");
     geom_instance := Some scenario_cow_instance |}.
Section Properties.

Context {F : Type} {SF : Scalar F}.
Context {T : Type} {ST : Scalar T}.
Context {Matrix4x4 : Type} {SDK : Sdk F T Matrix4x4}.

Abbreviation World := (World F T Matrix4x4).
Abbreviation M := (M F T Matrix4x4).


(** Symbolic execution: [mred] unfolds the monad, [wsimpl] reads fields
    of updated worlds. *)
Ltac mred :=
  cbv beta iota zeta
    delta [bind gets ret modify throw perform the_context the_program
           update_camera context_set context_put_buffer the_buffer].
Ltac wsimpl :=
  cbn [context width height use_pbo frame_number programs camera mouse
       m_bufferLightParameters frame_count host
       set_context set_width set_height set_use_pbo set_frame_number set_camera
       set_mouse set_m_bufferLightParameters set_frame_count set_host
       clock ticks fs_exists current_path samplesDir win32 atexit_handlers
       close_func indeterminate trace
       set_ticks set_atexit_handlers set_close_func set_trace
       camera_up camera_lookat camera_eye camera_rotate camera_changed frame frame_inv
       set_camera_lookat set_camera_eye set_camera_rotate set_camera_changed
       set_frame set_frame_inv
       mouse_prev_pos mouse_button ctx_vars ctx_buffers fst snd
       buf_format buf_element_size buf_dims buf_data set_buf_data].
Ltac mrun tac := repeat (mred; wsimpl; progress tac); mred; wsimpl.

Lemma count_app (kind : Effect F T -> bool) (a b : list (Effect F T)) :
  count kind (a ++ b) = (count kind a + count kind b)%nat.
Proof. unfold count. rewrite List.filter_app, length_app. reflexivity. Qed.

Lemma destroyContext_live (w : World) c :
  context w = Some c ->
  destroyContext w =
    Done tt (set_context None
               (set_host (set_trace (trace (host w) ++ [context_destroy]) (host w)) w)).
Proof. intros H. unfold destroyContext, bind, gets. rewrite H. reflexivity. Qed.

Lemma destroyContext_null (w : World) :
  context w = None -> destroyContext w = Done tt w.
Proof. intros H. unfold destroyContext, bind, gets. rewrite H. reflexivity. Qed.

Lemma destroyContext_times_null (n : nat) (w : World) :
  context w = None -> destroyContext_times n w = Done tt w.
Proof.
  intros H. induction n as [|n IH]; simpl.
  - reflexivity.
  - unfold bind. rewrite (destroyContext_null w H). exact IH.
Qed.

(** What one call does, whatever the handle: the handle is null afterwards
    and the trace gained one [context_destroy] exactly when the handle was
    not null. *)
Lemma destroyContext_spec (w : World) :
  exists w',
    destroyContext w = Done tt w' /\
    context w' = None /\
    count is_destroy (trace (host w')) =
      (count is_destroy (trace (host w)) +
       match context w with Some _ => 1 | None => 0 end)%nat.
Proof.
  destruct (context w) as [c|] eqn:E.
  - eexists. split; [apply (destroyContext_live w c E)|].
    split; [reflexivity|]. simpl. rewrite count_app. reflexivity.
  - exists w. split; [apply (destroyContext_null w E)|].
    split; [exact E|]. lia.
Qed.

(** *** Leaving the process *)

Lemma run_exit_handlers_done (hs : list ExitHandler) :
  forall w : World,
    exists w',
      run_exit_handlers hs w = Done tt w' /\
      (context w = None -> w' = w) /\
      (hs <> [] -> context w' = None) /\
      (count is_destroy (trace (host w')) <=
       count is_destroy (trace (host w)) +
       match context w with Some _ => 1 | None => 0 end)%nat.
Proof.
  induction hs as [|h rest IH]; intros w; simpl.
  - exists w. split; [reflexivity|]. split; [auto|]. split; [congruence|lia].
  - destruct h. simpl.
    destruct (destroyContext_spec w) as (w1 & Hrun & Hnull & Hcount).
    destruct (IH w1) as (w2 & Hrest & Hsame & _ & Hle).
    exists w2. unfold bind. rewrite Hrun.
    split; [exact Hrest|].
    split.
    { intros Hw. rewrite (destroyContext_null w Hw) in Hrun.
      injection Hrun as <-. apply Hsame. exact Hw. }
    split; [intros _; rewrite (Hsame Hnull); exact Hnull|].
    rewrite Hnull in Hle. lia.
Qed.

(** [exit] never returns. *)
Lemma exit_stops {A} (code : Z) (w : World) :
  exists w',
    exit (A:=A) code w = Stop (Exit code) w' /\
    (context w = None -> w' = w) /\
    (count is_destroy (trace (host w')) <=
     count is_destroy (trace (host w)) +
     match context w with Some _ => 1 | None => 0 end)%nat.
Proof.
  destruct (run_exit_handlers_done (atexit_handlers (host w)) w)
    as (w' & Hrun & Hsame & _ & Hle).
  exists w'. unfold exit, bind, gets, throw. rewrite Hrun. auto.
Qed.

(** The quit keys release the context once, however many exit handlers
    were registered, and end the process with status 0. *)
Lemma glutKeyboardPress_quit (k : ascii) (x y : Z) (w : World) :
  (Ascii.eqb k "q" || Ascii.eqb k "027")%char = true ->
  exists w',
    glutKeyboardPress k x y w = Stop (Exit 0) w' /\
    context w' = None /\
    count is_destroy (trace (host w')) =
      (count is_destroy (trace (host w)) +
       match context w with Some _ => 1 | None => 0 end)%nat.
Proof.
  intros Hk. unfold glutKeyboardPress. rewrite Hk.
  destruct (destroyContext_spec w) as (w1 & Hrun & Hnull & Hcount).
  destruct (exit_stops (A:=unit) 0 w1) as (w2 & Hexit & Hsame & _).
  exists w2. unfold bind. rewrite Hrun.
  split; [exact Hexit|]. rewrite (Hsame Hnull). auto.
Qed.

(** C8. [destroyContext] is idempotent: [S n] calls in a row end where the
    first call ends, so every call after the first is a no-op; the handle
    is null afterwards; and the calls together perform
    [context->destroy()] once when the handle was set and not at all when
    it was null, hence at most once.  The same holds on the quit path: the
    keys [q] and ESC call [destroyContext] and then [exit], whose handlers
    call it again, and the context is still released once. *)
Theorem destroyContext_idempotent (n : nat) (x y : Z) (w : World) :
  (exists w',
     destroyContext_times (S n) w = Done tt w' /\
     destroyContext w = Done tt w' /\
     destroyContext w' = Done tt w' /\
     context w' = None /\
     count is_destroy (trace (host w')) =
       (count is_destroy (trace (host w)) +
        match context w with Some _ => 1 | None => 0 end)%nat /\
     (count is_destroy (trace (host w')) <= count is_destroy (trace (host w)) + 1)%nat) /\
  (exists w',
     glutKeyboardPress "q" x y w = Stop (Exit 0) w' /\
     context w' = None /\
     count is_destroy (trace (host w')) =
       (count is_destroy (trace (host w)) +
        match context w with Some _ => 1 | None => 0 end)%nat) /\
  (exists w',
     glutKeyboardPress "027" x y w = Stop (Exit 0) w' /\
     context w' = None /\
     count is_destroy (trace (host w')) =
       (count is_destroy (trace (host w)) +
        match context w with Some _ => 1 | None => 0 end)%nat).
Proof.
  split; [|split; apply glutKeyboardPress_quit; reflexivity].
  destruct (destroyContext_spec w) as (w' & Hrun & Hnull & Hcount).
  exists w'. simpl. unfold bind. rewrite Hrun.
  split; [apply destroyContext_times_null; exact Hnull|].
  split; [reflexivity|].
  split; [apply destroyContext_null; exact Hnull|].
  split; [exact Hnull|].
  split; [exact Hcount|].
  rewrite Hcount. destruct (context w); lia.
Qed.

(** *** Asset lookup *)


Lemma perform_host (e : Effect F T) (w : World) :
  perform e w =
    Done tt (set_host (set_trace (trace (host w) ++ [e]) (host w)) w).
Proof. reflexivity. Qed.

(** The search returns the first location that exists: every location
    before the returned one is missing. *)
Lemma resolveDataPath_search_found (filename : string) (locs : list string) :
  forall (w w' : World) (p : string),
    resolveDataPath_search filename locs w = Done p w' ->
    exists i : nat,
      locs !! i = Some p /\
      fs_exists (host w) p = true /\
      forall (j : nat) (q : string),
        (j < i)%nat -> locs !! j = Some q -> fs_exists (host w) q = false.
Proof.
  induction locs as [|it rest IH]; intros w w' p H; simpl in H.
  - discriminate H.
  - unfold bind in H. rewrite perform_host in H. unfold gets in H. simpl in H.
    destruct (fs_exists (host w) it) eqn:E.
    + unfold ret in H. injection H as <- _.
      exists 0%nat. split; [reflexivity|]. split; [exact E|].
      intros j q Hj. lia.
    + apply IH in H. simpl in H. destruct H as (i & Hi & Hp & Hbefore).
      exists (S i). split; [exact Hi|]. split; [exact Hp|].
      intros [|j] q Hj Hq; simpl in Hq.
      * injection Hq as <-. exact E.
      * apply (Hbefore j q); [lia | exact Hq].
Qed.

(** The search fails only with the "Couldn't open" exception, and only
    when every location is missing. *)
Lemma resolveDataPath_search_missing (filename : string) (locs : list string) :
  forall (w w' : World) (s : Signal),
    resolveDataPath_search filename locs w = Stop s w' ->
    s = Exception ("Couldn't open source file " +:+ filename) /\
    forall q : string, In q locs -> fs_exists (host w) q = false.
Proof.
  induction locs as [|it rest IH]; intros w w' s H; simpl in H.
  - unfold throw in H. injection H as <- _. split; [reflexivity|].
    intros q [].
  - unfold bind in H. rewrite perform_host in H. unfold gets in H. simpl in H.
    destruct (fs_exists (host w) it) eqn:E.
    + discriminate H.
    + apply IH in H. simpl in H. destruct H as [Hs Hall].
      split; [exact Hs|]. intros q [<-|Hq]; [exact E | exact (Hall q Hq)].
Qed.

(** C6. [resolveDataPath] either returns one of its three candidates, in
    which case that file exists and every candidate before it is missing,
    or it throws the "Couldn't open source file" exception, in which case
    none of the three candidates exists. *)
Theorem resolveDataPath_first_existing (filename : string) (w : World) :
  match resolveDataPath filename w with
  | Done p _ =>
      exists i : nat,
        source_locations w filename !! i = Some p /\
        fs_exists (host w) p = true /\
        forall (j : nat) (q : string),
          (j < i)%nat -> source_locations w filename !! j = Some q ->
          fs_exists (host w) q = false
  | Stop s _ =>
      s = Exception ("Couldn't open source file " +:+ filename) /\
      forall q : string,
        In q (source_locations w filename) -> fs_exists (host w) q = false
  end.
Proof.
  unfold resolveDataPath, bind, gets. fold (source_locations w filename).
  destruct (resolveDataPath_search filename (source_locations w filename) w)
    as [p w'|s w'] eqn:E.
  - exact (resolveDataPath_search_found _ _ _ _ _ E).
  - exact (resolveDataPath_search_missing _ _ _ _ _ E).
Qed.

(** *** Lights *)

Lemma wrap_int_small (z : Z) : - 2 ^ 31 <= z <= INT_MAX -> wrap_int z = z.
Proof.
  unfold wrap_int, INT_MAX. intros H.
  rewrite Z.mod_small by lia. lia.
Qed.

Lemma wrap_int_add_l (a b : Z) : wrap_int (wrap_int a + b) = wrap_int (a + b).
Proof.
  unfold wrap_int.
  replace ((a + 2 ^ 31) mod 2 ^ 32 - 2 ^ 31 + b + 2 ^ 31)
    with ((a + 2 ^ 31) mod 2 ^ 32 + b) by lia.
  rewrite Zplus_mod_idemp_l. f_equal. f_equal. lia.
Qed.



Lemma wrap_int_idem (a : Z) : wrap_int (wrap_int a) = wrap_int a.
Proof.
  pose proof (wrap_int_add_l a 0) as H. rewrite !Z.add_0_r in H. exact H.
Qed.


Lemma updateLightParameters_loop_run (ls : list (LightParameter F)) :
  forall (i : nat) (dst : list (option (LightParameter F))),
    (i + length ls <= length dst)%nat ->
    exists dst',
      updateLightParameters_loop ls i dst = Some dst' /\
      length dst' = length dst /\
      (forall (k : nat) l, ls !! k = Some l -> dst' !! (i + k)%nat = Some (Some l)) /\
      (forall j : nat, (j < i)%nat -> dst' !! j = dst !! j).
Proof.
  induction ls as [|mat rest IH]; intros i dst Hlen; simpl in *.
  - exists dst. split; [reflexivity|]. split; [reflexivity|].
    split; [intros k l H; discriminate H | reflexivity].
  - destruct (Nat.ltb_spec i (length dst)) as [Hi|Hi]; [|lia].
    destruct mat as [p e r a uu vv n t]. simpl.
    set (mat := Build_LightParameter p e r a uu vv n t).
    destruct (IH (S i) (<[i := Some mat]> dst)) as (dst' & Hrun & Hl & Hwritten & Hkept).
    { rewrite length_insert. lia. }
    exists dst'. split; [exact Hrun|].
    split; [rewrite Hl; apply length_insert|].
    split.
    + intros [|k] l H; simpl in H.
      * injection H as <-. rewrite Nat.add_0_r, Hkept by lia.
        apply list_lookup_insert_eq. exact Hi.
      * replace (i + S k)%nat with (S i + k)%nat by lia. exact (Hwritten k l H).
    + intros j Hj. rewrite Hkept by lia. apply list_lookup_insert_ne. lia.
Qed.


(** *** Camera *)



Lemma updateCamera_live (w : World) c :
  context w = Some c ->
  exists w' c',
    updateCamera w = Done tt w' /\
    context w' = Some c' /\
    ctx_vars c' !! "frame_number" = Some (VUint (wrap_uint (next_counter w))) /\
    ctx_vars c' !! "output_buffer" = ctx_vars c !! "output_buffer" /\
    ctx_buffers c' = ctx_buffers c /\
    frame_number w' = wrap_int (next_counter w + 1) /\
    camera_changed (camera w') = false /\
    width w' = width w /\ height w' = height w /\
    mouse w' = mouse w /\ host w' = host w.
Proof.
  intros Hc. unfold updateCamera, next_counter.
  destruct (camera_changed (camera w)) eqn:Hch;
    mrun ltac:(rewrite ?Hc, ?Hch);
    (eexists _, _; split; [reflexivity|]; wsimpl;
     split; [reflexivity|]; wsimpl;
     split; [rewrite !lookup_insert_ne by discriminate; apply lookup_insert_eq|];
     split; [rewrite !lookup_insert_ne by discriminate; reflexivity|];
     repeat split).
Qed.

(** C9. One resolve applies the pending rotation twice: with [frame] the
    basis built from the pose held before the call and [R] the pending
    rotation, [camera_eye] and [camera_lookat] are both replaced by their
    images under [frame * R * R * inverse frame], and the pending rotation
    is the identity afterwards.  This holds whatever the call meets later
    (a null context stops it only after the camera was updated). *)
Theorem updateCamera_rotates_twice (w : World) :
  let c := camera w in
  let uvw :=
    calculateCameraVariables (camera_eye c) (camera_lookat c) (camera_up c)
      (lit 35) (fdiv (of_int (width w)) (of_int (height w))) true in
  let basis :=
    Matrix4x4_fromBasis (normalize (fst (fst uvw))) (normalize (snd (fst uvw)))
      (normalize (neg3 (snd uvw))) (camera_lookat c) in
  let R := camera_rotate c in
  let trans :=
    Matrix4x4_mul (Matrix4x4_mul (Matrix4x4_mul basis R) R) (Matrix4x4_inverse basis) in
  let c' := camera (world_of (updateCamera w)) in
  camera_eye c' = make_float3_of4 (Matrix4x4_mulv trans (make_float4 (camera_eye c) (lit 1))) /\
  camera_lookat c' =
    make_float3_of4 (Matrix4x4_mulv trans (make_float4 (camera_lookat c) (lit 1))) /\
  camera_rotate c' = Matrix4x4_identity /\
  camera_up c' = camera_up c /\
  frame c' = basis /\
  frame_inv c' = Matrix4x4_inverse basis.
Proof.
  cbv zeta. unfold updateCamera.
  destruct (context w) as [ctx|] eqn:Hc;
    destruct (camera_changed (camera w)) eqn:Hch;
    mrun ltac:(rewrite ?Hc, ?Hch);
    unfold world_of; wsimpl; repeat split.
Qed.






Lemma wrap_uint_wrap_int (a : Z) : wrap_uint (wrap_int a) = wrap_uint a.
Proof.
  unfold wrap_uint, wrap_int.
  rewrite Zminus_mod_idemp_l. f_equal. lia.
Qed.

Lemma wrap_uint_add_l (a b : Z) : wrap_uint (wrap_uint a + b) = wrap_uint (a + b).
Proof. unfold wrap_uint. apply Zplus_mod_idemp_l. Qed.

Lemma wrap_uint_small (a : Z) : 0 <= a <= UINT_MAX -> wrap_uint a = a.
Proof. unfold wrap_uint, UINT_MAX. intros H. apply Z.mod_small. lia. Qed.

Lemma glutMousePress_run (button state x y : Z) (w : World) :
  exists w',
    glutMousePress button state x y w = Done tt w' /\
    context w' = context w /\ frame_number w' = frame_number w /\
    camera w' = camera w.
Proof.
  unfold glutMousePress. destruct (state =? GLUT_DOWN); mred; eexists;
    (split; [reflexivity|]); repeat split.
Qed.

Lemma glutMouseMotion_run (x y : Z) (w : World) :
  exists w',
    glutMouseMotion x y w = Done tt w' /\
    context w' = context w /\ frame_number w' = frame_number w /\
    (camera_changed (camera w) = true -> camera_changed (camera w') = true).
Proof.
  unfold glutMouseMotion. mred. wsimpl.
  destruct (mouse_button (mouse w) =? GLUT_RIGHT_BUTTON);
    [|destruct (mouse_button (mouse w) =? GLUT_LEFT_BUTTON);
      [|destruct (mouse_button (mouse w) =? GLUT_MIDDLE_BUTTON)]];
    mred; wsimpl; eexists; (split; [reflexivity|]); wsimpl; repeat split; auto.
Qed.

Lemma glutResize_run (w h : Z) (wd : World) :
  ready wd ->
  exists wd',
    glutResize w h wd = Done tt wd' /\
    ready wd' /\ counter wd' = counter wd /\ frame_number wd' = frame_number wd /\
    (camera_changed (camera wd) = true -> camera_changed (camera wd') = true).
Proof.
  intros (c & b & buf & Hc & Hb & Hbuf). unfold glutResize, getOutputBuffer, sutil_resizeBuffer, buffer_setSize2.
  mred. wsimpl.
  destruct ((w =? wrap_int (width wd)) && (h =? wrap_int (height wd))).
  - exists wd. split; [reflexivity|]. split; [exists c, b, buf; auto|]. auto.
  - mrun ltac:(rewrite ?Hc, ?Hb, ?Hbuf).
    eexists. split; [reflexivity|]. unfold ready, counter. wsimpl.
    split; [|rewrite Hc; repeat split].
    eexists _, b, _. split; [reflexivity|]. wsimpl.
    split; [exact Hb | apply lookup_insert_eq].
Qed.

(** A callback other than display leaves the counter alone and does not
    clear the dirty flag. *)
Lemma callback_keeps_counter (e : Interaction) (w : World) :
  ready w -> is_display e = false ->
  exists w',
    callback e w = Done tt w' /\ ready w' /\
    counter w' = counter w /\ frame_number w' = frame_number w /\
    (camera_changed (camera w) = true -> camera_changed (camera w') = true).
Proof.
  intros H Hd. destruct e as [button state x y|x y|wd ht|]; simpl; [| | |discriminate Hd].
  - destruct (glutMousePress_run button state x y w) as (w' & Hrun & Hc & Hfn & Hcam).
    exists w'. split; [exact Hrun|]. unfold ready, counter in *. rewrite Hc, Hcam. auto.
  - destruct (glutMouseMotion_run x y w) as (w' & Hrun & Hc & Hfn & Hcam).
    exists w'. split; [exact Hrun|]. unfold ready, counter in *. rewrite Hc. auto.
  - exact (glutResize_run wd ht w H).
Qed.

Lemma glutMainLoop_app (a b : list Interaction) (w : World) :
  glutMainLoop (a ++ b) w = (glutMainLoop a ;; glutMainLoop b) w.
Proof.
  revert w. induction a as [|e a IH]; intros w; simpl.
  - reflexivity.
  - unfold bind. destruct (callback e w) as [[] w'|s w']; [|reflexivity].
    rewrite IH. reflexivity.
Qed.

Lemma glutMainLoop_keeps_counter (events : list Interaction) :
  forall w : World,
    ready w -> forallb (fun e => negb (is_display e)) events = true ->
    exists w',
      glutMainLoop events w = Done tt w' /\ ready w' /\
      counter w' = counter w /\ frame_number w' = frame_number w /\
      (camera_changed (camera w) = true -> camera_changed (camera w') = true).
Proof.
  induction events as [|e rest IH]; intros w H Hno; simpl in *.
  - exists w. auto.
  - apply andb_prop in Hno. destruct Hno as [He Hrest].
    apply negb_true_iff in He.
    destruct (callback_keeps_counter e w H He) as (w1 & Hrun & H1 & Hc1 & Hf1 & Hd1).
    destruct (IH w1 H1 Hrest) as (w2 & Hrun2 & H2 & Hc2 & Hf2 & Hd2).
    exists w2. unfold bind. rewrite Hrun.
    split; [exact Hrun2|]. split; [exact H2|].
    split; [congruence|]. split; [congruence|]. auto.
Qed.

(** C4. In every sequence of camera interactions (pointer and reshape
    callbacks) that starts in a ready world, with a resolve
    ([updateCamera]) after the interactions [before] and another one after
    the interactions [after]: each resolve returns and clears the dirty
    flag.  A resolve that finds the flag set publishes the counter 1 (the
    host variable [frame_number], already incremented for the next frame,
    is 2).  A resolve that finds the flag clear, the previous resolve
    having published [u], publishes [u + 1] (as an [unsigned], so modulo
    [2^32]: exactly [u + 1] as long as [u] is not [UINT_MAX]). *)
Theorem frame_counter_after_resolve (w0 : World) (before after : list Interaction) :
  ready w0 ->
  forallb (fun e => negb (is_display e)) before = true ->
  forallb (fun e => negb (is_display e)) after = true ->
  exists w1 w2 w3 w4 u,
    glutMainLoop before w0 = Done tt w1 /\
    updateCamera w1 = Done tt w2 /\
    camera_changed (camera w2) = false /\
    counter w2 = Some (VUint u) /\
    (camera_changed (camera w1) = true -> u = 1 /\ frame_number w2 = 2) /\
    glutMainLoop after w2 = Done tt w3 /\
    updateCamera w3 = Done tt w4 /\
    camera_changed (camera w4) = false /\
    (camera_changed (camera w3) = true -> counter w4 = Some (VUint 1)) /\
    (camera_changed (camera w3) = false ->
     counter w4 = Some (VUint (wrap_uint (u + 1))) /\
     (u < UINT_MAX -> counter w4 = Some (VUint (u + 1)))).
Proof.
  intros H0 Hbefore Hafter.
  destruct (glutMainLoop_keeps_counter before w0 H0 Hbefore)
    as (w1 & Hrun1 & H1 & _).
  pose proof H1 as (c1 & b1 & buf1 & Hc1 & Hb1 & Hbuf1).
  destruct (updateCamera_live w1 c1 Hc1)
    as (w2 & c2 & Hrun2 & Hc2 & Hn2 & Hout2 & Hbufs2 & Hfn2 & Hch2 & _).
  assert (H2 : ready w2).
  { exists c2, b1, buf1. rewrite Hout2, Hbufs2. auto. }
  destruct (glutMainLoop_keeps_counter after w2 H2 Hafter)
    as (w3 & Hrun3 & H3 & Hcnt3 & Hfn3 & _).
  destruct H3 as (c3 & b3 & buf3 & Hc3 & _).
  destruct (updateCamera_live w3 c3 Hc3)
    as (w4 & c4 & Hrun4 & Hc4 & Hn4 & _ & _ & _ & Hch4 & _).
  exists w1, w2, w3, w4, (wrap_uint (next_counter w1)).
  split; [exact Hrun1|]. split; [exact Hrun2|]. split; [exact Hch2|].
  split; [unfold counter; rewrite Hc2; exact Hn2|].
  split.
  { intros Hd. rewrite Hfn2. unfold next_counter. rewrite Hd. split; reflexivity. }
  split; [exact Hrun3|]. split; [exact Hrun4|]. split; [exact Hch4|].
  assert (Hcounter : counter w4 = Some (VUint (wrap_uint (next_counter w3)))).
  { unfold counter. rewrite Hc4. exact Hn4. }
  split.
  - intros Hd. rewrite Hcounter. unfold next_counter. rewrite Hd. reflexivity.
  - intros Hd.
    assert (Hnext : wrap_uint (next_counter w3) =
                    wrap_uint (wrap_uint (next_counter w1) + 1)).
    { unfold next_counter at 1. rewrite Hd, Hfn3, Hfn2.
      rewrite wrap_uint_wrap_int, wrap_uint_add_l. reflexivity. }
    rewrite Hcounter, Hnext. split; [reflexivity|].
    intros Hu. rewrite wrap_uint_small; [reflexivity|].
    pose proof (Z.mod_pos_bound (next_counter w1) (2 ^ 32) ltac:(lia)) as Hb.
    unfold wrap_uint, UINT_MAX in *. lia.
Qed.


(** *** The batch loop *)








(** One iteration of the batch loop. *)
Lemma main_loop_step (fuel : nat) (o : Options T) (launch_time : T) (i : Z)
    (last_time : T) (w : World) c :
  context w = Some c ->
  continues o i = true ->
  main_loop (S fuel) o launch_time i last_time w =
    if exceeds o launch_time last_time w 0
    then Done tt (logged (reached_time_limit o (used_time launch_time w 0) i) (tick w))
    else main_loop fuel o launch_time (wrap_int (i + 1)) (now w 0) (launched c w).
Proof.
  intros Hc Hcont. unfold continues in Hcont.
  unfold exceeds, used_time, delta_time, now, reading. rewrite Nat.add_0_r.
  simpl. rewrite Hcont. unfold currentTime, context_launch_0.
  mred. wsimpl.
  destruct (over_time_limit _ _ _).
  - mred. wsimpl. unfold logged, tick, reached_time_limit. wsimpl.
    rewrite <- app_assoc. reflexivity.
  - mrun ltac:(rewrite ?Hc). reflexivity.
Qed.

Lemma now_launched (c : ContextObj F) (w : World) (k : nat) :
  now (launched c w) k = now w (S k).
Proof.
  unfold now, reading, launched, logged, tick. wsimpl.
  rewrite Nat.add_succ_r. reflexivity.
Qed.

Lemma exceeds_launched (o : Options T) (launch_time last_time : T)
    (c : ContextObj F) (w : World) (k : nat) :
  exceeds o launch_time (now w 0) (launched c w) k =
  exceeds o launch_time last_time w (S k).
Proof.
  unfold exceeds, used_time, delta_time. rewrite now_launched.
  destruct k as [|j]; [reflexivity|]. rewrite now_launched. reflexivity.
Qed.

Lemma wrap_int_succ (i : Z) (k : nat) :
  wrap_int (wrap_int (i + 1) + Z.of_nat k) = wrap_int (i + Z.of_nat (S k)).
Proof. rewrite wrap_int_add_l. f_equal. lia. Qed.

Lemma main_loop_spec (fuel : nat) (o : Options T) (launch_time : T) :
  forall (i : Z) (last_time : T) (w : World) c,
    context w = Some c ->
    wrap_int i = i ->
    exists (n : nat) (how : LoopEnd) (w' : World) c',
      world_of (main_loop fuel o launch_time i last_time w) = w' /\
      (n <= fuel)%nat /\
      (forall k : nat, (k < n)%nat ->
         continues o (wrap_int (i + Z.of_nat k)) = true /\
         exceeds o launch_time last_time w k = false) /\
      match how with
      | TimeLimit =>
          main_loop fuel o launch_time i last_time w = Done tt w' /\
          (n < fuel)%nat /\
          continues o (wrap_int (i + Z.of_nat n)) = true /\
          exceeds o launch_time last_time w n = true /\
          trace (host w') =
            trace (host w) ++ repeat (context_launch 0 (width w) (height w)) n ++
            reached_time_limit o (used_time launch_time w n) (wrap_int (i + Z.of_nat n)) /\
          ticks (host w') = (ticks (host w) + S n)%nat
      | SampleCount =>
          main_loop fuel o launch_time i last_time w = Done tt w' /\
          continues o (wrap_int (i + Z.of_nat n)) = false /\
          trace (host w') =
            trace (host w) ++ repeat (context_launch 0 (width w) (height w)) n /\
          ticks (host w') = (ticks (host w) + n)%nat
      | Fuel =>
          main_loop fuel o launch_time i last_time w = Stop OutOfFuel w' /\
          n = fuel /\
          continues o (wrap_int (i + Z.of_nat n)) = true /\
          trace (host w') =
            trace (host w) ++ repeat (context_launch 0 (width w) (height w)) n /\
          ticks (host w') = (ticks (host w) + n)%nat
      end /\
      context w' = Some c' /\
      ctx_vars c' !! "output_buffer" = ctx_vars c !! "output_buffer" /\
      ctx_buffers c' = ctx_buffers c /\
      clock (host w') = clock (host w) /\
      width w' = width w /\ height w' = height w.
Proof.
  induction fuel as [|fuel IH]; intros i last_time w c Hc Hi.
  - simpl. destruct ((i <? sample o) || use_time_limit o) eqn:Hcont.
    + exists 0%nat, Fuel, w, c. simpl. rewrite app_nil_r, Nat.add_0_r, Z.add_0_r, Hi.
      split; [reflexivity|]. split; [lia|]. split; [intros; lia|]. auto 10.
    + exists 0%nat, SampleCount, w, c. simpl. rewrite app_nil_r, Nat.add_0_r, Z.add_0_r.
      unfold continues. rewrite Hi.
      split; [reflexivity|]. split; [lia|]. split; [intros; lia|]. auto 10.
  - destruct (continues o i) eqn:Hcont.
    2:{ exists 0%nat, SampleCount, w, c. simpl. unfold continues in Hcont. rewrite Hcont.
        simpl. rewrite app_nil_r, Nat.add_0_r, Z.add_0_r.
        unfold continues. rewrite Hi.
        split; [reflexivity|]. split; [lia|]. split; [intros; lia|]. auto 10. }
    rewrite (main_loop_step fuel o launch_time i last_time w c Hc Hcont).
    destruct (exceeds o launch_time last_time w 0) eqn:Hex.
    + exists 0%nat, TimeLimit, (logged (reached_time_limit o (used_time launch_time w 0) i) (tick w)), c.
      simpl. rewrite Z.add_0_r, Hi.
      split; [reflexivity|]. split; [lia|]. split; [intros; lia|].
      split; [|auto 10].
      split; [reflexivity|]. split; [lia|]. split; [exact Hcont|]. split; [exact Hex|].
      split; [reflexivity|]. lia.
    + destruct (IH (wrap_int (i + 1)) (now w 0) (launched c w) _ eq_refl (wrap_int_idem _))
        as (n & how & w' & c' & Hw' & Hn & Hbefore & Hend & Hc' & Hout & Hbuf & Hclock & Hwd & Hht).
      exists (S n), how, w', c'.
      split; [exact Hw'|]. split; [lia|].
      split.
      { intros [|k] Hk.
        - rewrite Z.add_0_r, Hi. auto.
        - rewrite <- wrap_int_succ, <- (exceeds_launched o launch_time last_time c w k).
          apply Hbefore. lia. }
      split.
      { destruct how; rewrite <- ?wrap_int_succ, <- ?(exceeds_launched o launch_time last_time c w n);
          unfold used_time in *; rewrite <- ?now_launched with (c := c);
          repeat match goal with H : _ /\ _ |- _ => destruct H end;
          repeat split; try assumption; try lia;
          match goal with
          | H : trace _ = _ |- trace _ = _ =>
              rewrite H; unfold launched, logged, tick; wsimpl;
              rewrite <- app_assoc; reflexivity
          | H : ticks _ = _ |- ticks _ = _ =>
              rewrite H; unfold launched, logged, tick; wsimpl; lia
          end. }
      split; [exact Hc'|].
      split; [rewrite Hout; unfold launched; wsimpl; apply lookup_insert_ne; discriminate|].
      split; [exact Hbuf|].
      split; [exact Hclock|]. split; [exact Hwd | exact Hht].
Qed.

Lemma count_repeat_launch (n : nat) (wd ht : Z) :
  count is_launch (repeat (context_launch (F:=F) (T:=T) 0 wd ht) n) = n.
Proof.
  unfold count. induction n as [|n IH]; simpl; [reflexivity | rewrite IH; reflexivity].
Qed.

Lemma wrap_int_of_nat (n fuel : nat) :
  (n <= fuel)%nat -> Z.of_nat fuel <= INT_MAX -> wrap_int (0 + Z.of_nat n) = Z.of_nat n.
Proof. intros Hn Hfuel. apply wrap_int_small. unfold INT_MAX in *. lia. Qed.

(** With a deadline ([use_time_limit]) the loop ends within [fuel]
    iterations only at the first one that fails the test, and does so
    whenever one below [fuel] fails it. *)
Lemma main_loop_deadline (fuel : nat) (o : Options T)
    (launch_time last_time : T) (w : World) c :
  context w = Some c ->
  use_time_limit o = true ->
  Z.of_nat fuel <= INT_MAX ->
  exists (n : nat) (w' : World),
    world_of (main_loop fuel o launch_time 0 last_time w) = w' /\
    (forall k : nat, (k < n)%nat -> exceeds o launch_time last_time w k = false) /\
    ((main_loop fuel o launch_time 0 last_time w = Done tt w' /\
      (n < fuel)%nat /\
      exceeds o launch_time last_time w n = true /\
      trace (host w') =
        trace (host w) ++ repeat (context_launch 0 (width w) (height w)) n ++
        reached_time_limit o (used_time launch_time w n) (Z.of_nat n))
     \/
     (main_loop fuel o launch_time 0 last_time w = Stop OutOfFuel w' /\
      n = fuel /\
      trace (host w') =
        trace (host w) ++ repeat (context_launch 0 (width w) (height w)) n)) /\
    (forall m : nat,
       (m < fuel)%nat -> exceeds o launch_time last_time w m = true ->
       main_loop fuel o launch_time 0 last_time w = Done tt w').
Proof.
  intros Hc Hlimit Hfuel.
  destruct (main_loop_spec fuel o launch_time 0 last_time w c Hc eq_refl)
    as (n & how & w' & c' & Hw' & Hn & Hbefore & Hend & _).
  exists n, w'. split; [exact Hw'|].
  split; [intros k Hk; apply Hbefore; exact Hk|].
  destruct how.
  - destruct Hend as (Hrun & Hlt & _ & Hex & Htrace & _).
    rewrite (wrap_int_of_nat n fuel Hn Hfuel) in Htrace.
    split; [left; auto|]. intros; exact Hrun.
  - destruct Hend as (_ & Hstop & _). unfold continues in Hstop.
    rewrite Hlimit, orb_true_r in Hstop. discriminate Hstop.
  - destruct Hend as (Hrun & -> & _ & Htrace & _).
    split; [right; auto|].
    intros m Hm Hex. destruct (Hbefore m Hm) as [_ Hno]. congruence.
Qed.


Lemma exceeds_ext (o : Options T) (launch_time last_time : T) (w1 w2 : World) (k : nat) :
  clock (host w1) = clock (host w2) ->
  ticks (host w1) = ticks (host w2) ->
  exceeds o launch_time last_time w1 k = exceeds o launch_time last_time w2 k.
Proof.
  intros Hclock Hticks.
  unfold exceeds, used_time, delta_time, now, reading. rewrite Hclock, Hticks.
  destruct k; reflexivity.
Qed.

Lemma batch_launch_count (fuel : nat) (o : Options T) (launch_time : T)
    (w : World) c b buf :
  context w = Some c ->
  ctx_vars c !! "output_buffer" = Some (VBuffer b) ->
  ctx_buffers c !! b = Some buf ->
  use_time_limit o = false ->
  0 <= sample o <= INT_MAX ->
  (Z.to_nat (sample o) <= fuel)%nat ->
  (forall k : nat,
     (k < Z.to_nat (sample o))%nat ->
     exceeds o launch_time (clock (host w) (ticks (host w))) (tick w) k = false) ->
  exists w',
    main_batch fuel o launch_time w = Done 0 w' /\
    context w' = None /\
    trace (host w') =
      trace (host w) ++ batch_header o w ++
      repeat (context_launch 0 (width w) (height w)) (Z.to_nat (sample o)) ++
      [ displayBufferPNG (out_file o) b false;
        context_destroy;
        cout [PStr "total_time: ";
              PDouble (fsub (reading w (S (Z.to_nat (sample o)))) launch_time);
              PStr " sec."] ].
Proof.
  intros Hc Hb Hbuf Hno Hsample Hfuel Hok.
  destruct (updateCamera_live w c Hc)
    as (w1 & c1 & Hrun & Hc1 & _ & Hout & Hbufs & _ & _ & Hwd & Hht & _ & Hhost).
  unfold main_batch. unfold bind at 1. rewrite Hrun.
  unfold currentTime. rewrite Hno.
  mred. wsimpl. rewrite Hhost, Hwd, Hht.
  match goal with
  | |- context [main_loop ?f ?oo ?lt ?i ?last ?ww] =>
      assert (Hlive : context ww = Some c1) by (wsimpl; exact Hc1);
      destruct (main_loop_spec f oo lt i last ww c1 Hlive eq_refl)
        as (n & how & w2 & c2 & Hw2 & Hn & Hbefore & Hend & Hc2 & Hout2 & Hbufs2 &
            Hclock & Hwd2 & Hht2);
      assert (Hshift : forall k, exceeds oo lt last ww k =
                                 exceeds o launch_time (clock (host w) (ticks (host w))) (tick w) k)
        by (intros k; apply exceeds_ext; wsimpl; rewrite ?Hhost; reflexivity)
  end.
  assert (Hle : (n <= Z.to_nat (sample o))%nat).
  { destruct (Nat.le_gt_cases n (Z.to_nat (sample o))) as [Hle|Hgt]; [exact Hle|].
    destruct (Hbefore _ Hgt) as [Hcont _]. unfold continues in Hcont.
    rewrite Hno, orb_false_r, wrap_int_small in Hcont by (unfold INT_MAX in *; lia).
    apply Z.ltb_lt in Hcont. lia. }
  assert (Hwrap : wrap_int (0 + Z.of_nat n) = Z.of_nat n)
    by (apply wrap_int_small; unfold INT_MAX in *; lia).
  destruct how.
  - destruct Hend as (_ & Hlt & Hcont & Hex & _). exfalso.
    unfold continues in Hcont. rewrite Hno, orb_false_r, Hwrap in Hcont.
    apply Z.ltb_lt in Hcont. rewrite Hshift, Hok in Hex by lia. discriminate Hex.
  - destruct Hend as (Hloop & Hstop & Htrace & Hticks).
    unfold continues in Hstop. rewrite Hno, orb_false_r, Hwrap in Hstop.
    apply Z.ltb_ge in Hstop.
    assert (Hn' : n = Z.to_nat (sample o)) by lia.
    rewrite Hloop. unfold getOutputBuffer, destroyContext.
    mrun ltac:(rewrite ?Hc2, ?Hout2, ?Hout, ?Hb).
    eexists. split; [reflexivity|]. wsimpl. split; [reflexivity|].
    rewrite Htrace, Hclock, Hticks. wsimpl. rewrite Hwd, Hht, Hn'.
    unfold batch_header, reading. rewrite Hno, <- !app_assoc. simpl.
    rewrite Nat.add_succ_r. reflexivity.
  - destruct Hend as (_ & -> & Hcont & _). exfalso.
    unfold continues in Hcont. rewrite Hno, orb_false_r, Hwrap in Hcont.
    apply Z.ltb_lt in Hcont. lia.
Qed.

(** *** Options *)

Lemma printUsageAndExit_stops {A} (argv0 : string) (w : World) :
  exists w', printUsageAndExit (A:=A) argv0 w = Stop (Exit 1) w'.
Proof.
  unfold printUsageAndExit. mred.
  match goal with
  | |- context [exit 1 ?ww] => destruct (exit_stops (A:=A) 1 ww) as (w' & Hexit & _)
  end.
  exists w'. exact Hexit.
Qed.

Lemma requires_argument_stops {A} (argv0 arg : string) (w : World) :
  exists w', requires_argument (A:=A) argv0 arg w = Stop (Exit 1) w'.
Proof.
  unfold requires_argument. mred.
  match goal with
  | |- context [printUsageAndExit argv0 ?ww] =>
      destruct (printUsageAndExit_stops (A:=A) argv0 ww) as (w' & Hexit)
  end.
  exists w'. exact Hexit.
Qed.


(** Without [-t] or [--time] among the arguments, the options keep the
    time limit they start with, and it stays switched off. *)
Lemma main_options_keeps_time_limit (argv0 : string) (n : nat) :
  forall (args : list string) (o o' : Options T) (w w' : World),
    (length args <= n)%nat ->
    no_time_option args = true ->
    main_options argv0 args o w = Done o' w' ->
    time_limit o' = time_limit o /\ use_time_limit o' = use_time_limit o.
Proof.
  induction n as [|n IH]; intros args o o' w w' Hlen Hno Hrun.
  - destruct args; [|simpl in Hlen; lia]. simpl in Hrun. injection Hrun as <- _. auto.
  - destruct args as [|arg rest]; [simpl in Hrun; injection Hrun as <- _; auto|].
    simpl in Hlen, Hno, Hrun.
    apply andb_prop in Hno. destruct Hno as [Harg Hrest].
    apply negb_true_iff in Harg.
    assert (Hrest' : forall a r, rest = a :: r -> no_time_option r = true).
    { intros a r ->. simpl in Hrest. apply andb_prop in Hrest. tauto. }
    assert (Hlen' : forall a r, rest = a :: r -> (length r <= n)%nat).
    { intros a r ->. simpl in Hlen. lia. }
    assert (Hk : forall (B : Type) (c : M B) (args' : list string) (oo : Options T),
               (length args' <= n)%nat -> no_time_option args' = true ->
               (c ;; main_options argv0 args' oo) w = Done o' w' ->
               time_limit o' = time_limit oo /\ use_time_limit o' = use_time_limit oo).
    { intros B c0 args' oo Hl Hn' Hr. unfold bind in Hr.
      destruct (c0 w) as [? w1|? ?]; [|discriminate Hr].
      exact (IH args' oo o' w1 w' Hl Hn' Hr). }
    repeat match type of Hrun with
    | (if ?b then _ else _) _ = _ => destruct b
    end;
    repeat match type of Hrun with
    | match rest with [] => _ | _ :: _ => _ end _ = _ =>
        destruct rest as [|a rest'] eqn:Erest
    end;
    try congruence;
    try (destruct (printUsageAndExit_stops (A:=Options T) argv0 w) as (? & Hs); congruence);
    try (destruct (requires_argument_stops (A:=Options T) argv0 arg w) as (? & Hs); congruence).
    all: try (refine (Hk _ _ _ _ _ _ Hrun); [simpl in *; lia | solve [eauto]]).
    all: try (apply (IH _ _ _ _ _ (Hlen' _ _ eq_refl) (Hrest' _ _ eq_refl) Hrun)).
    exfalso. unfold bind in Hrun. rewrite perform_host in Hrun.
    match type of Hrun with
    | printUsageAndExit argv0 ?ww = _ =>
        destruct (printUsageAndExit_stops (A:=Options T) argv0 ww) as (? & Hs)
    end.
    congruence.
Qed.

Lemma main_options_without_time (argv0 : string) (args : list string)
    (o : Options T) (w w' : World) :
  no_time_option args = true ->
  main_options argv0 args default_options w = Done o w' ->
  time_limit o = of_int 3600 /\ use_time_limit o = false.
Proof.
  intros Hno Hrun.
  exact (main_options_keeps_time_limit argv0 (length args) args _ o w w'
           (Nat.le_refl _) Hno Hrun).
Qed.

Lemma count_repeat_export (n : nat) (wd ht : Z) :
  count is_export (repeat (context_launch (F:=F) (T:=T) 0 wd ht) n) = 0%nat.
Proof.
  unfold count. induction n as [|n IH]; simpl; [reflexivity | exact IH].
Qed.

(** C2 (as amended). When the arguments name no time limit, the options
    hold the default limit of 3600 seconds and [use_time_limit] is off,
    but the test against the limit still guards every launch.  For a
    sample count [N] between 0 and [INT_MAX]: if none of the first [N]
    iterations exceeds the default limit, [main_batch] performs exactly [N]
    launches, then exactly one [displayBufferPNG] of the output buffer to
    [out_file], then releases the context and returns 0. *)
Theorem batch_without_deadline (argv0 : string) (args : list string)
    (w0 w1 : World) (o : Options T) (fuel : nat) (launch_time : T)
    (w : World) c b buf :
  no_time_option args = true ->
  main_options argv0 args default_options w0 = Done o w1 ->
  context w = Some c ->
  ctx_vars c !! "output_buffer" = Some (VBuffer b) ->
  ctx_buffers c !! b = Some buf ->
  0 <= sample o <= INT_MAX ->
  (Z.to_nat (sample o) <= fuel)%nat ->
  (forall k : nat,
     (k < Z.to_nat (sample o))%nat ->
     over_time_limit (used_time launch_time (tick w) k)
       (delta_time (clock (host w) (ticks (host w))) (tick w) k) (of_int 3600) = false) ->
  exists w' launches,
    main_batch fuel o launch_time w = Done 0 w' /\
    context w' = None /\
    launches = repeat (context_launch 0 (width w) (height w)) (Z.to_nat (sample o)) /\
    trace (host w') =
      trace (host w) ++ batch_header o w ++ launches ++
      [ displayBufferPNG (out_file o) b false;
        context_destroy;
        cout [PStr "total_time: ";
              PDouble (fsub (reading w (S (Z.to_nat (sample o)))) launch_time);
              PStr " sec."] ] /\
    count is_launch (trace (host w')) =
      (count is_launch (trace (host w)) + Z.to_nat (sample o))%nat /\
    count is_export (trace (host w')) = (count is_export (trace (host w)) + 1)%nat.
Proof.
  intros Hno Hopts Hc Hb Hbuf Hsample Hfuel Hok.
  destruct (main_options_without_time argv0 args o w0 w1 Hno Hopts) as [Hlimit Hoff].
  destruct (batch_launch_count fuel o launch_time w c b buf Hc Hb Hbuf Hoff Hsample Hfuel)
    as (w' & Hrun & Hnull & Htrace).
  { intros k Hk. unfold exceeds. rewrite Hlimit. exact (Hok k Hk). }
  exists w', (repeat (context_launch 0 (width w) (height w)) (Z.to_nat (sample o))).
  split; [exact Hrun|]. split; [exact Hnull|]. split; [reflexivity|].
  split; [exact Htrace|].
  rewrite Htrace, !count_app, count_repeat_launch, count_repeat_export.
  unfold batch_header. rewrite Hoff. unfold count. simpl. lia.
Qed.

(** Orbiting assigns the pending rotation: the rotation between the
    previous and the current cursor replaces whatever was pending. *)
Lemma glutMouseMotion_left_sets_rotation (x y : Z) (w : World) :
  mouse_button (mouse w) = GLUT_LEFT_BUTTON ->
  camera_rotate (camera (world_of (glutMouseMotion x y w))) =
    arcball_rotate
      (make_float2 (fdiv (of_int x) (of_int (width w))) (fdiv (of_int y) (of_int (height w))))
      (make_float2 (fdiv (of_int (i2x (mouse_prev_pos (mouse w)))) (of_int (width w)))
                   (fdiv (of_int (i2y (mouse_prev_pos (mouse w)))) (of_int (height w)))).
Proof.
  intros Hb. unfold glutMouseMotion. mred. wsimpl. rewrite Hb. reflexivity.
Qed.

(** *** Resize *)

(** C5 (as amended). A resize to the size the globals already hold returns
    at once and changes nothing, the dirty flag included.  A resize to any
    other size sets the dirty flag, stores the requested size passed
    through [ensureMinimumSize] in [width] and [height], and gives the
    output buffer exactly these dimensions; they are [(w, h)] itself
    whenever [ensureMinimumSize] leaves a non-negative [(w, h)] as it is. *)
Theorem glutResize_dimensions (w h : Z) (wd : World) c b buf :
  context wd = Some c ->
  ctx_vars c !! "output_buffer" = Some (VBuffer b) ->
  ctx_buffers c !! b = Some buf ->
  if (w =? wrap_int (width wd)) && (h =? wrap_int (height wd))
  then glutResize w h wd = Done tt wd
  else
    exists wd' c' buf',
      glutResize w h wd = Done tt wd' /\
      camera_changed (camera wd') = true /\
      (width wd', height wd') = ensureMinimumSize (wrap_uint w) (wrap_uint h) /\
      context wd' = Some c' /\
      ctx_vars c' !! "output_buffer" = Some (VBuffer b) /\
      ctx_buffers c' !! b = Some buf' /\
      buf_dims buf' = [width wd'; height wd'] /\
      (0 <= w <= INT_MAX -> 0 <= h <= INT_MAX -> ensureMinimumSize w h = (w, h) ->
       buf_dims buf' = [w; h]).
Proof.
  intros Hc Hb Hbuf.
  unfold glutResize, getOutputBuffer, sutil_resizeBuffer, buffer_setSize2.
  mred. wsimpl.
  destruct ((w =? wrap_int (width wd)) && (h =? wrap_int (height wd))).
  - reflexivity.
  - mrun ltac:(rewrite ?Hc, ?Hb, ?Hbuf).
    eexists _, _, _. split; [reflexivity|]. wsimpl.
    split; [reflexivity|].
    split; [destruct (ensureMinimumSize (wrap_uint w) (wrap_uint h)); reflexivity|].
    split; [reflexivity|]. wsimpl.
    split; [exact Hb|].
    split; [apply lookup_insert_eq|]. wsimpl.
    split; [reflexivity|].
    intros Hw Hh Hmin.
    rewrite !wrap_uint_small by (unfold INT_MAX, UINT_MAX in *; lia).
    rewrite Hmin. reflexivity.
Qed.

(** *** Pointer *)


(** C10 (as amended). A button release changes nothing at all: the button
    pressed last stays in [mouse_button].  So a pointer move that is
    delivered after a release does what it would have done before it: when
    the button pressed last is the left, middle or right one it applies
    that button's motion and sets the dirty flag; the camera stays as it
    is only for any other value of [mouse_button]. *)
Theorem button_release_keeps_motion_model (button x y x' y' : Z) (w : World) :
  glutMousePress button GLUT_UP x y w = Done tt w /\
  (glutMousePress button GLUT_UP x y ;; glutMouseMotion x' y') w = glutMouseMotion x' y' w /\
  (if drags (mouse_button (mouse w))
   then camera_changed (camera (world_of (glutMouseMotion x' y' w))) = true
   else camera (world_of (glutMouseMotion x' y' w)) = camera w).
Proof.
  split; [reflexivity|]. split; [reflexivity|].
  unfold drags, glutMouseMotion. mred. wsimpl.
  destruct (mouse_button (mouse w) =? GLUT_RIGHT_BUTTON);
    [|destruct (mouse_button (mouse w) =? GLUT_LEFT_BUTTON);
      [|destruct (mouse_button (mouse w) =? GLUT_MIDDLE_BUTTON)]];
    mred; wsimpl; unfold world_of; wsimpl; reflexivity.
Qed.

(** *** Procedural volume *)

(** C7 (as amended). [createRaymrachingObject] validates nothing: in a
    live context with the raymarching programs set it returns a geometry
    instance for every [unit_scale], zero included, whose [local_scale] is
    the component-wise quotient [world_scale / unit_scale] and whose box
    is [center - world_scale], [center + world_scale]; the world is left
    as it was. *)
Theorem createRaymrachingObject_any_scale (center world_scale unit_scale : float3 F)
    (w : World) c pi pb :
  context w = Some c ->
  pgram_intersection_raymarching (programs w) = Some pi ->
  pgram_bounding_box_raymarching (programs w) = Some pb ->
  exists gi g,
    createRaymrachingObject center world_scale unit_scale w = Done gi w /\
    gi_geometry gi = Some g /\
    geo_primitive_count g = 1 /\
    geo_vars g !! "center" = Some (VFloat3 center) /\
    geo_vars g !! "local_scale" = Some (VFloat3 (div3 world_scale unit_scale)) /\
    geo_vars g !! "aabb_min" = Some (VFloat3 (sub3 center world_scale)) /\
    geo_vars g !! "aabb_max" = Some (VFloat3 (add3 center world_scale)).
Proof.
  intros Hc Hi Hb.
  unfold createRaymrachingObject, context_createGeometry, context_createGeometryInstance.
  mrun ltac:(rewrite ?Hc, ?Hi, ?Hb).
  eexists _, _. split; [reflexivity|]. simpl.
  split; [reflexivity|]. split; [reflexivity|].
  repeat split; rewrite ?lookup_insert_ne by discriminate; apply lookup_insert_eq.
Qed.


(** ** Further properties of the program *)

(** *** The command line *)

Lemma run_exit_handlers_trace (hs : list ExitHandler) :
  forall w : World,
    exists w' tail,
      run_exit_handlers hs w = Done tt w' /\
      trace (host w') = trace (host w) ++ tail.
Proof.
  induction hs as [|h hs IH]; intros w.
  - exists w, []. simpl. rewrite app_nil_r. auto.
  - cbn [run_exit_handlers]. unfold bind. destruct h. cbn [run_exit_handler].
    destruct (context w) as [c|] eqn:Hc.
    + rewrite (destroyContext_live w c Hc).
      match goal with |- context [run_exit_handlers hs ?ww] =>
        destruct (IH ww) as (w' & tail & Hrun & Htr) end.
      exists w', ([context_destroy] ++ tail). split; [exact Hrun|].
      rewrite Htr. wsimpl. rewrite <- app_assoc. reflexivity.
    + rewrite (destroyContext_null w Hc). apply IH.
Qed.

Lemma exit_trace {A} (code : Z) (w : World) :
  exists w' tail,
    exit (A:=A) code w = Stop (Exit code) w' /\
    trace (host w') = trace (host w) ++ tail.
Proof.
  unfold exit. mred.
  destruct (run_exit_handlers_trace (atexit_handlers (host w)) w)
    as (w' & tail & Hrun & Htr).
  rewrite Hrun. exists w', tail. auto.
Qed.

Lemma printUsageAndExit_usage {A} (argv0 : string) (w : World) :
  exists w',
    printUsageAndExit (A:=A) argv0 w = Stop (Exit 1) w' /\
    In (cerr [PStr usage_text]) (trace (host w')).
Proof.
  unfold printUsageAndExit. mred.
  match goal with
  | |- context [exit 1 ?ww] => destruct (exit_trace (A:=A) 1 ww) as (w' & tail & Hexit & Htr)
  end.
  exists w'. split; [exact Hexit|].
  rewrite Htr. wsimpl. rewrite !in_app_iff. left. right. left. reflexivity.
Qed.

Lemma requires_argument_usage {A} (argv0 arg : string) (w : World) :
  exists w',
    requires_argument (A:=A) argv0 arg w = Stop (Exit 1) w' /\
    In (cerr [PStr usage_text]) (trace (host w')).
Proof.
  unfold requires_argument. mred.
  match goal with
  | |- context [printUsageAndExit argv0 ?ww] =>
      destruct (printUsageAndExit_usage (A:=A) argv0 ww) as (w' & Hexit & Hin)
  end.
  exists w'. auto.
Qed.

Lemma is_option_inv (arg short long : string) :
  is_option arg short long = true -> arg = short \/ arg = long.
Proof.
  unfold is_option. intros H. apply orb_true_iff in H.
  destruct H as [H|H]; apply String.eqb_eq in H; auto.
Qed.

Lemma main_options_outcome_step (args args' : list string) (w w1 : World)
    (r : Outcome F T Matrix4x4 (Options T)) :
  accepted args = accepted args' ->
  context w1 = context w -> camera w1 = camera w ->
  frame_number w1 = frame_number w -> host w1 = host w ->
  main_options_outcome args' w1 r -> main_options_outcome args w r.
Proof.
  intros Ha Hc Hcam Hf Hh. unfold main_options_outcome.
  destruct r as [o' w'|s w']; rewrite Ha; [|tauto].
  intros (? & ? & ? & ? & ?). repeat split; congruence.
Qed.

Lemma main_options_grammar (argv0 : string) (n : nat) :
  forall (args : list string) (o : Options T) (w : World),
    (length args <= n)%nat ->
    main_options_outcome args w (main_options argv0 args o w).
Proof.
  induction n as [|n IH]; intros args o w Hlen.
  - destruct args; [|simpl in Hlen; lia]. simpl. auto.
  - destruct args as [|arg rest]; [simpl; auto|].
    simpl in Hlen.
    assert (Hstop1 : forall ww : World,
              accepted (arg :: rest) = false ->
              main_options_outcome (arg :: rest) w
                (printUsageAndExit (A:=Options T) argv0 ww)).
    { intros ww Hacc. destruct (printUsageAndExit_usage (A:=Options T) argv0 ww)
        as (w' & -> & Hin). unfold main_options_outcome. rewrite Hacc. auto. }
    assert (Hstop2 : accepted (arg :: rest) = false ->
              main_options_outcome (arg :: rest) w
                (requires_argument (A:=Options T) argv0 arg w)).
    { intros Hacc. destruct (requires_argument_usage (A:=Options T) argv0 arg w)
        as (w' & -> & Hin). unfold main_options_outcome. rewrite Hacc. auto. }
    assert (Hnext : forall (args' : list string) (oo : Options T) (w1 : World),
              (length args' <= n)%nat ->
              accepted (arg :: rest) = accepted args' ->
              context w1 = context w -> camera w1 = camera w ->
              frame_number w1 = frame_number w -> host w1 = host w ->
              main_options_outcome (arg :: rest) w (main_options argv0 args' oo w1)).
    { intros args' oo w1 Hl Ha ? ? ? ?.
      apply (main_options_outcome_step _ args' w w1); auto. }
    cbn [main_options].
    destruct (is_option arg "-h" "--help") eqn:Hh.
    { apply Hstop1. apply is_option_inv in Hh. destruct Hh; subst arg; reflexivity. }
    destruct (is_option arg "-f" "--file") eqn:Hf.
    { apply is_option_inv in Hf.
      destruct rest as [|a rest'].
      - apply Hstop2. destruct Hf; subst arg; reflexivity.
      - mred. apply Hnext; try reflexivity; [simpl in Hlen; lia|].
        destruct Hf; subst arg; reflexivity. }
    destruct (is_option arg "-n" "--nopbo") eqn:Hn.
    { apply is_option_inv in Hn.
      mred. apply Hnext; try reflexivity; [lia|].
      destruct Hn; subst arg; reflexivity. }
    destruct (is_option arg "-s" "--sample") eqn:Hs.
    { apply is_option_inv in Hs.
      destruct rest as [|a rest'].
      - apply Hstop2. destruct Hs; subst arg; reflexivity.
      - apply Hnext; try reflexivity; [simpl in Hlen; lia|].
        destruct Hs; subst arg; reflexivity. }
    destruct (is_option arg "-t" "--time") eqn:Ht.
    { apply is_option_inv in Ht.
      destruct rest as [|a rest'].
      - apply Hstop2. destruct Ht; subst arg; reflexivity.
      - apply Hnext; try reflexivity; [simpl in Hlen; lia|].
        destruct Ht; subst arg; reflexivity. }
    destruct (is_option arg "-W" "--width") eqn:HW.
    { apply is_option_inv in HW.
      destruct rest as [|a rest'].
      - apply Hstop2. destruct HW; subst arg; reflexivity.
      - mred. apply Hnext; try reflexivity; [simpl in Hlen; lia|].
        destruct HW; subst arg; reflexivity. }
    destruct (is_option arg "-H" "--height") eqn:HH.
    { apply is_option_inv in HH.
      destruct rest as [|a rest'].
      - apply Hstop2. destruct HH; subst arg; reflexivity.
      - mred. apply Hnext; try reflexivity; [simpl in Hlen; lia|].
        destruct HH; subst arg; reflexivity. }
    mred. apply Hstop1.
    cbn [accepted]. unfold takes_value. rewrite Hn, Hf, Hs, Ht, HW, HH. reflexivity.
Qed.

(** X1. [main_options] reads a command line to the end exactly when it is
    made of [-n]/[--nopbo] and of [-f], [-s], [-t], [-W], [-H] (or their
    long forms) each followed by a value; it then prints nothing and
    leaves the context, the camera and the frame number alone.  On every
    other command line ([-h], an unknown option, a value missing at the
    end) it prints the usage text and exits with status 1. *)
Theorem main_options_accepts_or_exits (argv0 : string) (args : list string)
    (o : Options T) (w : World) :
  match main_options argv0 args o w with
  | Done _ w' =>
      accepted args = true /\
      context w' = context w /\ camera w' = camera w /\
      frame_number w' = frame_number w /\ host w' = host w
  | Stop s w' =>
      accepted args = false /\ s = Exit 1 /\
      In (cerr [PStr usage_text]) (trace (host w'))
  end.
Proof.
  exact (main_options_grammar argv0 (length args) args o w (Nat.le_refl _)).
Qed.

(** *** The callbacks, effect by effect *)

Lemma updateCamera_frame_count (w : World) :
  frame_count (world_of (updateCamera w)) = frame_count w.
Proof.
  unfold updateCamera.
  destruct (camera_changed (camera w)) eqn:Hch; destruct (context w) eqn:Hc;
    mrun ltac:(rewrite ?Hc, ?Hch); reflexivity.
Qed.

Lemma decimal_digits_le (fuel : nat) :
  forall n : Z, (decimal_digits fuel n <= S fuel)%nat.
Proof.
  induction fuel as [|fuel IH]; intros n; cbn [decimal_digits].
  - lia.
  - destruct (n <? 10); [lia|]. specialize (IH (n / 10)). lia.
Qed.

(** The line of the frame number fits its 32 bytes, whatever the number. *)
Lemma sprintf_frame_number_fits (fn : Z) (w : World) :
  sprintf 32 [PStr "frame_number:   "; PInt fn] w = Done tt w.
Proof.
  unfold sprintf. cbn [sprintf_min_length printed_min_width].
  change (String.length "frame_number:   ") with 16%nat.
  pose proof (decimal_digits_le 10 (Z.abs fn)) as Hd.
  assert (Hw : (width_d fn <= 12)%nat) by (unfold width_d; destruct (fn <? 0); lia).
  destruct (Nat.ltb_spec (16 + (width_d fn + 0)) 32) as [_|Hge]; [reflexivity | lia].
Qed.

(** The display callback in a ready world: everything up to the line of
    the frame number is performed; the text of [camera_eye], 40 characters
    or more, does not fit the 32 bytes of its array. *)
Lemma glutDisplay_overflow (w : World) c b buf :
  context w = Some c ->
  ctx_vars c !! "output_buffer" = Some (VBuffer b) ->
  ctx_buffers c !! b = Some buf ->
  exists w',
    glutDisplay w = Stop OutOfBounds w' /\
    ready w' /\
    trace (host w') =
      trace (host w) ++
      [ context_launch 0 (width w) (height w);
        displayBufferGL b;
        displayFps (frame_count w);
        displayText [PStr "frame_number:   "; PInt (frame_number w')] 10 80 ] /\
    counter w' = Some (VUint (wrap_uint (next_counter w))) /\
    frame_number w' = wrap_int (next_counter w + 1) /\
    camera_changed (camera w') = false /\
    frame_count w' = wrap_uint (frame_count w + 1) /\
    width w' = width w /\ height w' = height w /\ mouse w' = mouse w.
Proof.
  intros Hc Hb Hbuf.
  destruct (updateCamera_live w c Hc)
    as (w1 & c1 & Hrun & Hc1 & Hn & Hout & Hbufs & Hfn & Hch & Hwd & Hht & Hm & Hh).
  pose proof (updateCamera_frame_count w) as Hfc. rewrite Hrun in Hfc. simpl in Hfc.
  unfold glutDisplay, context_launch_0, getOutputBuffer.
  unfold bind at 1. rewrite Hrun.
  mrun ltac:(rewrite ?Hc1, ?Hout, ?Hb).
  rewrite sprintf_frame_number_fits.
  mrun ltac:(rewrite ?Hc1).
  match goal with
  | |- context [sprintf 32 ?text ?ww] =>
      change (sprintf 32 text ww) with (Stop (A:=unit) OutOfBounds ww)
  end.
  cbv beta iota.
  eexists. split; [reflexivity|]. unfold ready, counter. wsimpl. rewrite Hc1.
  split; [exists c1, b, buf; rewrite Hout, Hbufs; auto|].
  split; [rewrite Hh, Hwd, Hht, Hfc, <- !app_assoc; reflexivity|].
  rewrite Hfc. auto 10.
Qed.

Lemma glutMousePress_effects (button state x y : Z) (w : World) :
  exists w',
    glutMousePress button state x y w = Done tt w' /\
    context w' = context w /\ frame_number w' = frame_number w /\
    camera w' = camera w /\ host w' = host w /\
    width w' = width w /\ height w' = height w.
Proof.
  unfold glutMousePress. destruct (state =? GLUT_DOWN); mred; eexists;
    (split; [reflexivity|]); repeat split.
Qed.

Lemma glutMouseMotion_effects (x y : Z) (w : World) :
  exists w',
    glutMouseMotion x y w = Done tt w' /\
    context w' = context w /\ frame_number w' = frame_number w /\
    host w' = host w /\ width w' = width w /\ height w' = height w /\
    camera_changed (camera w') =
      camera_changed (camera w) || drags (mouse_button (mouse w)) /\
    mouse w' = {| mouse_button := mouse_button (mouse w);
                  mouse_prev_pos := make_int2 x y |}.
Proof.
  unfold glutMouseMotion, drags. mred. wsimpl.
  destruct (mouse_button (mouse w) =? GLUT_RIGHT_BUTTON);
    [|destruct (mouse_button (mouse w) =? GLUT_LEFT_BUTTON);
      [|destruct (mouse_button (mouse w) =? GLUT_MIDDLE_BUTTON)]];
    mred; wsimpl; eexists; (split; [reflexivity|]); wsimpl;
    rewrite ?orb_true_r, ?orb_false_r; repeat split.
Qed.

Lemma glutResize_effects (w h : Z) (wd : World) :
  ready wd ->
  exists wd',
    glutResize w h wd = Done tt wd' /\
    ready wd' /\ counter wd' = counter wd /\ frame_number wd' = frame_number wd /\
    camera_changed (camera wd') =
      camera_changed (camera wd) ||
      negb ((w =? wrap_int (width wd)) && (h =? wrap_int (height wd))) /\
    mouse wd' = mouse wd /\
    exists tail,
      trace (host wd') = trace (host wd) ++ tail /\
      forallb (fun e => match e with
                        | glViewport _ _ _ _ | glutPostRedisplay => true
                        | _ => false
                        end) tail = true.
Proof.
  intros (c & b & buf & Hc & Hb & Hbuf).
  unfold glutResize, getOutputBuffer, sutil_resizeBuffer, buffer_setSize2.
  mred. wsimpl.
  destruct ((w =? wrap_int (width wd)) && (h =? wrap_int (height wd))).
  - exists wd. split; [reflexivity|]. split; [exists c, b, buf; auto|].
    rewrite orb_false_r. repeat split. exists []. rewrite app_nil_r. auto.
  - mrun ltac:(rewrite ?Hc, ?Hb, ?Hbuf).
    eexists. split; [reflexivity|]. unfold ready, counter. wsimpl.
    split; [eexists _, b, _; split; [reflexivity|]; wsimpl;
            split; [exact Hb | apply lookup_insert_eq]|].
    rewrite Hc, orb_true_r. repeat split.
    eexists. rewrite <- app_assoc. split; [reflexivity|]. reflexivity.
Qed.

Lemma glutKeyboardPress_save (x y : Z) (w : World) c b :
  context w = Some c ->
  ctx_vars c !! "output_buffer" = Some (VBuffer b) ->
  glutKeyboardPress "s" x y w =
    Done tt (logged [ cerr [PStr "Saving current frame to '"; PStr "redflash.png"; PStr "'"];
                      displayBufferPNG "redflash.png" b false ] w).
Proof.
  intros Hc Hb. unfold glutKeyboardPress, getOutputBuffer, logged.
  change (("s" =? "q")%char || ("s" =? "027")%char) with false.
  change (("s" =? "s")%char) with true. cbv iota.
  change (SAMPLE_NAME +:+ ".png") with "redflash.png".
  mrun ltac:(rewrite ?Hc, ?Hb). rewrite <- app_assoc. reflexivity.
Qed.

Lemma glutKeyboardPress_ignored (k : ascii) (x y : Z) (w : World) :
  (Ascii.eqb k "q" || Ascii.eqb k "027")%char = false ->
  Ascii.eqb k "s" = false ->
  glutKeyboardPress k x y w = Done tt w.
Proof.
  intros Hq Hs. unfold glutKeyboardPress. rewrite Hq, Hs. reflexivity.
Qed.

(** What one pointer or reshape callback does to a ready world. *)
Lemma callback_effects (e : Interaction) (w : World) :
  ready w ->
  is_display e = false ->
  exists w',
    callback e w = Done tt w' /\ ready w' /\
    count is_launch (trace (host w')) = count is_launch (trace (host w)) /\
    count is_export (trace (host w')) = count is_export (trace (host w)) /\
    count is_destroy (trace (host w')) = count is_destroy (trace (host w)) /\
    camera_changed (camera w') = camera_changed (camera w) || marks_dirty w e /\
    counter w' = counter w /\ frame_number w' = frame_number w.
Proof.
  intros H Hd.
  destruct e as [button state x y|x y|wd ht|]; cbn [callback marks_dirty];
    [| | |discriminate Hd].
  - destruct (glutMousePress_effects button state x y w)
      as (w' & Hrun & Hc & Hfn & Hcam & Hh & _).
    exists w'. split; [exact Hrun|]. unfold ready, counter in *.
    rewrite Hc, Hcam, Hh, orb_false_r. auto 10.
  - destruct (glutMouseMotion_effects x y w)
      as (w' & Hrun & Hc & Hfn & Hh & _ & _ & Hch & _).
    exists w'. split; [exact Hrun|]. unfold ready, counter in *.
    rewrite Hc, Hh, Hch. auto 10.
  - destruct (glutResize_effects wd ht w H)
      as (w' & Hrun & Hr & Hcnt & Hfn & Hch & _ & tail & Htr & Htail).
    exists w'. split; [exact Hrun|]. split; [exact Hr|].
    rewrite Htr, !count_app, Hch.
    assert (Hz : forall kind : Effect F T -> bool,
               (forall e, kind e = true ->
                          match e with
                          | glViewport _ _ _ _ | glutPostRedisplay => false
                          | _ => true
                          end = true) ->
               count kind tail = 0%nat).
    { intros kind Hk. clear Htr. induction tail as [|e tail IHt]; [reflexivity|].
      simpl in Htail. apply andb_prop in Htail. destruct Htail as [He Ht].
      unfold count in *. simpl. destruct (kind e) eqn:Hke.
      - specialize (Hk e Hke). destruct e; discriminate.
      - auto. }
    rewrite !Hz by (intros []; simpl; congruence). rewrite !Nat.add_0_r. auto 10.
Qed.

Lemma glutKeyboardPress_quit_trace (k : ascii) (x y : Z) (w : World) c :
  context w = Some c ->
  (Ascii.eqb k "q" || Ascii.eqb k "027")%char = true ->
  exists w',
    glutKeyboardPress k x y w = Stop (Exit 0) w' /\
    context w' = None /\
    trace (host w') = trace (host w) ++ [context_destroy].
Proof.
  intros Hc Hk. unfold glutKeyboardPress. rewrite Hk. unfold bind.
  rewrite (destroyContext_live w c Hc).
  match goal with |- context [exit 0 ?ww] =>
    destruct (exit_stops (A:=unit) 0 ww) as (w' & Hexit & Hsame & _) end.
  rewrite Hexit. specialize (Hsame eq_refl). subst w'.
  eexists. split; [reflexivity|]. auto.
Qed.

Lemma session_outcome_next (ev : Event) (rest : list Event) (w w1 : World)
    (r : Outcome F T Matrix4x4 unit) :
  ends_session ev = false ->
  count is_destroy (trace (host w1)) = count is_destroy (trace (host w)) ->
  count is_launch (trace (host w1)) = count is_launch (trace (host w)) ->
  count is_export (trace (host w1)) =
    (count is_export (trace (host w)) + if is_save ev then 1 else 0)%nat ->
  session_outcome rest w1 r -> session_outcome (ev :: rest) w r.
Proof.
  intros Hq Hd Hl He (Hend & Hexport).
  unfold session_outcome. cbn [List.find before_end]. rewrite Hq. cbn [List.filter].
  split.
  - destruct r as [[] w'|s w']; destruct (List.find ends_session rest) as [ev'|];
      try exact Hend.
    + rewrite <- Hd, <- Hl. exact Hend.
    + destruct (is_quit ev'); rewrite <- Hd, <- Hl; exact Hend.
  - rewrite Hexport, He. destruct (is_save ev); cbn [length]; lia.
Qed.

(** X2. An interactive session that starts in a ready world.  As long
    as neither a quit key nor the display callback comes, every callback
    returns, the world stays ready, nothing is launched and the context
    is not destroyed.  At the first [q] or ESC the process exits with
    status 0 after destroying the context exactly once.  At the first
    display callback the frame is launched once and the callback then
    overflows the 32 bytes of its [camera_eye] text: it does not return.
    Either way no later event is handled, and the events before have
    caused one PNG export per [s] key and no other. *)
Theorem session_ends_by_quit_or_overflow (events : list Event) (w : World) :
  ready w ->
  match session events w, List.find ends_session events with
  | Done _ w', None =>
      ready w' /\
      count is_destroy (trace (host w')) = count is_destroy (trace (host w)) /\
      count is_launch (trace (host w')) = count is_launch (trace (host w))
  | Stop s w', Some ev =>
      if is_quit ev
      then
        s = Exit 0 /\ context w' = None /\
        count is_destroy (trace (host w')) = (count is_destroy (trace (host w)) + 1)%nat /\
        count is_launch (trace (host w')) = count is_launch (trace (host w))
      else
        s = OutOfBounds /\ ready w' /\
        count is_destroy (trace (host w')) = count is_destroy (trace (host w)) /\
        count is_launch (trace (host w')) = (count is_launch (trace (host w)) + 1)%nat
  | _, _ => False
  end /\
  count is_export (trace (host (world_of (session events w)))) =
    (count is_export (trace (host w)) +
     length (List.filter is_save (before_end events)))%nat.
Proof.
  change (ready w -> session_outcome events w (session events w)).
  revert w.
  induction events as [|ev rest IH]; intros w H.
  - unfold session_outcome. simpl. rewrite !Nat.add_0_r. auto.
  - cbn [session]. unfold bind. destruct ev as [e|k x y]; cbn [handle].
    + destruct (is_display e) eqn:Hd.
      * destruct e; try discriminate Hd. cbn [callback].
        pose proof H as (c & b & buf & Hc & Hb & Hbuf).
        destruct (glutDisplay_overflow w c b buf Hc Hb Hbuf)
          as (w1 & Hrun & H1 & Htr & _).
        rewrite Hrun. unfold session_outcome.
        change (List.find ends_session (pointer display :: rest))
          with (Some (pointer display : Event)).
        change (before_end (pointer display :: rest)) with (@nil Event).
        cbn [is_quit world_of List.filter length].
        rewrite Htr, !count_app. unfold count. simpl.
        split; [split; [reflexivity|]; split; [exact H1|]; split; lia | lia].
      * destruct (callback_effects e w H Hd) as (w1 & Hrun & H1 & Hl & He & Hdes & _).
        rewrite Hrun.
        apply (session_outcome_next (pointer e) rest w w1);
          [ unfold ends_session; simpl; exact Hd | exact Hdes | exact Hl
          | simpl; rewrite He; lia | apply IH; exact H1 ].
    + destruct (Ascii.eqb k "q" || Ascii.eqb k "027")%char eqn:Hq.
      * destruct H as (c & b & buf & Hc & Hb & Hbuf).
        destruct (glutKeyboardPress_quit_trace k x y w c Hc Hq) as (w1 & Hrun & Hc1 & Htr).
        rewrite Hrun. unfold session_outcome.
        assert (Hends : ends_session (keyboard k x y) = true)
          by (unfold ends_session; cbn [is_quit]; rewrite Hq; reflexivity).
        assert (Hisq : is_quit (keyboard k x y) = true) by exact Hq.
        cbn [List.find before_end]. rewrite Hends, Hisq.
        cbn [world_of List.filter length].
        rewrite Htr, !count_app. unfold count. simpl.
        split; [split; [reflexivity|]; split; [exact Hc1|]; split; lia | lia].
      * assert (Hends : ends_session (keyboard k x y) = false)
          by (unfold ends_session; simpl; rewrite Hq; reflexivity).
        destruct (Ascii.eqb k "s") eqn:Hs.
        -- apply Ascii.eqb_eq in Hs. subst k.
           pose proof H as (c & b & buf & Hc & Hb & Hbuf).
           rewrite (glutKeyboardPress_save x y w c b Hc Hb).
           match goal with |- session_outcome _ _ (session rest ?ww) =>
             apply (session_outcome_next (keyboard "s" x y) rest w ww) end; auto;
             try (unfold logged; wsimpl; rewrite count_app; unfold count; simpl; lia).
        -- rewrite (glutKeyboardPress_ignored k x y w Hq Hs).
           apply (session_outcome_next (keyboard k x y) rest w w); auto;
             simpl; rewrite ?Hs; lia.
Qed.

(** X3. Every display callback overflows a text buffer.  In a ready
    world [glutDisplay] resolves the camera, launches entry point 0 once
    at the current size, presents the output buffer, shows the frame
    rate for the frame count so far and the line of the frame number,
    which fits its 32 bytes whatever the number; it then formats the line
    of [camera_eye], at least 40 characters and a NUL, into an array of
    32 bytes, whatever the camera is.  The frame was rendered with the
    counter [next_counter]; the number shown is the host variable after
    its increment, hence one more. *)
Theorem glutDisplay_overflows_text_buffer (w : World) c b buf :
  context w = Some c ->
  ctx_vars c !! "output_buffer" = Some (VBuffer b) ->
  ctx_buffers c !! b = Some buf ->
  exists w',
    glutDisplay w = Stop OutOfBounds w' /\
    counter w' = Some (VUint (wrap_uint (next_counter w))) /\
    trace (host w') =
      trace (host w) ++
      [ context_launch 0 (width w) (height w);
        displayBufferGL b;
        displayFps (frame_count w);
        displayText [PStr "frame_number:   "; PInt (wrap_int (next_counter w + 1))] 10 80 ] /\
    frame_count w' = wrap_uint (frame_count w + 1) /\
    (32 <= sprintf_min_length (T:=T)
             [PStr "camera_eye:    "; PFloat (f3x (camera_eye (camera w')));
              PStr ", "; PFloat (f3y (camera_eye (camera w')));
              PStr ", "; PFloat (f3z (camera_eye (camera w')))])%nat.
Proof.
  intros Hc Hb Hbuf.
  destruct (glutDisplay_overflow w c b buf Hc Hb Hbuf)
    as (w' & Hrun & _ & Htr & Hcnt & Hfn & _ & Hfc & _).
  exists w'. rewrite <- Hfn. repeat split; auto.
  cbn. lia.
Qed.

Lemma wrap_uint_wrap_int_add (a b : Z) : wrap_uint (wrap_int a + b) = wrap_uint (a + b).
Proof.
  rewrite <- wrap_uint_add_l, wrap_uint_wrap_int, wrap_uint_add_l. reflexivity.
Qed.

(** X5. Which interactions restart the accumulation.  A callback other
    than display returns with the dirty flag set exactly when it was set
    before or the callback is a pointer move while one of the three
    buttons is recorded, or a reshape to a size other than the current
    one; a button press or release never sets it.  The resolve
    ([updateCamera]) that follows then publishes the counter 1 in the
    first case and the host's [frame_number] in the second. *)
Theorem interaction_restarts_accumulation (e : Interaction) (w : World) :
  ready w ->
  is_display e = false ->
  exists w1 w2,
    callback e w = Done tt w1 /\
    camera_changed (camera w1) = camera_changed (camera w) || marks_dirty w e /\
    updateCamera w1 = Done tt w2 /\
    counter w2 =
      Some (VUint (if camera_changed (camera w) || marks_dirty w e
                   then 1 else wrap_uint (frame_number w))) /\
    camera_changed (camera w2) = false.
Proof.
  intros H Hd.
  destruct (callback_effects e w H Hd)
    as (w1 & Hrun & H1 & _ & _ & _ & Hch & _ & Hfn).
  destruct H1 as (c1 & _ & _ & Hc1 & _).
  destruct (updateCamera_live w1 c1 Hc1)
    as (w2 & c2 & Hrun2 & Hc2 & Hn2 & _ & _ & _ & Hch2 & _).
  exists w1, w2. repeat split; auto.
  unfold counter. rewrite Hc2, Hn2. unfold next_counter. rewrite Hch, Hfn.
  destruct (camera_changed (camera w) || marks_dirty w e); reflexivity.
Qed.

(** *** The batch run *)

(** X6. A batch run with a time limit, on a clock that makes some
    iteration [m] within the bound of the model fail the test: the run
    launches [n] times, [n <= m] being the first iteration to fail it,
    prints the two lines of the time limit with [n] as the number
    sampled, exports the image once, destroys the context once, prints
    the total time and returns 0. *)
Theorem main_batch_deadline (fuel m : nat) (o : Options T) (launch_time : T)
    (w : World) c b buf :
  context w = Some c ->
  ctx_vars c !! "output_buffer" = Some (VBuffer b) ->
  ctx_buffers c !! b = Some buf ->
  use_time_limit o = true ->
  Z.of_nat fuel <= INT_MAX ->
  (m < fuel)%nat ->
  exceeds o launch_time (clock (host w) (ticks (host w))) (tick w) m = true ->
  exists (n : nat) (w' : World),
    (n <= m)%nat /\
    (forall k : nat, (k < n)%nat ->
       exceeds o launch_time (clock (host w) (ticks (host w))) (tick w) k = false) /\
    exceeds o launch_time (clock (host w) (ticks (host w))) (tick w) n = true /\
    main_batch fuel o launch_time w = Done 0 w' /\
    context w' = None /\
    trace (host w') =
      trace (host w) ++ batch_header o w ++
      repeat (context_launch 0 (width w) (height w)) n ++
      reached_time_limit o (used_time launch_time (tick w) n) (Z.of_nat n) ++
      [ displayBufferPNG (out_file o) b false;
        context_destroy;
        cout [PStr "total_time: ";
              PDouble (fsub (reading w (S (S n))) launch_time);
              PStr " sec."] ].
Proof.
  intros Hc Hb Hbuf Hlimit Hfuel Hm Hover.
  destruct (updateCamera_live w c Hc)
    as (w1 & c1 & Hrun & Hc1 & _ & Hout & Hbufs & _ & _ & Hwd & Hht & _ & Hhost).
  unfold main_batch. unfold bind at 1. rewrite Hrun.
  unfold currentTime. rewrite Hlimit.
  mred. wsimpl. rewrite Hhost, Hwd, Hht.
  match goal with
  | |- context [main_loop ?f ?oo ?lt ?i ?last ?ww] =>
      assert (Hlive : context ww = Some c1) by (wsimpl; exact Hc1);
      destruct (main_loop_spec f oo lt i last ww c1 Hlive eq_refl)
        as (n & how & w2 & c2 & Hw2 & Hn & Hbefore & Hend & Hc2 & Hout2 & Hbufs2 &
            Hclock & Hwd2 & Hht2);
      assert (Hshift : forall k, exceeds oo lt last ww k =
                                 exceeds o launch_time (clock (host w) (ticks (host w))) (tick w) k)
        by (intros k; apply exceeds_ext; wsimpl; rewrite ?Hhost; reflexivity);
      assert (Hused : forall k, used_time lt ww k = used_time launch_time (tick w) k)
        by (intros k; unfold used_time, now, reading, tick; wsimpl; rewrite ?Hhost; reflexivity)
  end.
  assert (Hwrap : wrap_int (0 + Z.of_nat n) = Z.of_nat n)
    by (apply wrap_int_small; unfold INT_MAX in *; lia).
  destruct how.
  - destruct Hend as (Hloop & Hlt & Hcont & Hex & Htrace & Hticks).
    exists n. rewrite Hloop. unfold getOutputBuffer, destroyContext.
    mrun ltac:(rewrite ?Hc2, ?Hout2, ?Hout, ?Hb).
    eexists. split.
    { destruct (Nat.le_gt_cases n m) as [Hle|Hgt]; [exact Hle|].
      destruct (Hbefore m Hgt) as [_ Hnot]. rewrite Hshift in Hnot. congruence. }
    split; [intros k Hk; rewrite <- Hshift; apply (Hbefore k Hk)|].
    split; [rewrite <- Hshift; exact Hex|].
    split; [reflexivity|]. wsimpl. split; [reflexivity|].
    rewrite Htrace, Hclock, Hticks, Hused, Hwrap. wsimpl. rewrite Hwd, Hht.
    unfold batch_header, reading. rewrite Hlimit, <- !app_assoc. simpl.
    rewrite <- ?app_assoc. simpl.
    rewrite !Nat.add_succ_r. reflexivity.
  - destruct Hend as (_ & Hstop & _). exfalso.
    unfold continues in Hstop. rewrite Hlimit, orb_true_r in Hstop. discriminate Hstop.
  - destruct Hend as (_ & -> & _). exfalso.
    destruct (Hbefore m Hm) as [_ Hnot]. rewrite Hshift in Hnot. congruence.
Qed.

(** X7. A batch run without a time limit and with a sample count of zero
    or less launches nothing: whatever the bound of the model, it prints
    the header, exports the output buffer as it is, destroys the context
    and returns 0. *)
Theorem main_batch_no_samples (fuel : nat) (o : Options T) (launch_time : T)
    (w : World) c b buf :
  context w = Some c ->
  ctx_vars c !! "output_buffer" = Some (VBuffer b) ->
  ctx_buffers c !! b = Some buf ->
  use_time_limit o = false ->
  sample o <= 0 ->
  exists w',
    main_batch fuel o launch_time w = Done 0 w' /\
    context w' = None /\
    count is_launch (trace (host w')) = count is_launch (trace (host w)) /\
    trace (host w') =
      trace (host w) ++ batch_header o w ++
      [ displayBufferPNG (out_file o) b false;
        context_destroy;
        cout [PStr "total_time: "; PDouble (fsub (reading w 1) launch_time);
              PStr " sec."] ].
Proof.
  intros Hc Hb Hbuf Hno Hsample.
  destruct (updateCamera_live w c Hc)
    as (w1 & c1 & Hrun & Hc1 & _ & Hout & Hbufs & _ & _ & Hwd & Hht & _ & Hhost).
  unfold main_batch. unfold bind at 1. rewrite Hrun.
  unfold currentTime. rewrite Hno.
  mred. wsimpl. rewrite Hhost, Hwd, Hht.
  assert (Hloop : forall (last : T) (ww : World),
            main_loop fuel o launch_time 0 last ww = Done tt ww).
  { intros last ww. assert (Hcond : (0 <? sample o) || use_time_limit o = false)
      by (rewrite Hno, orb_false_r; apply Z.ltb_ge; exact Hsample).
    destruct fuel; cbn [main_loop]; rewrite Hcond; reflexivity. }
  rewrite Hloop. unfold getOutputBuffer, destroyContext.
  mrun ltac:(rewrite ?Hc1, ?Hout, ?Hb).
  eexists. split; [reflexivity|]. wsimpl. split; [reflexivity|].
  unfold batch_header, reading. rewrite Hno, <- !app_assoc. simpl.
  rewrite Nat.add_1_r. split; [|reflexivity].
  rewrite count_app. unfold count. simpl. lia.
Qed.

(** X8. The batch loop advances the frame counter by one per launch:
    when it stops, for whatever reason, after [n] launches, the host's
    [frame_number] is [n] further (as an [int]) and, if it launched at
    all, the counter published for the kernels is [frame_number + n - 1]
    (as an [unsigned]), so that consecutive launches are made with
    consecutive counters. *)
Theorem main_loop_advances_counter (fuel : nat) (o : Options T) (launch_time : T)
    (i : Z) (last_time : T) (w : World) c :
  context w = Some c ->
  exists n : nat,
    let w' := world_of (main_loop fuel o launch_time i last_time w) in
    count is_launch (trace (host w')) = (count is_launch (trace (host w)) + n)%nat /\
    (n = 0%nat -> frame_number w' = frame_number w /\ counter w' = counter w) /\
    ((0 < n)%nat ->
     frame_number w' = wrap_int (frame_number w + Z.of_nat n) /\
     counter w' = Some (VUint (wrap_uint (frame_number w + Z.of_nat n - 1)))).
Proof.
  revert i last_time w c.
  induction fuel as [|fuel IH]; intros i last_time w c Hc.
  - exists 0%nat. cbn [main_loop].
    destruct ((i <? sample o) || use_time_limit o); cbn; rewrite Nat.add_0_r;
      (split; [reflexivity|]); (split; [auto|lia]).
  - destruct (continues o i) eqn:Hcont.
    + rewrite (main_loop_step fuel o launch_time i last_time w c Hc Hcont).
      destruct (exceeds o launch_time last_time w 0).
      * exists 0%nat. cbn [world_of]. unfold logged, tick, counter. wsimpl.
        rewrite count_app, Nat.add_0_r. unfold count at 2. simpl.
        rewrite Nat.add_0_r. split; [reflexivity|]. split; [auto|lia].
      * assert (Hlive : context (launched c w) =
                        Some {| ctx_vars := <["frame_number" := VUint (wrap_uint (frame_number w))]>
                                              (ctx_vars c);
                                ctx_buffers := ctx_buffers c |}) by reflexivity.
        destruct (IH (wrap_int (i + 1)) (now w 0) (launched c w) _ Hlive)
          as (n & Hl & H0 & Hpos).
        exists (S n). cbv zeta in *.
        assert (Hfn : frame_number (launched c w) = wrap_int (frame_number w + 1))
          by reflexivity.
        assert (Hcnt : counter (launched c w) = Some (VUint (wrap_uint (frame_number w)))).
        { unfold counter. rewrite Hlive. cbn [ctx_vars]. apply lookup_insert_eq. }
        assert (Htr : count is_launch (trace (host (launched c w))) =
                      S (count is_launch (trace (host w)))).
        { unfold launched, logged, tick. wsimpl. rewrite count_app. unfold count at 2.
          simpl. lia. }
        split; [rewrite Hl, Htr; lia|]. split; [discriminate|]. intros _.
        destruct n as [|n].
        -- destruct (H0 eq_refl) as [-> ->]. rewrite Hfn, Hcnt. split; [reflexivity|].
           do 3 f_equal. lia.
        -- destruct (Hpos ltac:(lia)) as [-> ->]. rewrite Hfn.
           rewrite wrap_int_add_l.
           replace (wrap_int (frame_number w + 1) + Z.of_nat (S n) - 1)
             with (wrap_int (frame_number w + 1) + (Z.of_nat (S n) - 1)) by lia.
           rewrite wrap_uint_wrap_int_add.
           split; [f_equal; lia | do 3 f_equal; lia].
    + exists 0%nat. unfold continues in Hcont. cbn [main_loop]. rewrite Hcont.
      cbn. rewrite Nat.add_0_r. split; [reflexivity|]. split; [auto|lia].
Qed.

(** *** The light buffer and the light geometry *)

Lemma updateLightParameters_loop_closed (ls : list (LightParameter F)) :
  forall (i : nat) (dst : list (option (LightParameter F))),
    (i + length ls <= length dst)%nat ->
    updateLightParameters_loop ls i dst =
      Some (take i dst ++ (Some <$> ls) ++ drop (i + length ls) dst).
Proof.
  induction ls as [|mat rest IH]; intros i dst H.
  - simpl. rewrite Nat.add_0_r, take_drop. reflexivity.
  - cbn [updateLightParameters_loop]. simpl in H.
    assert (Hi : (i < length dst)%nat) by lia.
    destruct (Nat.ltb_spec i (length dst)) as [_|?]; [|lia].
    rewrite IH by (rewrite length_insert; lia).
    f_equal.
    rewrite (take_S_r _ _ _ (list_lookup_insert_eq _ _ _ Hi)).
    rewrite take_insert_ge by lia.
    rewrite drop_insert_lt by lia.
    rewrite <- app_assoc. cbn [fmap list_fmap app].
    replace (S i + length rest)%nat with (i + S (length rest))%nat by lia.
    destruct mat. reflexivity.
Qed.

Lemma updateLightParameters_run (ls : list (LightParameter F)) (w : World) c h buf :
  context w = Some c ->
  m_bufferLightParameters w = Some h ->
  ctx_buffers c !! h = Some buf ->
  (length ls <= length (buf_data buf))%nat ->
  updateLightParameters ls w =
    Done tt
      (set_context
         (Some {| ctx_vars := ctx_vars c;
                  ctx_buffers :=
                    <[h := set_buf_data
                             ((Some <$> ls) ++
                              replicate (length (buf_data buf) - length ls) None) buf]>
                      (ctx_buffers c) |}) w).
Proof.
  intros Hc Hh Hbuf Hlen.
  unfold updateLightParameters, map_write_discard.
  mrun ltac:(rewrite ?Hh, ?Hc, ?Hbuf).
  rewrite (updateLightParameters_loop_closed ls 0) by (rewrite length_replicate; simpl; lia).
  rewrite take_0, drop_replicate. cbn [app Nat.add].
  mrun ltac:(rewrite ?Hh, ?Hc, ?Hbuf). reflexivity.
Qed.

(** X9. [updateLightParameters] on a buffer that holds at least as many
    elements as there are lights: the elements in front become the
    lights, in order and field by field; the mapping discards what the
    buffer held, so the elements behind them are left unwritten; the
    length, dimensions and format of the buffer, the variables of the
    context and the host are left as they are; and a second call with
    the same lights changes nothing. *)
Theorem updateLightParameters_overwrites_prefix (ls : list (LightParameter F))
    (w : World) c h buf :
  context w = Some c ->
  m_bufferLightParameters w = Some h ->
  ctx_buffers c !! h = Some buf ->
  (length ls <= length (buf_data buf))%nat ->
  exists w' c' buf',
    updateLightParameters ls w = Done tt w' /\
    context w' = Some c' /\
    ctx_vars c' = ctx_vars c /\
    ctx_buffers c' = <[h := buf']> (ctx_buffers c) /\
    buf_data buf' =
      (Some <$> ls) ++ replicate (length (buf_data buf) - length ls) None /\
    length (buf_data buf') = length (buf_data buf) /\
    buf_dims buf' = buf_dims buf /\
    buf_format buf' = buf_format buf /\
    buf_element_size buf' = buf_element_size buf /\
    host w' = host w /\
    updateLightParameters ls w' = Done tt w'.
Proof.
  intros Hc Hh Hbuf Hlen.
  rewrite (updateLightParameters_run ls w c h buf Hc Hh Hbuf Hlen).
  assert (Hsame : length ((Some <$> ls) ++
                          replicate (length (buf_data buf) - length ls)
                            (@None (LightParameter F))) = length (buf_data buf))
    by (rewrite length_app, length_fmap, length_replicate; lia).
  eexists _, _, _. split; [reflexivity|]. wsimpl.
  split; [reflexivity|]. wsimpl.
  split; [reflexivity|]. split; [reflexivity|]. split; [reflexivity|].
  split; [exact Hsame|].
  do 4 (split; [reflexivity|]).
  erewrite updateLightParameters_run;
    [ | reflexivity | exact Hh | apply lookup_insert_eq
      | cbn [buf_data set_buf_data]; rewrite Hsame; exact Hlen ].
  cbn [ctx_vars ctx_buffers buf_data set_buf_data].
  rewrite Hsame, insert_insert_eq. reflexivity.
Qed.

Lemma createSphereObject_run (w : World) c pi pb (center : float3 F) (r : F) :
  context w = Some c ->
  pgram_intersection_sphere (programs w) = Some pi ->
  pgram_bounding_box_sphere (programs w) = Some pb ->
  exists gi g,
    createSphereObject center r w = Done gi w /\
    gi_geometry gi = Some g /\ gi_materials gi = [] /\
    geo_primitive_count g = 1 /\
    geo_intersection_program g = Some pi /\
    geo_bounding_box_program g = Some pb /\
    geo_vars g !! "center" = Some (VFloat3 center) /\
    geo_vars g !! "radius" = Some (VFloat r) /\
    geo_vars g !! "aabb_min" = Some (VFloat3 (sub3s center r)) /\
    geo_vars g !! "aabb_max" = Some (VFloat3 (add3s center r)).
Proof.
  intros Hc Hi Hb.
  unfold createSphereObject, context_createGeometry, context_createGeometryInstance.
  mrun ltac:(rewrite ?Hc, ?Hi, ?Hb).
  eexists _, _. split; [reflexivity|]. cbn.
  repeat split; rewrite ?lookup_insert_ne by discriminate; apply lookup_insert_eq.
Qed.

Lemma createGeometryLight_loop_spheres (mat : Material) (ls : list (LightParameter F)) :
  forall (index : Z) (w : World) c pi pb,
    context w = Some c ->
    pgram_intersection_sphere (programs w) = Some pi ->
    pgram_bounding_box_sphere (programs w) = Some pb ->
    exists gis,
      createGeometryLight_loop mat ls index w = Done ((finalized <$> ls), gis) w /\
      length gis = length ls /\
      forall (i : nat) l,
        ls !! i = Some l ->
        exists gi g,
          gis !! i = Some gi /\
          gi_geometry gi = Some g /\
          gi_materials gi = [mat] /\
          gi_vars gi !! "emission_color" = Some (VFloat3 (emission l)) /\
          geo_primitive_count g = 1 /\
          geo_intersection_program g = Some pi /\
          geo_bounding_box_program g = Some pb /\
          geo_vars g !! "center" = Some (VFloat3 (position l)) /\
          geo_vars g !! "radius" = Some (VFloat (radius l)) /\
          geo_vars g !! "aabb_min" = Some (VFloat3 (sub3s (position l) (radius l))) /\
          geo_vars g !! "aabb_max" = Some (VFloat3 (add3s (position l) (radius l))).
Proof.
  induction ls as [|l rest IH]; intros index w c pi pb Hc Hi Hb; simpl.
  - exists []. split; [reflexivity|]. split; [reflexivity|]. intros i gi H. discriminate H.
  - destruct (createSphereObject_run w c pi pb (position l) (radius l) Hc Hi Hb)
      as (gi0 & g0 & Hgi & Hgeo & Hmats & Hsphere).
    destruct (IH (wrap_int (index + 1)) w c pi pb Hc Hi Hb) as (gis & Hrun & Hlen & Hall).
    unfold bind. simpl. rewrite Hgi. rewrite Hrun. simpl.
    eexists. split; [reflexivity|]. split; [simpl; rewrite Hlen; reflexivity|].
    intros [|i] l' H; simpl in H.
    + injection H as <-. eexists _, g0. split; [reflexivity|].
      unfold setMaterial, instance_set, addMaterial. cbn. rewrite Hmats.
      split; [exact Hgeo|]. split; [reflexivity|].
      split; [rewrite lookup_insert_ne by discriminate; apply lookup_insert_eq|].
      exact Hsphere.
    + exact (Hall i l' H).
Qed.

(** [createGeometryLight_from] goes through once its loop does. *)
Lemma createGeometryLight_from_group (ls : list (LightParameter F)) (w : World) c gis :
  context w = Some c ->
  createGeometryLight_loop
    {| mat_closest_hit := [(0, createProgramFromPTXString "redflash.cu" "light_closest_hit")];
       mat_any_hit := [] |} ls 0 w = Done ((finalized <$> ls), gis) w ->
  exists w' c',
    createGeometryLight_from ls w =
      Done {| gg_children := gis; gg_acceleration := Some "Trbvh" |} w' /\
    context w' = Some c' /\
    ctx_vars c' !! "sysNumberOfLights" = Some (VInt (wrap_int (Z.of_nat (length ls)))) /\
    programs w' = programs w /\ host w' = host w.
Proof.
  intros Hc Hloop.
  destruct (updateLightParameters_loop_run ((finalized <$> ls)) 0
              (replicate (length ((finalized <$> ls))) None))
    as (dst & Hdst & _).
  { rewrite length_replicate. lia. }
  unfold createGeometryLight_from, context_createGeometryGroup, context_createBuffer,
    buffer_setElementSize, buffer_setSize, updateLightParameters, map_write_discard.
  mrun ltac:(rewrite ?Hc, ?Hloop, ?lookup_insert_eq, ?length_replicate, ?Hdst).
  eexists _, _. split; [reflexivity|]. wsimpl.
  split; [reflexivity|]. wsimpl.
  split; [|split; reflexivity].
  rewrite lookup_insert_ne by discriminate. rewrite lookup_insert_eq.
  rewrite length_fmap. reflexivity.
Qed.

(** X10. The light geometry mirrors the registered lights: once the
    sphere programs are set, [createGeometryLight] (from its loop on)
    returns a group, built with [Trbvh], whose [i]-th child is a sphere of
    one primitive at the position of light [i] with its radius, bounded
    by the box from [position - radius] to [position + radius], carrying
    the light's emission as [emission_color] and a single material that
    has the closest-hit program [light_closest_hit] for ray type 0 and no
    any-hit program. *)
Theorem createGeometryLight_spheres (ls : list (LightParameter F)) (w : World) c pi pb :
  context w = Some c ->
  pgram_intersection_sphere (programs w) = Some pi ->
  pgram_bounding_box_sphere (programs w) = Some pb ->
  exists light_group w',
    createGeometryLight_from ls w = Done light_group w' /\
    gg_acceleration light_group = Some "Trbvh" /\
    length (gg_children light_group) = length ls /\
    forall (i : nat) l,
      ls !! i = Some l ->
      exists gi g,
        gg_children light_group !! i = Some gi /\
        gi_geometry gi = Some g /\
        gi_materials gi =
          [ {| mat_closest_hit :=
                 [(0, createProgramFromPTXString "redflash.cu" "light_closest_hit")];
               mat_any_hit := [] |} ] /\
        gi_vars gi !! "emission_color" = Some (VFloat3 (emission l)) /\
        geo_primitive_count g = 1 /\
        geo_intersection_program g = Some pi /\
        geo_bounding_box_program g = Some pb /\
        geo_vars g !! "center" = Some (VFloat3 (position l)) /\
        geo_vars g !! "radius" = Some (VFloat (radius l)) /\
        geo_vars g !! "aabb_min" = Some (VFloat3 (sub3s (position l) (radius l))) /\
        geo_vars g !! "aabb_max" = Some (VFloat3 (add3s (position l) (radius l))).
Proof.
  intros Hc Hi Hb.
  destruct (createGeometryLight_loop_spheres
              {| mat_closest_hit :=
                   [(0, createProgramFromPTXString "redflash.cu" "light_closest_hit")];
                 mat_any_hit := [] |} ls 0 w c pi pb Hc Hi Hb)
    as (gis & Hloop & Hlen & Hall).
  destruct (createGeometryLight_from_group ls w c gis Hc Hloop) as (w' & c' & Hrun & _).
  eexists _, w'. split; [exact Hrun|]. cbn [gg_children gg_acceleration].
  split; [reflexivity|]. split; [exact Hlen|]. exact Hall.
Qed.

(** *** The scene geometry *)

Ltac psimpl :=
  cbn [context width height use_pbo frame_number programs camera mouse
       m_bufferLightParameters frame_count host set_programs
       pgram_intersection pgram_bounding_box
       pgram_intersection_raymarching pgram_bounding_box_raymarching
       pgram_intersection_sphere pgram_bounding_box_sphere
       set_pgram_intersection_raymarching set_pgram_bounding_box_raymarching
       set_pgram_intersection_sphere set_pgram_bounding_box_sphere].

(** X11. [createGeometry] needs nothing but a live context: it creates
    the four raymarching and sphere programs itself before it builds its
    two objects, and leaves the other two program handles, the context
    and the host as they are.  The group it returns, built with [Trbvh],
    holds the raymarched volume (local scale [300 / 4.3]) and a sphere,
    in this order, sharing one material.  [createGeometryLight], which
    reads the sphere programs, goes through right after it and registers
    two lights, whatever the program handles were before. *)
Theorem createGeometry_then_lights (w : World) c :
  context w = Some c ->
  exists gg w1 volume ball light_gg w2 c2,
    createGeometry w = Done gg w1 /\
    programs w1 =
      {| pgram_intersection := pgram_intersection (programs w);
         pgram_bounding_box := pgram_bounding_box (programs w);
         pgram_intersection_raymarching :=
           Some (createProgramFromPTXString "intersect_raymarching.cu" "intersect");
         pgram_bounding_box_raymarching :=
           Some (createProgramFromPTXString "intersect_raymarching.cu" "bounds");
         pgram_intersection_sphere :=
           Some (createProgramFromPTXString "intersect_sphere.cu" "sphere_intersect");
         pgram_bounding_box_sphere :=
           Some (createProgramFromPTXString "intersect_sphere.cu" "bounds") |} /\
    context w1 = Some c /\ host w1 = host w /\
    gg_acceleration gg = Some "Trbvh" /\
    gg_children gg = [volume; ball] /\
    gi_materials volume = gi_materials ball /\
    gi_materials ball =
      [ {| mat_closest_hit := [(0, createProgramFromPTXString "redflash.cu" "closest_hit")];
           mat_any_hit := [(1, createProgramFromPTXString "redflash.cu" "shadow")] |} ] /\
    (exists g,
       gi_geometry volume = Some g /\
       geo_intersection_program g =
         Some (createProgramFromPTXString "intersect_raymarching.cu" "intersect") /\
       geo_vars g !! "local_scale" =
         Some (VFloat3 (div3 (make_float3_1 (lit 300)) (make_float3_1 (lit (Qmake 43 10)))))) /\
    (exists g,
       gi_geometry ball = Some g /\
       geo_intersection_program g =
         Some (createProgramFromPTXString "intersect_sphere.cu" "sphere_intersect") /\
       geo_vars g !! "radius" = Some (VFloat (lit 10))) /\
    createGeometryLight w1 = Done light_gg w2 /\
    length (gg_children light_gg) = 2%nat /\
    context w2 = Some c2 /\
    ctx_vars c2 !! "sysNumberOfLights" = Some (VInt 2).
Proof.
  intros Hc.
  unfold createGeometry, update_programs, createRaymrachingObject, createSphereObject,
    context_createGeometry, context_createGeometryInstance, context_createGeometryGroup.
  mrun ltac:(psimpl; rewrite ?Hc).
  match goal with
  | |- exists gg w1 volume ball light_gg w2 c2, Done ?g ?ww = _ /\ _ =>
      set (w1 := ww);
      assert (Hc1 : context w1 = Some c) by exact Hc;
      destruct (createGeometryLight_loop_spheres
                  {| mat_closest_hit :=
                       [(0, createProgramFromPTXString "redflash.cu" "light_closest_hit")];
                     mat_any_hit := [] |}
                  (createGeometryLight_lights (indeterminate (host w1) 0%nat)
                                              (indeterminate (host w1) 1%nat))
                  0 w1 c _ _ Hc1 eq_refl eq_refl)
        as (gis & Hloop & Hlen & _);
      destruct (createGeometryLight_from_group _ w1 c gis Hc1 Hloop)
        as (w2 & c2 & Hrun & Hc2 & Hn & _)
  end.
  eexists _, w1, _, _, _, w2, c2.
  split; [reflexivity|]. split; [reflexivity|]. split; [exact Hc|].
  split; [reflexivity|]. split; [reflexivity|]. split; [reflexivity|].
  split; [reflexivity|]. split; [reflexivity|].
  split.
  { eexists. split; [reflexivity|]. split; [reflexivity|]. cbn.
    rewrite !lookup_insert_ne by discriminate. apply lookup_insert_eq. }
  split.
  { eexists. split; [reflexivity|]. split; [reflexivity|]. cbn.
    rewrite !lookup_insert_ne by discriminate. apply lookup_insert_eq. }
  split; [exact Hrun|]. split; [exact Hlen|]. split; [exact Hc2|]. exact Hn.
Qed.

(** *** Leaving the process *)

Lemma registerExitHandler_times_atexit (n : nat) :
  forall w : World,
    win32 (host w) = false ->
    exists w',
      registerExitHandler_times n w = Done tt w' /\
      context w' = context w /\
      trace (host w') = trace (host w) /\
      atexit_handlers (host w') =
        repeat call_destroyContext n ++ atexit_handlers (host w).
Proof.
  induction n as [|n IH]; intros w Hw.
  - exists w. auto.
  - cbn [registerExitHandler_times]. unfold bind at 1, registerExitHandler.
    mred. rewrite Hw. mred.
    match goal with |- context [registerExitHandler_times n ?ww] =>
      destruct (IH ww Hw) as (w' & Hrun & Hc & Htr & Hat) end.
    exists w'. split; [exact Hrun|]. split; [exact Hc|]. split; [exact Htr|].
    rewrite Hat. wsimpl.
    change (call_destroyContext :: atexit_handlers (host w))
      with ([call_destroyContext] ++ atexit_handlers (host w)).
    rewrite app_assoc, <- repeat_cons. reflexivity.
Qed.

(** X12. The exit handler.  Where [_WIN32] is not defined, however
    often [registerExitHandler] was called, [exit] leaves no context
    behind and destroys a live one exactly once.  Where it is defined,
    [registerExitHandler] binds [destroyContext] to the closing of the
    window and registers nothing with [atexit]. *)
Theorem exit_after_registerExitHandler (n : nat) (code : Z) (w : World) :
  if win32 (host w)
  then
    exists w1,
      registerExitHandler w = Done tt w1 /\
      close_func (host w1) = Some call_destroyContext /\
      atexit_handlers (host w1) = atexit_handlers (host w) /\
      context w1 = context w /\ trace (host w1) = trace (host w)
  else
    exists w',
      (registerExitHandler_times (S n) ;; exit (A:=unit) code) w = Stop (Exit code) w' /\
      context w' = None /\
      count is_destroy (trace (host w')) =
        (count is_destroy (trace (host w)) +
         match context w with Some _ => 1 | None => 0 end)%nat.
Proof.
  destruct (win32 (host w)) eqn:Hw.
  - unfold registerExitHandler. mred. rewrite Hw. mred.
    eexists. split; [reflexivity|]. wsimpl. auto.
  - destruct (registerExitHandler_times_atexit (S n) w Hw) as (w1 & Hrun & Hc & Htr & Hat).
    unfold bind. rewrite Hrun. unfold exit. mred. rewrite Hat.
    cbn [repeat app run_exit_handlers run_exit_handler]. unfold bind.
    destruct (destroyContext_spec w1) as (w2 & Hd & Hc2 & Hcount).
    rewrite Hd.
    match goal with |- context [run_exit_handlers ?l w2] =>
      destruct (run_exit_handlers_done l w2) as (w3 & Hrest & Hsame & _) end.
    rewrite Hrest. specialize (Hsame Hc2). subst w3.
    exists w2. split; [reflexivity|]. split; [exact Hc2|].
    rewrite Hcount, Htr, Hc. reflexivity.
Qed.

(** *** The triangle mesh *)

Context {LOADER : MeshLoader F T Matrix4x4}.

Lemma resolveDataPath_search_context (filename : string) (locs : list string) :
  forall w : World,
    context (world_of (resolveDataPath_search filename locs w)) = context w.
Proof.
  induction locs as [|q rest IH]; intros w; cbn [resolveDataPath_search].
  - reflexivity.
  - mred. wsimpl. destruct (fs_exists (host w) q).
    + reflexivity.
    + rewrite IH. reflexivity.
Qed.

(** X13. A missing [cow.obj] makes [createGeometryTriangles] throw
    before the mesh loader is called: when none of the three locations
    exists, in a live context, it ends with the exception "Couldn't open
    source file cow.obj" and has printed the three locations it tried
    and nothing else, whatever the mesh loader is.  (The material and the
    two programs it creates before the lookup are not among the things
    the statement speaks of.) *)
Theorem createGeometryTriangles_missing_mesh (w : World) c :
  context w = Some c ->
  (forall q, In q (source_locations w "cow.obj") -> fs_exists (host w) q = false) ->
  exists w',
    createGeometryTriangles w = Stop (Exception "Couldn't open source file cow.obj") w' /\
    trace (host w') =
      trace (host w) ++
      ((fun q => cout [PStr ("[info] resolvePath source_location: " +:+ q)])
         <$> source_locations w "cow.obj").
Proof.
  intros Hc Hmiss.
  assert (H1 := Hmiss _ (or_introl eq_refl)).
  assert (H2 := Hmiss _ (or_intror (or_introl eq_refl))).
  assert (H3 := Hmiss _ (or_intror (or_intror (or_introl eq_refl)))).
  unfold createGeometryTriangles, resolveDataPath.
  mrun ltac:(rewrite ?Hc). cbn [resolveDataPath_search].
  mrun ltac:(rewrite ?H1). mrun ltac:(rewrite ?H2). mrun ltac:(rewrite ?H3).
  eexists. split; [reflexivity|]. wsimpl.
  unfold source_locations. cbn [fmap list_fmap]. rewrite <- !app_assoc. reflexivity.
Qed.

(** X14. When [cow.obj] is found, the mesh is loaded from the place
    [resolveDataPath] returns (one of its three locations, and one that
    exists), with the triangle API switched on, the materials of the file
    kept and the transform [translate(0, 300, 0) * scale(500)]; if the
    loader returns an instance and leaves the context alive, the group
    holds exactly this instance with the albedo colour (0.9, 0.1, 0.1),
    and is built with [Trbvh]. *)
Theorem createGeometryTriangles_loads_first_found (w w1 w2 : World) c c2
    (p : string) (mesh : OptiXMesh F) (gi : GeometryInstance F) :
  context w = Some c ->
  resolveDataPath "cow.obj" w = Done p w1 ->
  loadMesh p
    (createMesh_settings
       {| mat_closest_hit := [(0, createProgramFromPTXString "redflash.cu" "closest_hit")];
          mat_any_hit := [(1, createProgramFromPTXString "redflash.cu" "shadow")] |}
       (createProgramFromPTXString "redflash.cu" "closest_hit")
       (createProgramFromPTXString "redflash.cu" "shadow"))
    (Matrix4x4_mul (Matrix4x4_translate (make_float3 (lit 0) (lit 300) (lit 0)))
                   (Matrix4x4_scale (make_float3_1 (lit 500))))
    w1 = Done mesh w2 ->
  geom_instance mesh = Some gi ->
  context w2 = Some c2 ->
  createGeometryTriangles w =
    Done {| gg_children :=
              [ instance_set "albedo_color"
                  (VFloat3 (make_float3 (lit (Qmake 9 10)) (lit (Qmake 1 10))
                                        (lit (Qmake 1 10)))) gi ];
            gg_acceleration := Some "Trbvh" |} w2 /\
  In p (source_locations w "cow.obj") /\
  fs_exists (host w) p = true.
Proof.
  intros Hc Hpath Hload Hgi Hc2.
  assert (Hc1 : context w1 = Some c).
  { pose proof (resolveDataPath_search_context "cow.obj" (source_locations w "cow.obj") w)
      as Hk.
    unfold resolveDataPath in Hpath. revert Hpath. mred. intros Hpath.
    unfold source_locations in Hk. rewrite Hpath in Hk. simpl in Hk. congruence. }
  split.
  - unfold createGeometryTriangles, createMesh, context_createGeometryGroup.
    mrun ltac:(rewrite ?Hc). rewrite Hpath.
    mrun ltac:(rewrite ?Hc1). rewrite Hload.
    mrun ltac:(rewrite ?Hc2, ?Hgi). cbn [the_instance]. mrun ltac:(rewrite ?Hc2).
    reflexivity.
  - unfold resolveDataPath in Hpath. revert Hpath. mred. intros Hpath.
    destruct (resolveDataPath_search_found _ _ _ _ _ Hpath) as (i & Hi & Hex & _).
    split; [|exact Hex].
    unfold source_locations. apply list_elem_of_In. eapply list_elem_of_lookup_2. exact Hi.
Qed.

End Properties.

(** ** The test of the time limit on binary64

    The loop tests [used_time + delta_time * 1.1 > time_limit].  On IEEE
    numbers a false [>] is the same as [<=] unless an operand is NaN. *)

Lemma SFcompare_antisym (a b : SpecFloat.spec_float) (c : comparison) :
  SpecFloat.SFcompare a b = Some c -> SpecFloat.SFcompare b a = Some (CompOpp c).
Proof.
  destruct a as [sa|sa| |sa ma ea], b as [sb|sb| |sb mb eb]; simpl;
    try discriminate;
    try (destruct sa; intros H; injection H as <-; reflexivity);
    try (destruct sb; intros H; injection H as <-; reflexivity);
    try (intros H; injection H as <-; reflexivity).
  - destruct sa, sb; intros H; injection H as <-; reflexivity.
  - destruct sa, sb; intros H; injection H as <-; try reflexivity;
      rewrite (Z.compare_antisym ea eb);
      destruct (ea ?= eb)%Z eqn:E; simpl; try reflexivity;
      rewrite (Pos.compare_cont_antisym ma mb Eq); reflexivity.
Qed.

Lemma is_nan_compare (a b : float) :
  is_nan a = false -> is_nan b = false ->
  exists c, SpecFloat.SFcompare (Prim2SF a) (Prim2SF b) = Some c.
Proof.
  unfold is_nan. rewrite !negb_false_iff, !FloatAxioms.eqb_spec.
  unfold SpecFloat.SFeqb.
  destruct (Prim2SF a), (Prim2SF b); simpl; intros Ha Hb;
    try discriminate; eauto.
Qed.

(** When neither side is NaN, an iteration that passes the test has
    [used_time + delta_time * 1.1 <= time_limit]. *)
Lemma within_time_limit (used delta limit : float) :
  is_nan (used + delta * lit (Qmake 11 10))%float = false ->
  is_nan limit = false ->
  over_time_limit used delta limit = false ->
  (used + delta * lit (Qmake 11 10) <=? limit)%float = true.
Proof.
  change (over_time_limit used delta limit)
    with (limit <? used + delta * lit (Qmake 11 10))%float.
  generalize (used + delta * lit (Qmake 11 10))%float. intros x Hx Hl.
  rewrite FloatAxioms.ltb_spec, FloatAxioms.leb_spec.
  unfold SpecFloat.SFltb, SpecFloat.SFleb.
  destruct (is_nan_compare _ _ Hl Hx) as [c Hc].
  rewrite Hc, (SFcompare_antisym _ _ _ Hc).
  destruct c; simpl; congruence.
Qed.

(** C1. With a deadline ([use_time_limit]), the batch loop entered with
    [last_time] launches some number [n] of frames and nothing else
    before it reports.  Before each launch it compares
    [estimate k = elapsed k + predicted k * 1.1] with the time limit, in
    [double] arithmetic.  Every frame [k < n] it launched had passed the
    test: [estimate k > time_limit] was false, which is
    [estimate k <= time_limit] unless one of the two is NaN.  The loop
    ends at the first iteration [n] with [estimate n > time_limit]: it
    launches nothing more, prints the time used and left and
    "sampled: n".  Within [fuel] iterations that is the only way it ends;
    and it does end that way whenever some iteration below [fuel] fails
    the test. *)
Theorem deadline_guards_every_launch {F : Type} {SF : Scalar F} {Matrix4x4 : Type}
    {SDK : Sdk F float Matrix4x4}
    (fuel : nat) (o : Options float) (launch_time last_time : float)
    (w : World F float Matrix4x4) c :
  context w = Some c ->
  use_time_limit o = true ->
  Z.of_nat fuel <= INT_MAX ->
  exists (n : nat) (w' : World F float Matrix4x4),
    world_of (main_loop fuel o launch_time 0 last_time w) = w' /\
    (forall k : nat, (k < n)%nat ->
       (time_limit o <? estimate launch_time last_time w k)%float = false /\
       ((estimate launch_time last_time w k <=? time_limit o)%float = true \/
        is_nan (estimate launch_time last_time w k) = true \/
        is_nan (time_limit o) = true)) /\
    ((main_loop fuel o launch_time 0 last_time w = Done tt w' /\
      (n < fuel)%nat /\
      (time_limit o <? estimate launch_time last_time w n)%float = true /\
      trace (host w') =
        trace (host w) ++ repeat (context_launch 0 (width w) (height w)) n ++
        [ cout [PStr "reached time limit! used_time: "; PDouble (elapsed launch_time w n);
                PStr " sec. remain_time: ";
                PDouble (time_limit o - elapsed launch_time w n)%float; PStr " sec."];
          cout [PStr "sampled: "; PInt (Z.of_nat n)] ])
     \/
     (main_loop fuel o launch_time 0 last_time w = Stop OutOfFuel w' /\
      n = fuel /\
      trace (host w') =
        trace (host w) ++ repeat (context_launch 0 (width w) (height w)) n)) /\
    (forall m : nat,
       (m < fuel)%nat ->
       (time_limit o <? estimate launch_time last_time w m)%float = true ->
       main_loop fuel o launch_time 0 last_time w = Done tt w').
Proof.
  intros Hc Hlimit Hfuel.
  assert (Htest : forall k,
             exceeds o launch_time last_time w k =
             (time_limit o <? estimate launch_time last_time w k)%float)
    by (intros [|k]; reflexivity).
  destruct (main_loop_deadline fuel o launch_time last_time w c Hc Hlimit Hfuel)
    as (n & w' & Hw' & Hbefore & Hend & Hstop).
  exists n, w'. split; [exact Hw'|]. split; [|split].
  - intros k Hk. specialize (Hbefore k Hk).
    split; [rewrite <- Htest; exact Hbefore|].
    destruct (is_nan (estimate launch_time last_time w k)) eqn:Hnan; [auto|].
    destruct (is_nan (time_limit o)) eqn:Hnan'; [auto|].
    left.
    apply (within_time_limit (elapsed launch_time w k) (predicted last_time w k)
             (time_limit o) Hnan Hnan').
    destruct k; exact Hbefore.
  - destruct Hend as [(Hrun & Hlt & Hex & Htr)|(Hrun & Hn & Htr)].
    + left. split; [exact Hrun|]. split; [exact Hlt|].
      split; [rewrite <- Htest; exact Hex|]. exact Htr.
    + right. auto.
  - intros m Hm Hex. apply (Hstop m Hm). rewrite Htest. exact Hex.
Qed.

(** With a NaN limit the test is never true. *)
Example nan_limit_never_reached :
  over_time_limit 1000000%float 1000000%float nan = false.
Proof. reflexivity. Qed.

(** ** The dolly on binary32 *)




(** ** The scenarios *)

(** Scenario C: with a deadline of 10 s and frames of 9 s the loop stops
    after one launch and reports one sample. *)
Example scenario_deadline :
  exists w',
    main_loop 10 deadline_10 0%float 0 0%float deadline_world = Done tt w' /\
    count is_launch (trace (host w')) = 1%nat /\
    last (trace (host w')) = Some (cout [PStr "sampled: "; PInt 1]).
Proof. eexists. split; [vm_compute; reflexivity|]. split; reflexivity. Qed.

(** Scenario B: five samples, no deadline, frames of one second: five
    launches, then one export, then the release of the context. *)
Example scenario_samples :
  exists w',
    main_batch 5 (file_options 5) 0%float (scenario_world true (frame_clock 1))
      = Done 0 w' /\
    List.filter (fun e => is_launch e || is_export e || is_destroy e) (trace (host w')) =
      repeat (context_launch 0 480 270) 5 ++
      [displayBufferPNG "out.png" 0 false; context_destroy].
Proof. eexists. split; [vm_compute; reflexivity|]. reflexivity. Qed.

(** Scenario D: [cow.obj] is found in the installed data directory, after
    the two places of the working directory; a file that is nowhere makes
    the search throw. *)
Example scenario_asset_lookup :
  (exists w', resolveDataPath "cow.obj" (scenario_world true (frame_clock 9))
              = Done "/opt/redflash/data/cow.obj" w') /\
  (exists w', resolveDataPath "bunny.obj" (scenario_world true (frame_clock 9))
              = Stop (Exception "Couldn't open source file bunny.obj") w').
Proof. split; eexists; vm_compute; reflexivity. Qed.

(** Scenario A: the two lights of [createGeometryLight] end in a buffer of
    two records, the first one of radius 10 and of type [SPHERE]. *)
Example scenario_lights :
  exists g w' c' b buf l0,
    createGeometryLight (scenario_world true (frame_clock 9)) = Done g w' /\
    context w' = Some c' /\
    ctx_vars c' !! "sysLightParameters" = Some (VBuffer b) /\
    ctx_buffers c' !! b = Some buf /\
    length (buf_data buf) = 2%nat /\
    buf_data buf !! 0%nat = Some (Some l0) /\
    radius l0 = lit 10 /\ lightType l0 = SPHERE /\
    area l0 = fmul (fmul (fmul (lit 4) M_PIf) (lit 10)) (lit 10).
Proof.
  eexists _, _, _, _, _, _. split; [vm_compute; reflexivity|].
  split; [reflexivity|]. split; [vm_compute; reflexivity|].
  split; [vm_compute; reflexivity|]. split; [reflexivity|]. split; [reflexivity|].
  split; [reflexivity|]. split; reflexivity.
Qed.

(** ** Witnesses and counterexamples *)

Lemma deadline_guards_every_launch_witness :
  context deadline_world = Some scenario_context /\
  use_time_limit deadline_10 = true /\
  Z.of_nat 10 <= INT_MAX /\
  estimate 0 0 deadline_world 0 = 0%float /\
  (time_limit deadline_10 <? estimate 0 0 deadline_world 0)%float = false /\
  elapsed 0 deadline_world 1 = 9%float /\
  predicted 0 deadline_world 1 = 9%float /\
  (time_limit deadline_10 <? estimate 0 0 deadline_world 1)%float = true /\
  exists w' : World float32 float unit,
    main_loop 10 deadline_10 0%float 0 0%float deadline_world = Done tt w' /\
    trace (host w') =
      [ context_launch 0 480 270;
        cout [PStr "reached time limit! used_time: "; PDouble 9%float;
              PStr " sec. remain_time: "; PDouble 1%float; PStr " sec."];
        cout [PStr "sampled: "; PInt 1] ].
Proof.
  split; [reflexivity|]. split; [reflexivity|].
  split; [unfold INT_MAX; lia|].
  split; [vm_compute; reflexivity|]. split; [vm_compute; reflexivity|].
  split; [vm_compute; reflexivity|]. split; [vm_compute; reflexivity|].
  split; [vm_compute; reflexivity|].
  destruct (deadline_guards_every_launch 10 deadline_10 0%float 0%float deadline_world
              scenario_context eq_refl eq_refl)
    as (n & w' & _ & Hbefore & Hend & _); [unfold INT_MAX; lia|].
  assert (H0 : (time_limit deadline_10 <? estimate 0 0 deadline_world 0)%float = false)
    by (vm_compute; reflexivity).
  assert (H1 : (time_limit deadline_10 <? estimate 0 0 deadline_world 1)%float = true)
    by (vm_compute; reflexivity).
  assert (Hn : n = 1%nat).
  { destruct n as [|[|n]]; [|reflexivity|].
    - destruct Hend as [(_ & _ & Hex & _)|(_ & Hn & _)]; [congruence | discriminate Hn].
    - destruct (Hbefore 1%nat ltac:(lia)) as [Hno _]. congruence. }
  subst n. exists w'.
  destruct Hend as [(Hrun & _ & _ & Htr)|(_ & Hn & _)]; [|discriminate Hn].
  split; [exact Hrun|]. rewrite Htr. vm_compute. reflexivity.
Defined.

Lemma batch_without_deadline_witness :
  no_time_option (file_args "2") = true /\
  main_options "redflash" (file_args "2") default_options
    (scenario_world true (frame_clock 1))
    = Done (file_options 2) (scenario_world true (frame_clock 1)) /\
  context (scenario_world true (frame_clock 1)) = Some scenario_context /\
  ctx_vars scenario_context !! "output_buffer" = Some (VBuffer 0) /\
  ctx_buffers scenario_context !! 0%nat = Some scenario_buffer /\
  0 <= sample (file_options 2) <= INT_MAX /\
  (Z.to_nat (sample (file_options 2)) <= 2)%nat /\
  (forall k : nat,
     (k < Z.to_nat (sample (file_options 2)))%nat ->
     over_time_limit (used_time 0%float (tick (scenario_world true (frame_clock 1))) k)
       (delta_time (frame_clock 1 0) (tick (scenario_world true (frame_clock 1))) k)
       (of_int 3600) = false) /\
  exists w' (launches : list (Effect float32 float)),
    main_batch 2 (file_options 2) 0%float (scenario_world true (frame_clock 1))
      = Done 0 w' /\
    context w' = None /\
    launches = repeat (context_launch 0 480 270) 2 /\
    count is_launch (trace (host w')) = 2%nat /\
    count is_export (trace (host w')) = 1%nat.
Proof.
  assert (Hok : forall k : nat,
             (k < Z.to_nat (sample (file_options 2)))%nat ->
             over_time_limit
               (used_time 0%float (tick (scenario_world true (frame_clock 1))) k)
               (delta_time (frame_clock 1 0) (tick (scenario_world true (frame_clock 1))) k)
               (of_int 3600) = false).
  { intros [|[|k]] Hk;
      [vm_compute; reflexivity | vm_compute; reflexivity | simpl in Hk; lia]. }
  split; [reflexivity|]. split; [vm_compute; reflexivity|].
  split; [reflexivity|]. split; [reflexivity|]. split; [reflexivity|].
  split; [unfold INT_MAX; simpl; lia|]. split; [simpl; lia|].
  split; [exact Hok|].
  destruct (batch_without_deadline "redflash" (file_args "2")
              (scenario_world true (frame_clock 1)) (scenario_world true (frame_clock 1))
              (file_options 2) 2 0%float (scenario_world true (frame_clock 1))
              scenario_context 0%nat scenario_buffer)
    as (w' & launches & Hrun & Hnull & Hlaunches & _ & Hcount & Hexport).
  - reflexivity.
  - vm_compute. reflexivity.
  - reflexivity.
  - reflexivity.
  - reflexivity.
  - unfold INT_MAX. simpl. lia.
  - simpl. lia.
  - exact Hok.
  - exists w', launches. auto.
Defined.

(** C2, as the claim states it, fails: five samples are asked for and no
    time limit is given, yet with frames of 1000 s the default limit of
    3600 s ends the loop after three launches. *)
Lemma batch_without_deadline_stops_early :
  no_time_option (file_args "5") = true /\
  main_options "redflash" (file_args "5") default_options
    (scenario_world true (frame_clock 1000))
    = Done (file_options 5) (scenario_world true (frame_clock 1000)) /\
  exists w',
    main_batch 5 (file_options 5) 0%float (scenario_world true (frame_clock 1000))
      = Done 0 w' /\
    count is_launch (trace (host w')) = 3%nat /\
    count is_export (trace (host w')) = 1%nat.
Proof.
  split; [reflexivity|]. split; [vm_compute; reflexivity|].
  eexists. split; [vm_compute; reflexivity|]. split; reflexivity.
Qed.


Lemma frame_counter_after_resolve_witness :
  ready (scenario_world false (frame_clock 1)) /\
  forallb (fun e => negb (is_display e))
    [mouse_press GLUT_LEFT_BUTTON GLUT_DOWN 100 100; mouse_motion 340 100] = true /\
  forallb (fun e => negb (is_display e))
    [mouse_press GLUT_LEFT_BUTTON GLUT_UP 340 100] = true /\
  exists w1 w2 w3 w4,
    glutMainLoop [mouse_press GLUT_LEFT_BUTTON GLUT_DOWN 100 100; mouse_motion 340 100]
      (scenario_world false (frame_clock 1)) = Done tt w1 /\
    camera_changed (camera w1) = true /\
    updateCamera w1 = Done tt w2 /\
    camera_changed (camera w2) = false /\
    counter w2 = Some (VUint 1) /\
    glutMainLoop [mouse_press GLUT_LEFT_BUTTON GLUT_UP 340 100] w2 = Done tt w3 /\
    camera_changed (camera w3) = false /\
    updateCamera w3 = Done tt w4 /\
    camera_changed (camera w4) = false /\
    counter w4 = Some (VUint 2).
Proof.
  assert (Hready : ready (scenario_world false (frame_clock 1))).
  { exists scenario_context, 0%nat, scenario_buffer.
    split; [reflexivity|]. split; reflexivity. }
  split; [exact Hready|]. split; [reflexivity|]. split; [reflexivity|].
  destruct (frame_counter_after_resolve (scenario_world false (frame_clock 1))
              [mouse_press GLUT_LEFT_BUTTON GLUT_DOWN 100 100; mouse_motion 340 100]
              [mouse_press GLUT_LEFT_BUTTON GLUT_UP 340 100]
              Hready eq_refl eq_refl)
    as (w1 & w2 & w3 & w4 & u & Hrun1 & Hrun2 & Hch2 & Hcnt2 & Hdirty & Hrun3 & Hrun4 &
        Hch4 & _ & Hclean).
  assert (Hd1 : camera_changed (camera w1) = true).
  { assert (E : world_of (glutMainLoop
                  [mouse_press GLUT_LEFT_BUTTON GLUT_DOWN 100 100; mouse_motion 340 100]
                  (scenario_world false (frame_clock 1))) = w1)
      by (rewrite Hrun1; reflexivity).
    rewrite <- E. vm_compute. reflexivity. }
  destruct (Hdirty Hd1) as [Hu _]. subst u.
  assert (Hd3 : camera_changed (camera w3) = false).
  { assert (E : world_of (glutMainLoop [mouse_press GLUT_LEFT_BUTTON GLUT_UP 340 100] w2)
                = w3) by (rewrite Hrun3; reflexivity).
    rewrite <- E. cbn [glutMainLoop callback]. unfold bind, glutMousePress.
    change (GLUT_UP =? GLUT_DOWN) with false. cbv iota. exact Hch2. }
  destruct (Hclean Hd3) as [_ Hplus].
  exists w1, w2, w3, w4. repeat split; auto.
  apply Hplus. unfold UINT_MAX. lia.
Defined.

Lemma glutResize_dimensions_witness :
  context (scenario_world false (frame_clock 1)) = Some scenario_context /\
  ctx_vars scenario_context !! "output_buffer" = Some (VBuffer 0) /\
  ctx_buffers scenario_context !! 0%nat = Some scenario_buffer /\
  exists wd' c' buf',
    glutResize 640 360 (scenario_world false (frame_clock 1)) = Done tt wd' /\
    camera_changed (camera wd') = true /\
    (width wd', height wd') = ensureMinimumSize (wrap_uint 640) (wrap_uint 360) /\
    context wd' = Some c' /\
    ctx_vars c' !! "output_buffer" = Some (VBuffer 0) /\
    ctx_buffers c' !! 0%nat = Some buf' /\
    buf_dims buf' = [width wd'; height wd'] /\
    (0 <= 640 <= INT_MAX -> 0 <= 360 <= INT_MAX -> ensureMinimumSize 640 360 = (640, 360) ->
     buf_dims buf' = [640; 360]).
Proof.
  split; [reflexivity|]. split; [reflexivity|]. split; [reflexivity|].
  exact (glutResize_dimensions 640 360 (scenario_world false (frame_clock 1))
           scenario_context 0%nat scenario_buffer eq_refl eq_refl eq_refl).
Defined.

(** C5, as the claim states it, fails: a resize to the size the window
    already has returns before the dirty flag is touched, so a clear flag
    stays clear. *)
Lemma glutResize_same_size_keeps_flag_clear :
  width (scenario_world false (frame_clock 1)) = 480 /\
  height (scenario_world false (frame_clock 1)) = 270 /\
  glutResize 480 270 (scenario_world false (frame_clock 1))
    = Done tt (scenario_world false (frame_clock 1)) /\
  camera_changed (camera (scenario_world false (frame_clock 1))) = false.
Proof. split; [reflexivity|]. split; [reflexivity|]. split; reflexivity. Qed.

Lemma createRaymrachingObject_any_scale_witness :
  context (scenario_world true (frame_clock 1)) = Some scenario_context /\
  pgram_intersection_raymarching (programs (scenario_world true (frame_clock 1)))
    = Some (createProgramFromPTXString "intersect_raymarching.cu" "intersect") /\
  pgram_bounding_box_raymarching (programs (scenario_world true (frame_clock 1)))
    = Some (createProgramFromPTXString "intersect_raymarching.cu" "bounds") /\
  exists gi g,
    createRaymrachingObject volume_center volume_world_scale
      volume_unit_scale (scenario_world true (frame_clock 1))
      = Done gi (scenario_world true (frame_clock 1)) /\
    gi_geometry gi = Some g /\
    geo_primitive_count g = 1 /\
    geo_vars g !! "center" = Some (VFloat3 volume_center) /\
    geo_vars g !! "local_scale"
      = Some (VFloat3 (div3 volume_world_scale volume_unit_scale)) /\
    geo_vars g !! "aabb_min"
      = Some (VFloat3 (sub3 volume_center volume_world_scale)) /\
    geo_vars g !! "aabb_max"
      = Some (VFloat3 (add3 volume_center volume_world_scale)).
Proof.
  split; [reflexivity|]. split; [reflexivity|]. split; [reflexivity|].
  exact (createRaymrachingObject_any_scale
           volume_center volume_world_scale volume_unit_scale
           (scenario_world true (frame_clock 1)) scenario_context _ _
           eq_refl eq_refl eq_refl).
Defined.

(** C7, as the claim states it, fails: a zero [unit_scale] raises nothing;
    the call returns a geometry instance whose [local_scale] is infinite
    in every component. *)
Lemma createRaymrachingObject_zero_unit_scale :
  exists gi g,
    createRaymrachingObject volume_center volume_world_scale
      zero_unit_scale (scenario_world true (frame_clock 1))
      = Done gi (scenario_world true (frame_clock 1)) /\
    gi_geometry gi = Some g /\
    geo_vars g !! "local_scale"
      = Some (VFloat3 (make_float3_1 (SpecFloat.S754_infinity false))).
Proof.
  eexists _, _. split; [vm_compute; reflexivity|]. split; [reflexivity|].
  vm_compute. reflexivity.
Qed.

(** C10, as the claim states it, fails: with the left button held, the
    right button is pressed and released while the dirty flag is clear;
    the pointer move that follows the release, and precedes any other
    press, still dollies the eye from 10 to 5 units and sets the flag. *)
Lemma pointer_move_after_release_moves_camera :
  exists w1 w2,
    glutMainLoop press_and_release (scenario_world false (frame_clock 1)) = Done tt w1 /\
    camera_eye (camera w1) = make_float3 (lit 0) (lit 0) (lit 10) /\
    camera_changed (camera w1) = false /\
    glutMouseMotion 340 100 w1 = Done tt w2 /\
    camera_eye (camera w2) = make_float3 (lit 0) (lit 0) (lit 5) /\
    camera_changed (camera w2) = true.
Proof.
  eexists _, _. split; [vm_compute; reflexivity|].
  split; [reflexivity|]. split; [reflexivity|].
  split; [vm_compute; reflexivity|]. split; reflexivity.
Qed.

(** ** Witnesses of the further properties *)

Lemma scenario_world_ready (changed : bool) (clk : nat -> float) :
  ready (scenario_world changed clk).
Proof.
  exists scenario_context, 0%nat, scenario_buffer. repeat split; reflexivity.
Qed.

Lemma session_ends_by_quit_or_overflow_witness :
  ready (scenario_world false (frame_clock 1)) /\
  exists w',
    session scenario_session (scenario_world false (frame_clock 1)) = Stop (Exit 0) w' /\
    context w' = None /\
    count is_destroy (trace (host w')) = 1%nat /\
    count is_launch (trace (host w')) = 0%nat /\
    count is_export (trace (host w')) = 1%nat.
Proof.
  split; [apply scenario_world_ready|].
  pose proof (session_ends_by_quit_or_overflow scenario_session
                (scenario_world false (frame_clock 1)) (scenario_world_ready _ _))
    as (Hend & Hexport).
  change (List.find ends_session scenario_session)
    with (Some (keyboard "q" 0 0)) in Hend.
  destruct (session scenario_session (scenario_world false (frame_clock 1)))
    as [[] w'|s w']; [destruct Hend|].
  cbn [is_quit] in Hend.
  change ((Ascii.eqb "q" "q" || Ascii.eqb "q" "027")%char) with true in Hend.
  destruct Hend as (-> & Hc & Hd & Hl). exists w'. auto.
Defined.

Lemma glutDisplay_overflows_text_buffer_witness :
  context scenario_accumulated = Some scenario_context /\
  ctx_vars scenario_context !! "output_buffer" = Some (VBuffer 0) /\
  ctx_buffers scenario_context !! 0%nat = Some scenario_buffer /\
  exists w',
    glutDisplay scenario_accumulated = Stop OutOfBounds w' /\
    counter w' = Some (VUint 7) /\
    trace (host w') =
      [ context_launch 0 480 270;
        displayBufferGL 0;
        displayFps 0;
        displayText [PStr "frame_number:   "; PInt 8] 10 80 ] /\
    frame_count w' = 1.
Proof.
  split; [reflexivity|]. split; [reflexivity|]. split; [reflexivity|].
  destruct (glutDisplay_overflows_text_buffer scenario_accumulated
              scenario_context 0%nat scenario_buffer eq_refl eq_refl eq_refl)
    as (w' & Hrun & Hcnt & Htr & Hfc & _).
  exists w'. split; [exact Hrun|]. split; [exact Hcnt|]. split; [exact Htr | exact Hfc].
Defined.

Lemma interaction_restarts_accumulation_witness :
  ready scenario_accumulated /\
  is_display (reshape 640 360) = false /\
  frame_number scenario_accumulated = 7 /\
  camera_changed (camera scenario_accumulated) = false /\
  exists w1 w2,
    callback (reshape 640 360) scenario_accumulated = Done tt w1 /\
    camera_changed (camera w1) = true /\
    updateCamera w1 = Done tt w2 /\
    counter w2 = Some (VUint 1).
Proof.
  assert (Hready : ready scenario_accumulated).
  { exists scenario_context, 0%nat, scenario_buffer. repeat split; reflexivity. }
  split; [exact Hready|]. split; [reflexivity|]. split; [reflexivity|].
  split; [reflexivity|].
  destruct (interaction_restarts_accumulation (reshape 640 360)
              scenario_accumulated Hready eq_refl)
    as (w1 & w2 & Hrun & Hch & Hrun2 & Hcnt & _).
  exists w1, w2. auto.
Defined.

Lemma main_batch_deadline_witness :
  context (scenario_world true (frame_clock 9)) = Some scenario_context /\
  ctx_vars scenario_context !! "output_buffer" = Some (VBuffer 0) /\
  ctx_buffers scenario_context !! 0%nat = Some scenario_buffer /\
  use_time_limit deadline_10 = true /\
  Z.of_nat 10 <= INT_MAX /\
  (1 < 10)%nat /\
  exceeds deadline_10 0%float (frame_clock 9 0)
    (tick (scenario_world true (frame_clock 9))) 1 = true /\
  exists (n : nat) w',
    (n <= 1)%nat /\
    exceeds deadline_10 0%float (frame_clock 9 0)
      (tick (scenario_world true (frame_clock 9))) n = true /\
    main_batch 10 deadline_10 0%float (scenario_world true (frame_clock 9)) = Done 0 w' /\
    context w' = None.
Proof.
  split; [reflexivity|]. split; [reflexivity|]. split; [reflexivity|].
  split; [reflexivity|]. split; [unfold INT_MAX; lia|]. split; [lia|].
  split; [vm_compute; reflexivity|].
  destruct (main_batch_deadline 10 1 deadline_10 0%float
              (scenario_world true (frame_clock 9)) scenario_context 0%nat scenario_buffer)
    as (n & w' & Hn & _ & Hex & Hrun & Hc & _).
  - reflexivity.
  - reflexivity.
  - reflexivity.
  - reflexivity.
  - unfold INT_MAX. lia.
  - lia.
  - vm_compute. reflexivity.
  - exists n, w'. auto.
Defined.

Lemma main_batch_no_samples_witness :
  context (scenario_world true (frame_clock 1)) = Some scenario_context /\
  ctx_vars scenario_context !! "output_buffer" = Some (VBuffer 0) /\
  ctx_buffers scenario_context !! 0%nat = Some scenario_buffer /\
  use_time_limit (file_options 0) = false /\
  sample (file_options 0) <= 0 /\
  exists w',
    main_batch 5 (file_options 0) 0%float (scenario_world true (frame_clock 1))
      = Done 0 w' /\
    context w' = None /\
    count is_launch (trace (host w')) = 0%nat.
Proof.
  split; [reflexivity|]. split; [reflexivity|]. split; [reflexivity|].
  split; [reflexivity|]. split; [simpl; lia|].
  destruct (main_batch_no_samples 5 (file_options 0) 0%float
              (scenario_world true (frame_clock 1)) scenario_context 0%nat scenario_buffer)
    as (w' & Hrun & Hc & Hl & _).
  - reflexivity.
  - reflexivity.
  - reflexivity.
  - reflexivity.
  - simpl. lia.
  - exists w'. auto.
Defined.

Lemma main_loop_advances_counter_witness :
  context deadline_world = Some scenario_context /\
  exists n : nat,
    count is_launch
      (trace (host (world_of (main_loop 10 deadline_10 0%float 0 0%float deadline_world))))
      = (0 + n)%nat /\
    ((0 < n)%nat ->
     frame_number (world_of (main_loop 10 deadline_10 0%float 0 0%float deadline_world))
       = wrap_int (1 + Z.of_nat n)).
Proof.
  split; [reflexivity|].
  destruct (main_loop_advances_counter 10 deadline_10 0%float 0 0%float deadline_world
              scenario_context eq_refl)
    as (n & Hl & _ & Hpos).
  exists n. split; [exact Hl|]. intros Hn. exact (proj1 (Hpos Hn)).
Defined.

Lemma updateLightParameters_overwrites_prefix_witness :
  context scenario_lit_world = Some scenario_lit_context /\
  m_bufferLightParameters scenario_lit_world = Some 1%nat /\
  ctx_buffers scenario_lit_context !! 1%nat = Some scenario_light_buffer /\
  (length (createGeometryLight_lights scenario_light scenario_light)
   <= length (buf_data scenario_light_buffer))%nat /\
  exists w' c' buf',
    updateLightParameters (createGeometryLight_lights scenario_light scenario_light)
      scenario_lit_world = Done tt w' /\
    context w' = Some c' /\
    ctx_buffers c' = <[1%nat := buf']> (ctx_buffers scenario_lit_context) /\
    buf_data buf' =
      (Some <$> createGeometryLight_lights scenario_light scenario_light) ++ [None] /\
    updateLightParameters (createGeometryLight_lights scenario_light scenario_light) w'
      = Done tt w'.
Proof.
  split; [reflexivity|]. split; [reflexivity|]. split; [reflexivity|].
  split; [simpl; lia|].
  destruct (updateLightParameters_overwrites_prefix
              (createGeometryLight_lights scenario_light scenario_light)
              scenario_lit_world scenario_lit_context 1%nat scenario_light_buffer
              eq_refl eq_refl eq_refl)
    as (w' & c' & buf' & Hrun & Hc & _ & Hbufs & Hdata & _ & _ & _ & _ & _ & Hagain).
  - simpl. lia.
  - exists w', c', buf'. auto.
Defined.

Lemma createGeometryLight_spheres_witness :
  context (scenario_world true (frame_clock 1)) = Some scenario_context /\
  pgram_intersection_sphere (programs (scenario_world true (frame_clock 1)))
    = Some (createProgramFromPTXString "intersect_sphere.cu" "sphere_intersect") /\
  pgram_bounding_box_sphere (programs (scenario_world true (frame_clock 1)))
    = Some (createProgramFromPTXString "intersect_sphere.cu" "bounds") /\
  exists light_group w',
    createGeometryLight_from (createGeometryLight_lights scenario_light scenario_light)
      (scenario_world true (frame_clock 1)) = Done light_group w' /\
    gg_acceleration light_group = Some "Trbvh" /\
    length (gg_children light_group) = 2%nat /\
    exists gi g,
      gg_children light_group !! 1%nat = Some gi /\
      gi_geometry gi = Some g /\
      geo_vars g !! "radius" = Some (VFloat (lit 2)) /\
      gi_vars gi !! "emission_color" =
        Some (VFloat3 (make_float3 (lit 10) (lit (Qmake 1 100)) (lit (Qmake 1 100)))).
Proof.
  split; [reflexivity|]. split; [reflexivity|]. split; [reflexivity|].
  destruct (createGeometryLight_spheres
              (createGeometryLight_lights scenario_light scenario_light)
              (scenario_world true (frame_clock 1)) scenario_context
              (createProgramFromPTXString "intersect_sphere.cu" "sphere_intersect")
              (createProgramFromPTXString "intersect_sphere.cu" "bounds")
              eq_refl eq_refl eq_refl)
    as (g & w' & Hrun & Hacc & Hlen & Hall).
  exists g, w'. split; [exact Hrun|]. split; [exact Hacc|]. split; [exact Hlen|].
  destruct (Hall 1%nat _ eq_refl)
    as (gi & geo & Hgi & Hgeo & _ & Hem & _ & _ & _ & _ & Hr & _).
  exists gi, geo. auto.
Defined.

Lemma createGeometry_then_lights_witness :
  context (scenario_world true (frame_clock 1)) = Some scenario_context /\
  exists gg w1 light_gg w2,
    createGeometry (scenario_world true (frame_clock 1)) = Done gg w1 /\
    length (gg_children gg) = 2%nat /\
    createGeometryLight w1 = Done light_gg w2 /\
    length (gg_children light_gg) = 2%nat.
Proof.
  split; [reflexivity|].
  destruct (createGeometry_then_lights (scenario_world true (frame_clock 1))
              scenario_context eq_refl)
    as (gg & w1 & volume & ball & light_gg & w2 & c2 & Hrun & _ & _ & _ & _ & Hch & _ & _ &
        _ & _ & Hlight & Hlen & _).
  exists gg, w1, light_gg, w2. rewrite Hch. auto.
Defined.

Lemma createGeometryTriangles_missing_mesh_witness :
  context scenario_no_assets = Some scenario_context /\
  (forall q, In q (source_locations scenario_no_assets "cow.obj") ->
             fs_exists (host scenario_no_assets) q = false) /\
  exists w',
    createGeometryTriangles scenario_no_assets =
      Stop (Exception "Couldn't open source file cow.obj") w' /\
    trace (host w') =
      [ cout [PStr "[info] resolvePath source_location: /home/render/cow.obj"];
        cout [PStr "[info] resolvePath source_location: /home/render/data/cow.obj"];
        cout [PStr "[info] resolvePath source_location: /opt/redflash/data/cow.obj"] ].
Proof.
  split; [reflexivity|]. split; [intros q _; reflexivity|].
  destruct (createGeometryTriangles_missing_mesh scenario_no_assets scenario_context
              eq_refl (fun q _ => eq_refl))
    as (w' & Hrun & Htr).
  exists w'. split; [exact Hrun|]. rewrite Htr. reflexivity.
Defined.

Lemma createGeometryTriangles_loads_first_found_witness :
  context (scenario_world true (frame_clock 1)) = Some scenario_context /\
  resolveDataPath "cow.obj" (scenario_world true (frame_clock 1))
    = Done "/opt/redflash/data/cow.obj" scenario_cow_found /\
  loadMesh "/opt/redflash/data/cow.obj"
    (createMesh_settings
       {| mat_closest_hit := [(0, createProgramFromPTXString "redflash.cu" "closest_hit")];
          mat_any_hit := [(1, createProgramFromPTXString "redflash.cu" "shadow")] |}
       (createProgramFromPTXString "redflash.cu" "closest_hit")
       (createProgramFromPTXString "redflash.cu" "shadow"))
    (Matrix4x4_mul (Matrix4x4_translate (make_float3 (lit 0) (lit 300) (lit 0)))
                   (Matrix4x4_scale (make_float3_1 (lit 500))))
    scenario_cow_found = Done scenario_cow_mesh scenario_cow_found /\
  geom_instance scenario_cow_mesh = Some scenario_cow_instance /\
  context scenario_cow_found = Some scenario_context /\
  createGeometryTriangles (scenario_world true (frame_clock 1)) =
    Done {| gg_children :=
              [ instance_set "albedo_color"
                  (VFloat3 (make_float3 (lit (Qmake 9 10)) (lit (Qmake 1 10))
                                        (lit (Qmake 1 10)))) scenario_cow_instance ];
            gg_acceleration := Some "Trbvh" |} scenario_cow_found /\
  In "/opt/redflash/data/cow.obj"
     (source_locations (scenario_world true (frame_clock 1)) "cow.obj") /\
  fs_exists (host (scenario_world true (frame_clock 1))) "/opt/redflash/data/cow.obj"
    = true.
Proof.
  split; [reflexivity|]. split; [vm_compute; reflexivity|].
  split; [reflexivity|]. split; [reflexivity|]. split; [reflexivity|].
  apply (createGeometryTriangles_loads_first_found
           (scenario_world true (frame_clock 1)) scenario_cow_found scenario_cow_found
           scenario_context scenario_context
           "/opt/redflash/data/cow.obj" scenario_cow_mesh scenario_cow_instance);
    [reflexivity | vm_compute; reflexivity | reflexivity | reflexivity | reflexivity].
Defined.

